(** * Project provisioning and metadata synchronisation
    (server/openshift/project.go)

    A shallow embedding of the OpenShift project handlers: validation,
    project creation, admin role binding, namespace annotations and the
    read-only queries.  Go strings are [string], HTTP status codes are
    [Z], a JSON document is a [JSON] tree whose objects are finite maps
    (gabs holds them as Go maps), and every blocking network call is one
    node of a program tree that a cluster answers.

    Not modelled: log output (it never influences a result) and the wire
    encoding of JSON (a body is either a document or undecodable bytes;
    numbers travel through unchanged), and Go's case mapping of
    letters outside ASCII. *)

From stdpp Require Import gmap strings list fin_maps.
From Stdlib Require Import ZArith Ascii String.

#[local] Set Warnings "-register-all".
#[local] Open Scope string_scope.
#[local] Open Scope Z_scope.

(** ** Strings *)

(** strings.ToLower and strings.ToUpper as Go computes them for a
    string of ASCII bytes: the 26 letters are mapped, every other byte
    is kept.  For a string with a byte above 127 Go maps the Unicode
    letters as well; that part is left out, bytes above 127 are kept
    as they are. *)
Definition lowerByte (c : ascii) : ascii :=
  let n := nat_of_ascii c in
  if (Nat.leb 65 n && Nat.leb n 90)%bool then ascii_of_nat (n + 32) else c.

Definition upperByte (c : ascii) : ascii :=
  let n := nat_of_ascii c in
  if (Nat.leb 97 n && Nat.leb n 122)%bool then ascii_of_nat (n - 32) else c.

Fixpoint mapBytes (f : ascii -> ascii) (s : string) : string :=
  match s with
  | EmptyString => EmptyString
  | String c rest => String (f c) (mapBytes f rest)
  end.

Definition ToLower (s : string) : string := mapBytes lowerByte s.
Definition ToUpper (s : string) : string := mapBytes upperByte s.

(** Every byte is below utf8.RuneSelf: the strings on which ToLower and
    ToUpper above are all of Go's case mapping. *)
Fixpoint isASCII (s : string) : bool :=
  match s with
  | EmptyString => true
  | String c rest => Nat.ltb (nat_of_ascii c) 128 && isASCII rest
  end.

(** len(s), as a Go int. *)
Definition len (s : string) : Z := Z.of_nat (String.length s).

(** strings.Split(s, sep) for a one-byte separator. *)
Fixpoint splitOn (sep : ascii) (s : string) (field : string) : list string :=
  match s with
  | EmptyString => [field]
  | String c rest =>
      if Ascii.eqb c sep then field :: splitOn sep rest EmptyString
      else splitOn sep rest (field ++ String c EmptyString)
  end.

Definition Split (s : string) (sep : ascii) : list string :=
  splitOn sep s EmptyString.

(** ** JSON documents *)

(** What encoding/json decodes into interface{}: nil, bool, number,
    string, []interface{} and map[string]interface{}. *)
Inductive JSON : Type :=
| JNull
| JBool (b : bool)
| JNum (n : Z)
| JStr (s : string)
| JArr (elems : list JSON)
| JObj (fields : gmap string JSON).

Definition isNil (j : JSON) : bool :=
  match j with JNull => true | _ => false end.

(** ** The gabs container (github.com/Jeffail/gabs, version 1.4.0)

    A *Container is a pointer to one interface{} value.  Search returns
    the nil pointer for a path that does not exist, and a container
    that holds nil for a path that ends in a JSON null; Data, S and
    Children may be called on the nil pointer, Set may not. *)
Module gabs.

(** The container Search returns, [None] being the nil pointer: walk
    the hierarchy through objects; on meeting an array before the end,
    collect the data of every element in which the rest is found. *)
Fixpoint SearchContainer (hierarchy : list string) : JSON -> option JSON :=
  match hierarchy with
  | [] => fun object => Some object
  | key :: rest =>
      fix at_key (object : JSON) : option JSON :=
        match object with
        | JObj mmap =>
            match mmap !! key with
            | Some child => SearchContainer rest child
            | None => None
            end
        | JArr marray =>
            let tmpArray := omap at_key marray in
            match tmpArray with
            | [] => None
            | _ => Some (JArr tmpArray)
            end
        | _ => None
        end
  end.

(** Data() of a container: nil for the nil pointer. *)
Definition Data (g : option JSON) : JSON :=
  match g with
  | Some object => object
  | None => JNull
  end.

(** Search(hierarchy...).Data(), the way the handlers read a document. *)
Definition Search (hierarchy : list string) (g : JSON) : JSON :=
  Data (SearchContainer hierarchy g).

(** S is the shorthand of Search for a hierarchy given element-wise;
    on the data of the nil pointer it finds nothing, as on the nil
    pointer itself. *)
Definition S (hierarchy : list string) (g : JSON) : JSON := Search hierarchy g.

(** Path: Search with the hierarchy written in dot notation, as the
    container it returns and as that container's data. *)
Definition PathContainer (path : string) (g : JSON) : option JSON :=
  SearchContainer (Split path ".") g.

Definition Path (path : string) (g : JSON) : JSON :=
  Search (Split path ".") g.

(** Set: store a value under a path, creating the missing objects on
    the way; on a path collision the document is left as it is (the
    callers drop the error). *)
Fixpoint Set_ (value : JSON) (path : list string) (object : JSON) : JSON :=
  match path with
  | [] => value
  | key :: rest =>
      match (if isNil object then JObj ∅ else object) with
      | JObj mmap =>
          JObj (<[key := Set_ value rest (default JNull (mmap !! key))]> mmap)
      | other => other
      end
  end.

(** ArrayAppend: append to the array under the path; where there is no
    array, a new one is started, with the value found there as its
    first element unless that value is nil. *)
Definition ArrayAppend (value : JSON) (path : list string) (g : JSON) : JSON :=
  match Search path g with
  | JArr array => Set_ (JArr (array ++ [value])%list) path g
  | JNull => Set_ (JArr [value]) path g
  | other => Set_ (JArr [other; value]) path g
  end.

(** Children: the elements of an array or the values of an object (Go
    leaves the order of the latter open; the map's own order is taken
    here), an error for anything else. *)
Definition Children (g : JSON) : option (list JSON) :=
  match g with
  | JArr array => Some array
  | JObj mmap => Some (snd <$> map_to_list mmap)
  | _ => None
  end.

(** Writing through a located container.  [g.Path(p)] hands out the
    very Go map stored inside [g] when the path ends in an object, so
    a Set on the result is seen by [g]; when the path ends anywhere
    else the result is detached from [g] and a Set on it is lost. *)
Fixpoint store (hierarchy : list string) (new : JSON) (object : JSON) : JSON :=
  match hierarchy with
  | [] => new
  | key :: rest =>
      match object with
      | JObj mmap =>
          match mmap !! key with
          | Some child => JObj (<[key := store rest new child]> mmap)
          | None => object
          end
      | _ => object
      end
  end.

(** What [g.Path(path).Set(value, key)] leaves of [g] when Path has
    found a container: the entry is written into an object of [g]; a
    container that holds nil takes the entry into a map of its own, and
    any other value is a path collision, both leaving [g] as it is.
    On the nil pointer that Path returns for a missing path Set panics:
    the callers check [PathContainer] before they come here. *)
Definition SetAt (path : string) (value : JSON) (key : string) (g : JSON) : JSON :=
  match Path path g with
  | JObj mmap => store (Split path ".") (Set_ value [key] (JObj mmap)) g
  | _ => g
  end.

End gabs.

(** ** Errors *)

(** A Go [error] value.  project.go builds its own with errors.New; the
    cluster resolver has its own error (spec 4.1), and the HTTP client
    reports a failed exchange with an error of the transport. *)
Inductive error : Type :=
| errorsNew (text : string)
| NotFoundError (clusterId : string)
| TransportError (text : string).

(** err.Error() *)
Definition Error (err : error) : string :=
  match err with
  | errorsNew text => text
  | NotFoundError _ => "cluster unknown"
  | TransportError text => text
  end.

(** ** HTTP exchanges *)

Definition StatusOK : Z := 200.
Definition StatusCreated : Z := 201.
Definition StatusBadRequest : Z := 400.
Definition StatusConflict : Z := 409.

(** A resolved cluster client: the cluster it talks to and its base URL. *)
Record ClusterClient : Type := { clusterId : string; baseURL : string }.

(** The plugin holds the configured clusters. *)
Record Plugin : Type := { clusters : list ClusterClient }.

Inductive body : Type :=
| Undecodable (raw : string)
| Doc (document : JSON).

Record Request : Type :=
  { reqClient : ClusterClient; reqMethod : string; reqPath : string;
    reqBody : option JSON }.

Record Response : Type := { StatusCode : Z; Body : body }.

(** What client.Do gives back: a response, or the transport's error text. *)
Definition answer : Type := Response + string.

(** gabs.ParseJSONBuffer(resp.Body) *)
Definition ParseJSONBuffer (b : body) : option JSON :=
  match b with
  | Doc document => Some document
  | Undecodable _ => None
  end.

(** ** Programs

    A handler is a tree: it returns, panics (a failed type assertion or
    a nil pointer), or issues one request and continues with the
    cluster's answer. *)
Inductive prog (A : Type) : Type :=
| Ret (a : A)
| Panic
| Do (req : Request) (k : answer -> prog A).

Arguments Ret {A} a.
Arguments Panic {A}.
Arguments Do {A} req k.

Fixpoint bind {A B : Type} (p : prog A) (f : A -> prog B) : prog B :=
  match p with
  | Ret a => f a
  | Panic => Panic
  | Do req k => Do req (fun ans => bind (k ans) f)
  end.

#[export] Instance prog_ret : MRet prog := @Ret.
#[export] Instance prog_bind : MBind prog := fun A B f p => bind p f.

(** A cluster (or a fleet of them) answers requests and moves on. *)
Definition server (W : Type) : Type := Request -> W -> answer * W.

Inductive outcome (A : Type) : Type :=
| Done (a : A)
| Panicked.

Arguments Done {A} a.
Arguments Panicked {A}.

(** Running a program against a server: the outcome, the server's final
    state and the exchanges in the order they happened. *)
Fixpoint run {W A : Type} (srv : server W) (p : prog A) (w : W)
  : outcome A * W * list (Request * answer) :=
  match p with
  | Ret a => (Done a, w, [])
  | Panic => (Panicked, w, [])
  | Do req k =>
      let '(ans, w1) := srv req w in
      let '(o, w2, tr) := run srv (k ans) w1 in
      (o, w2, (req, ans) :: tr)
  end.

(** The requests a run has sent. *)
Definition requests {W A : Type} (r : outcome A * W * list (Request * answer))
  : list Request := fst <$> snd r.

Definition result {W A : Type} (r : outcome A * W * list (Request * answer))
  : outcome A := fst (fst r).

(** Reading a trace: whether a request went to a cluster with a method
    and a path, the bodies sent with such requests, and the documents
    served in answer to them. *)
Definition matches (id method path : string) (req : Request) : bool :=
  String.eqb (clusterId (reqClient req)) id
  && String.eqb (reqMethod req) method
  && String.eqb (reqPath req) path.

Definition sent (id method path : string) (tr : list (Request * answer))
  : list JSON :=
  omap (fun e : Request * answer =>
          if matches id method path (fst e) then reqBody (fst e) else None) tr.

Definition served (id method path : string) (tr : list (Request * answer))
  : list JSON :=
  omap (fun e : Request * answer =>
          if matches id method path (fst e) then
            match snd e with
            | inl resp => ParseJSONBuffer (Body resp)
            | inr _ => None
            end
          else None) tr.

(** ** What the handlers write *)

Record ProjectInformation : Type :=
  { Kontierungsnummer : string; MegaID : string }.

Record NewTestProjectCommand : Type :=
  { Project : string; ClusterId : string }.

(** The value handed to c.JSON. *)
Inductive payload : Type :=
| ApiResponse (Message : string)
| ProjectInformationBody (pi : option ProjectInformation).

(** One c.JSON(code, obj) call. *)
Definition written : Type := Z * payload.

(** ** A reference cluster

    An in-memory stand-in for the platform, used to exercise the handlers
    on concrete inputs.  It keeps one document per cluster and path:
    a GET serves the stored document (404 when there is none), a PUT
    stores the body it is sent, and a POST of a project request creates
    the namespace and its admin role binding from [template] and
    [binding] (409 when the namespace exists). *)
Definition memStore : Type := gmap (string * string) JSON.

Definition memCluster (template binding : JSON) : server memStore :=
  fun req w =>
    let at_ (path : string) := (clusterId (reqClient req), path) in
    if String.eqb (reqMethod req) "GET" then
      match w !! at_ (reqPath req) with
      | Some document => (inl {| StatusCode := 200; Body := Doc document |}, w)
      | None => (inl {| StatusCode := 404; Body := Undecodable "not found" |}, w)
      end
    else if String.eqb (reqMethod req) "PUT" then
      match reqBody req with
      | Some document =>
          (inl {| StatusCode := 200; Body := Doc document |},
           <[at_ (reqPath req) := document]> w)
      | None => (inl {| StatusCode := 400; Body := Undecodable "no body" |}, w)
      end
    else
      match gabs.Path "metadata.name" (default JNull (reqBody req)) with
      | JStr name =>
          let namespace := at_ ("api/v1/namespaces/" ++ name) in
          let admins := at_ ("oapi/v1/namespaces/" ++ name ++ "/rolebindings/admin") in
          match w !! namespace with
          | Some _ => (inl {| StatusCode := 409; Body := Undecodable "exists" |}, w)
          | None =>
              (inl {| StatusCode := 201; Body := Doc template |},
               <[namespace := template]> (<[admins := binding]> w))
          end
      | _ => (inl {| StatusCode := 400; Body := Undecodable "no name" |}, w)
      end.

(** A server that is down: every exchange fails in the transport. *)
Definition unreachable : server unit :=
  fun _ w => (inr "connection refused", w).

(** A namespace as the platform hands it out, and an empty binding. *)
Definition freshNamespace : JSON :=
  JObj {[ "kind" := JStr "Namespace";
          "metadata" := JObj {[ "annotations" :=
                                  JObj {[ "openshift.io/display-name" := JStr "" ]} ]} ]}.

Definition emptyBinding : JSON :=
  JObj {[ "kind" := JStr "RoleBinding"; "userNames" := JArr [] ]}.

(** A namespace that comes with a MEGA-ID annotation of its own, one
    whose annotations are null, and one without annotations. *)
Definition labelledNamespace : JSON :=
  JObj {[ "kind" := JStr "Namespace";
          "metadata" := JObj {[ "annotations" :=
                                  JObj {[ "openshift.io/MEGAID" := JStr "old" ]} ]} ]}.


Definition plainNamespace : JSON :=
  JObj {[ "kind" := JStr "Namespace";
          "metadata" := JObj {[ "name" := JStr "demo" ]} ]}.

Definition c1Client : ClusterClient :=
  {| clusterId := "c1"; baseURL := "https://c1.example" |}.

Definition oneCluster : Plugin := {| clusters := [c1Client] |}.

(** A reference cluster that already holds the project "demo". *)
Definition demoStore : memStore :=
  {[ ("c1", "api/v1/namespaces/demo") := freshNamespace;
     ("c1", "oapi/v1/namespaces/demo/rolebindings/admin") := emptyBinding ]}.

(** A reference cluster with a project list of two. *)
Definition listingStore : memStore :=
  {[ ("c1", "oapi/v1/projects") :=
       JObj {[ "kind" := JStr "ProjectList";
               "items" :=
                 JArr [ JObj {[ "metadata" := JObj {[ "name" := JStr "alpha" ]} ]};
                        JObj {[ "metadata" := JObj {[ "name" := JStr "beta" ]} ]} ] ]} ]}.

(** A permission check that lets everyone through. *)
Definition everyoneIsAdmin : Plugin -> string -> string -> string -> prog (option error) :=
  fun _ _ _ _ => Ret None.

(** The members of the admin role binding a reference cluster holds. *)
Definition membersOf (w : memStore) (cluster project : string) : JSON :=
  gabs.Search ["userNames"]
    (default JNull (w !! (cluster, "oapi/v1/namespaces/" ++ project ++ "/rolebindings/admin"))).

(** Closing an equation between closed terms by evaluation. *)
Ltac computed :=
  match goal with
  | |- ?lhs = _ => vm_cast_no_check (@eq_refl _ lhs)
  end.

(** ** Commands and mail of the remaining handlers *)

(** common.NewProjectCommand, as far as project.go reads it. *)
Module NewProjectCommand.
Record t : Type :=
  { ClusterId : string; Project : string; Billing : string; MegaId : string }.
End NewProjectCommand.

(** common.UpdateProjectInformationCommand, as far as project.go reads it. *)
Module UpdateProjectInformationCommand.
Record t : Type :=
  { ClusterId : string; Project : string; Billing : string; MegaID : string }.
End UpdateProjectInformationCommand.

(** What sendNewProjectMail hands to gomail: the dialer (host, port, TLS
    without verification) and the message (two headers, subject, HTML
    body). *)
Record Mail : Type :=
  { Host : string; Port : Z; InsecureSkipVerify : bool;
    From : string; To : string; Subject : string; HTMLBody : string }.

Definition newline : string := String (ascii_of_nat 10) EmptyString.
Definition tab : string := String (ascii_of_nat 9) EmptyString.

(** ** otc: auth_env.go *)

Module otc.

(** The errors of auth_env.go: the one that
    gophercloud.NewSystemCommonError(code, message) builds, and the one
    the configuration hands back when it cannot unmarshal a key. *)
Inductive UnifiedError : Type :=
| NewSystemCommonError (code message : string)
| UnmarshalError (text : string).

(** token.TokenOptions, field for field the tokenOptions of auth_env.go. *)
Record TokenOptions : Type :=
  { IdentityEndpoint : string; Username : string; UserID : string;
    Password : string; DomainID : string; DomainName : string;
    TenantID : string; TenantName : string;
    ProjectID : string; ProjectName : string;
    AllowReauth : bool; TokenID : string }.

Definition nilTokenOptions : TokenOptions :=
  {| IdentityEndpoint := ""; Username := ""; UserID := ""; Password := "";
     DomainID := ""; DomainName := ""; TenantID := ""; TenantName := "";
     ProjectID := ""; ProjectName := ""; AllowReauth := false; TokenID := "" |}.

(** aksk.AKSKOptions, the fields AKSKOptionsFromEnv fills. *)
Record AKSKOptions : Type :=
  { akskIdentityEndpoint : string; AccessKey : string; SecretKey : string;
    SecurityToken : string; akskProjectID : string; akskDomainID : string;
    Region : string; Cloud : string }.

Definition nilAKSKOptions : AKSKOptions :=
  {| akskIdentityEndpoint := ""; AccessKey := ""; SecretKey := "";
     SecurityToken := ""; akskProjectID := ""; akskDomainID := "";
     Region := ""; Cloud := "" |}.

(** os.Getenv: the value, or the empty string when the variable is unset. *)
Definition Getenv (env : gmap string string) (key : string) : string :=
  default "" (env !! key).

(** mergo.Merge(&dst, src, mergo.WithOverride) on two TokenOptions: every
    field of src that is not its zero value replaces the field of dst. *)
Definition override (dst src : string) : string :=
  if String.eqb src "" then dst else src.

Definition Merge (dst src : TokenOptions) : TokenOptions :=
  {| IdentityEndpoint := override (IdentityEndpoint dst) (IdentityEndpoint src);
     Username := override (Username dst) (Username src);
     UserID := override (UserID dst) (UserID src);
     Password := override (Password dst) (Password src);
     DomainID := override (DomainID dst) (DomainID src);
     DomainName := override (DomainName dst) (DomainName src);
     TenantID := override (TenantID dst) (TenantID src);
     TenantName := override (TenantName dst) (TenantName src);
     ProjectID := override (ProjectID dst) (ProjectID src);
     ProjectName := override (ProjectName dst) (ProjectName src);
     AllowReauth := if AllowReauth src then true else AllowReauth dst;
     TokenID := override (TokenID dst) (TokenID src) |}.

Section AuthEnv.

(** gophercloud.CE_MissingInputCode, and CE_MissingInputMessage formatted
    with the name of the missing input. *)
Context (CE_MissingInputCode : string) (CE_MissingInputMessage : string -> string).

Definition missingInput (name : string) : UnifiedError :=
  NewSystemCommonError CE_MissingInputCode (CE_MissingInputMessage name).

Definition withTenantID (to : TokenOptions) (v : string) : TokenOptions :=
  {| IdentityEndpoint := IdentityEndpoint to; Username := Username to;
     UserID := UserID to; Password := Password to; DomainID := DomainID to;
     DomainName := DomainName to; TenantID := v; TenantName := TenantName to;
     ProjectID := ProjectID to; ProjectName := ProjectName to;
     AllowReauth := AllowReauth to; TokenID := TokenID to |}.

Definition withTenantName (to : TokenOptions) (v : string) : TokenOptions :=
  {| IdentityEndpoint := IdentityEndpoint to; Username := Username to;
     UserID := UserID to; Password := Password to; DomainID := DomainID to;
     DomainName := DomainName to; TenantID := TenantID to; TenantName := v;
     ProjectID := ProjectID to; ProjectName := ProjectName to;
     AllowReauth := AllowReauth to; TokenID := TokenID to |}.

(** TokenOptionsFromEnv, given what cfg.UnmarshalKey("openstack", &tmp)
    left in tmp and returned, and the custom options (nil is None).
    Merging two values of one struct type does not fail. *)
Definition TokenOptionsFromEnv (tmp : TokenOptions) (unmarshalError : option UnifiedError)
    (customTokenOptions : option TokenOptions)
    : TokenOptions * option UnifiedError :=
  match unmarshalError with
  | Some err => (nilTokenOptions, Some err)
  | None =>
      let to := tmp in
      let to :=
        match customTokenOptions with
        | Some custom => Merge to custom
        | None => to
        end in
      let to := if String.eqb (ProjectID to) "" then to
                else withTenantID to (ProjectID to) in
      let to := if String.eqb (ProjectName to) "" then to
                else withTenantName to (ProjectName to) in
      if String.eqb (IdentityEndpoint to) "" then
        (nilTokenOptions, Some (missingInput "authURL"))
      else if String.eqb (Username to) "" && String.eqb (UserID to) "" then
        (nilTokenOptions, Some (missingInput "username"))
      else if String.eqb (Password to) "" then
        (nilTokenOptions, Some (missingInput "password"))
      else (to, None)
  end.

Definition AKSKOptionsFromEnv (env : gmap string string)
    : AKSKOptions * option UnifiedError :=
  let authURL := Getenv env "HWCLOUD_AUTH_URL" in
  let ak := Getenv env "HWCLOUD_ACCESS_KEY" in
  let sk := Getenv env "HWCLOUD_SECRET_KEY" in
  let seToken := Getenv env "HWCLOUD_ACCESS_KEY_STS_TOKEN" in
  let projectID := Getenv env "HWCLOUD_PROJECT_ID" in
  let domainID := Getenv env "HWCLOUD_DOMAIN_ID" in
  let region := Getenv env "HWCLOUD_REGION" in
  let cloudName := Getenv env "HWCLOUD_DOMAIN_NAME" in
  let cloudName :=
    if String.eqb (Getenv env "HWCLOUD_CLOUD_NAME") "" then cloudName
    else Getenv env "HWCLOUD_CLOUD_NAME" in
  if String.eqb authURL "" then (nilAKSKOptions, Some (missingInput "authURL"))
  else if String.eqb ak "" then (nilAKSKOptions, Some (missingInput "AccessKey"))
  else if String.eqb sk "" then (nilAKSKOptions, Some (missingInput "SecretKey"))
  else
    ({| akskIdentityEndpoint := authURL; AccessKey := ak; SecretKey := sk;
        SecurityToken := seToken; akskProjectID := projectID;
        akskDomainID := domainID; Region := region; Cloud := cloudName |}, None).

End AuthEnv.

End otc.

(** ** common: auth.go *)

Module common.

Record User : Type := { UserId : string; Email : string }.

(** The two errors of the JWT middleware that ldapAuthenticator returns. *)
Inductive jwtError : Type :=
| ErrMissingLoginValues
| ErrFailedAuthentication.

(** The interface{} values ldapAuthenticator returns: the empty string,
    nil, or a pointer to a User. *)
Inductive data : Type :=
| DataString (s : string)
| DataNil
| DataUser (u : User).

(** c.ShouldBind(&loginVals) on the login struct, both of whose fields
    are binding:"required": the submitted form (None when it cannot be
    read at all) binds only when neither field is empty. *)
Definition ShouldBind (submitted : option (string * string))
    : option (string * string) :=
  match submitted with
  | Some (username, password) =>
      if String.eqb username "" || String.eqb password "" then None
      else Some (username, password)
  | None => None
  end.

(** ldapAuthenticator, given the submitted form and what
    client.Authenticate answers for a user id and a password: whether
    the bind succeeded, the user's attributes and the error. *)
Definition ldapAuthenticator (submitted : option (string * string))
    (Authenticate : string -> string -> bool * gmap string string * option string)
    : data * option jwtError :=
  match ShouldBind submitted with
  | None => (DataString "", Some ErrMissingLoginValues)
  | Some (userID, password) =>
      let '(ok, user, err) := Authenticate userID password in
      match err with
      | Some _ => (DataNil, Some ErrFailedAuthentication)
      | None =>
          if ok then
            (DataUser {| UserId := userID; Email := default "" (user !! "mail") |},
             None)
          else (DataNil, Some ErrFailedAuthentication)
      end
  end.

(** userPayloadFunc: the claims of a *User, no claims for anything else. *)
Definition userPayloadFunc (d : data) : gmap string string :=
  match d with
  | DataUser v => {[ "id" := UserId v; "mail" := Email v ]}
  | _ => ∅
  end.

End common.

(** ** openshift, first version: project.go before the clusters

    The package as it was when it served one cluster: the same handlers
    without a cluster id, with their own error handling around
    client.Do. *)

Module legacy.

Section Legacy.

(** Package constants declared outside the file. *)
Context (genericAPIError wrongAPIUsageError testProjectDeletionDays : string).

(** Declared outside the file and taken as they come: the cluster that
    getOseHTTPClient addresses, the request body newObjectRequest
    builds, and the programs of getAdminRoleBinding and
    checkAdminPermissions. *)
Context (cluster : ClusterClient).
Context (newObjectRequest : string -> string -> JSON).
Context (getAdminRoleBinding : string -> prog (JSON + error)).
Context (checkAdminPermissions : string -> string -> prog (option error)).

(** client, req := getOseHTTPClient(method, endURL, body) and then
    client.Do(req). *)
Definition clientDo (method endURL : string) (body : option JSON) : prog answer :=
  Do {| reqClient := cluster; reqMethod := method; reqPath := endURL;
        reqBody := body |} Ret.

Definition validateNewProject (project billing : string) (testProject : bool)
    : option error :=
  if len project =? 0 then
    Some (errorsNew "Projektname muss angegeben werden")
  else if negb testProject && (len billing =? 0) then
    Some (errorsNew "Kontierungsnummer muss angegeben werden")
  else None.

Definition validateAdminAccess (username project : string) : prog (option error) :=
  if len project =? 0 then
    mret (Some (errorsNew "Projektname muss angegeben werden"))
  else
    err ← checkAdminPermissions username project;
    match err with
    | Some e => mret (Some e)
    | None => mret None
    end.

Definition validateBillingInformation (project billing username : string)
    : prog (option error) :=
  if len project =? 0 then
    mret (Some (errorsNew "Projektname muss angegeben werden"))
  else if len billing =? 0 then
    mret (Some (errorsNew "Kontierungsnummer muss angegeben werden"))
  else
    err ← checkAdminPermissions username project;
    match err with
    | Some e => mret (Some e)
    | None => mret None
    end.

Definition changeProjectPermission (project username : string) : prog (option error) :=
  r ← getAdminRoleBinding project;
  match r with
  | inr err => mret (Some err)
  | inl adminRoleBinding =>
      let adminRoleBinding :=
        gabs.ArrayAppend (JStr (ToLower username)) ["userNames"] adminRoleBinding in
      let adminRoleBinding :=
        gabs.ArrayAppend (JStr (ToUpper username)) ["userNames"] adminRoleBinding in
      ans ← clientDo "PUT" ("oapi/v1/namespaces/" ++ project ++ "/rolebindings/admin")
              (Some adminRoleBinding);
      match ans with
      | inr _ => mret (Some (errorsNew genericAPIError))
      | inl resp =>
          if StatusCode resp =? StatusOK then mret None
          else mret (Some (errorsNew genericAPIError))
      end
  end.

Definition getProjectBillingInformation (project : string)
    : prog (string * option error) :=
  ans ← clientDo "GET" ("api/v1/namespaces/" ++ project) None;
  match ans with
  | inr _ => mret ("", Some (errorsNew genericAPIError))
  | inl resp =>
      match ParseJSONBuffer (Body resp) with
      | None => mret ("", Some (errorsNew genericAPIError))
      | Some json =>
          let billing :=
            gabs.S ["openshift.io/kontierung-element"]
              (gabs.Path "metadata.annotations" json) in
          if isNil billing then mret ("Keine Daten hinterlegt", None)
          else
            match billing with
            | JStr s => mret (s, None)
            | _ => Panic
            end
      end
  end.

(** The annotation edits of createOrUpdateMetadata, on a decoded
    namespace object in which metadata.annotations was found. *)
Definition annotate (billing megaid username : string) (testProject : bool)
    (json : JSON) : JSON :=
  let annotations := "metadata.annotations" in
  let json := gabs.SetAt annotations (JStr billing)
                "openshift.io/kontierung-element" json in
  let json := gabs.SetAt annotations (JStr username)
                "openshift.io/requester" json in
  let json :=
    if testProject then
      let json := gabs.SetAt annotations (JStr testProjectDeletionDays)
                    "openshift.io/testproject-daystodeletion" json in
      gabs.SetAt annotations
        (JStr ("Dieses Testprojekt wird in " ++ testProjectDeletionDays
               ++ " Tagen automatisch gelöscht!"))
        "openshift.io/description" json
    else json in
  if 0 <? len megaid then
    gabs.SetAt annotations (JStr megaid) "openshift.io/MEGAID" json
  else json.

(** [annotations] is the nil pointer when the namespace object has no
    metadata.annotations, and the first Set on it panics.  The PUT is
    not checked for a failed exchange: its response is nil then, and
    reading the status panics. *)
Definition createOrUpdateMetadata (project billing megaid username : string)
    (testProject : bool) : prog (option error) :=
  ans ← clientDo "GET" ("api/v1/namespaces/" ++ project) None;
  match ans with
  | inr _ => mret (Some (errorsNew genericAPIError))
  | inl resp =>
      match ParseJSONBuffer (Body resp) with
      | None => mret (Some (errorsNew genericAPIError))
      | Some json =>
          match gabs.PathContainer "metadata.annotations" json with
          | None => Panic
          | Some _ =>
              let json := annotate billing megaid username testProject json in
              ans ← clientDo "PUT" ("api/v1/namespaces/" ++ project) (Some json);
              match ans with
              | inr _ => Panic
              | inl resp =>
                  if StatusCode resp =? StatusOK then mret None
                  else mret (Some (errorsNew genericAPIError))
              end
          end
      end
  end.

(** The POST is not checked for a failed exchange either. *)
Definition createNewProject (project username billing megaid : string)
    (testProject : bool) : prog (option error) :=
  let project := ToLower project in
  let p := newObjectRequest "ProjectRequest" project in
  ans ← clientDo "POST" "oapi/v1/projectrequests" (Some p);
  match ans with
  | inr _ => Panic
  | inl resp =>
      if StatusCode resp =? StatusCreated then
        err ← changeProjectPermission project username;
        match err with
        | Some e => mret (Some e)
        | None =>
            err ← createOrUpdateMetadata project billing megaid username testProject;
            match err with
            | Some e => mret (Some e)
            | None => mret None
            end
        end
      else if StatusCode resp =? StatusConflict then
        mret (Some (errorsNew "Das Projekt existiert bereits"))
      else mret (Some (errorsNew genericAPIError))
  end.

Definition getBillingHandler (username project : string) : prog (list written) :=
  err ← validateAdminAccess username project;
  match err with
  | Some e => mret [(StatusBadRequest, ApiResponse (Error e))]
  | None =>
      '(billingData, err) ← getProjectBillingInformation project;
      match err with
      | Some e => mret [(StatusBadRequest, ApiResponse (Error e))]
      | None =>
          mret [(StatusOK,
                 ApiResponse ("Aktuelle Verrechnungsdaten für Projekt " ++ project
                              ++ ": " ++ billingData))]
      end
  end.

(** common.EditBillingDataCommand is bound to its two fields. *)
Definition updateBillingHandler (username : string)
    (bound : option (string * string)) : prog (list written) :=
  match bound with
  | Some (project, billing) =>
      err ← validateBillingInformation project billing username;
      match err with
      | Some e => mret [(StatusBadRequest, ApiResponse (Error e))]
      | None =>
          err ← createOrUpdateMetadata project billing "" username false;
          match err with
          | Some e => mret [(StatusBadRequest, ApiResponse (Error e))]
          | None =>
              mret [(StatusOK,
                     ApiResponse ("Die Verrechnungsdaten wurden gespeichert: "
                                  ++ billing))]
          end
      end
  | None => mret [(StatusBadRequest, ApiResponse wrongAPIUsageError)]
  end.

End Legacy.

End legacy.

(** ** project.go *)

Section Project.

(** Package constants declared outside project.go. *)
Context (genericAPIError wrongAPIUsageError testProjectDeletionDays : string).

(** checkAdminPermissions is declared outside project.go and is taken
    as it comes: a program that ends in an error or in nil. *)
Context (checkAdminPermissions : Plugin -> string -> string -> string -> prog (option error)).

(** Modelled from the spec: the cluster resolver is missing from the
    sources.  Spec 4.1: [resolve(clusterId) -> (HTTPClient, baseURL) |
    NotFoundError], failing when the id matches no configured cluster,
    with no side effects. *)
Definition resolve (p : Plugin) (id : string) : ClusterClient + error :=
  match List.find (fun c => String.eqb (clusterId c) id) (clusters p) with
  | Some client => inl client
  | None => inr (NotFoundError id)
  end.

(** Modelled from the spec: getOseHTTPClient is missing from the
    sources.  It resolves the cluster (spec 4.1) and issues one request
    to it (spec 6); a failed exchange is logged and collapsed to the
    generic message (spec 4.3, 7), never handed on. *)
Definition getOseHTTPClient (p : Plugin) (method clusterId endURL : string)
    (body : option JSON) : prog (Response + error) :=
  match resolve p clusterId with
  | inr err => Ret (inr err)
  | inl client =>
      Do {| reqClient := client; reqMethod := method; reqPath := endURL;
            reqBody := body |}
         (fun ans =>
            match ans with
            | inl resp => Ret (inl resp)
            | inr _ => Ret (inr (errorsNew genericAPIError))
            end)
  end.

(** Modelled from the spec: newObjectRequest is missing from the
    sources.  Spec 6 gives the body of the creation request as
    [{kind:"ProjectRequest", metadata:{name}}]. *)
Definition newObjectRequest (kind name : string) : JSON :=
  JObj {[ "kind" := JStr kind;
          "metadata" := JObj {[ "name" := JStr name ]} ]}.

(** Modelled from the spec: getAdminRoleBinding is missing from the
    sources.  Spec 4.3: GET the role-binding document for
    [{project}/rolebindings/admin]; any non-200 on the GET surfaces the
    generic error, and so does a document that does not decode (spec 7). *)
Definition getAdminRoleBinding (p : Plugin) (clusterId project : string)
    : prog (JSON + error) :=
  r ← getOseHTTPClient p "GET" clusterId
        ("oapi/v1/namespaces/" ++ project ++ "/rolebindings/admin") None;
  match r with
  | inr err => mret (inr err)
  | inl resp =>
      if StatusCode resp =? StatusOK then
        match ParseJSONBuffer (Body resp) with
        | Some document => mret (inl document)
        | None => mret (inr (errorsNew genericAPIError))
        end
      else mret (inr (errorsNew genericAPIError))
  end.

(** x.(string): a panic unless x holds a string. *)
Definition assertString (x : JSON) : prog string :=
  match x with
  | JStr s => Ret s
  | _ => Panic
  end.

Definition validateNewProject (project billing : string) (testProject : bool)
    : option error :=
  if len project =? 0 then
    Some (errorsNew "Project name has to be provided")
  else if negb testProject && (len billing =? 0) then
    Some (errorsNew "Accounting number must be provided")
  else None.

Definition validateAdminAccess (p : Plugin) (clusterId username project : string)
    : prog (option error) :=
  if String.eqb clusterId "" then
    mret (Some (errorsNew "Cluster must be provided"))
  else if String.eqb project "" then
    mret (Some (errorsNew "Project name must be provided"))
  else
    err ← checkAdminPermissions p clusterId username project;
    match err with
    | Some e => mret (Some e)
    | None => mret None
    end.

Definition changeProjectPermission (p : Plugin) (clusterId project username : string)
    : prog (option error) :=
  r ← getAdminRoleBinding p clusterId project;
  match r with
  | inr err => mret (Some err)
  | inl adminRoleBinding =>
      let adminRoleBinding :=
        gabs.ArrayAppend (JStr (ToLower username)) ["userNames"] adminRoleBinding in
      let adminRoleBinding :=
        gabs.ArrayAppend (JStr (ToUpper username)) ["userNames"] adminRoleBinding in
      r ← getOseHTTPClient p "PUT" clusterId
            ("oapi/v1/namespaces/" ++ project ++ "/rolebindings/admin")
            (Some adminRoleBinding);
      match r with
      | inr err => mret (Some err)
      | inl resp =>
          if StatusCode resp =? StatusOK then mret None
          else mret (Some (errorsNew genericAPIError))
      end
  end.

(** The annotation edits of createOrUpdateMetadata, on a decoded
    namespace object in which metadata.annotations was found. *)
Definition annotate (billing megaid username : string) (testProject : bool)
    (json : JSON) : JSON :=
  let annotations := "metadata.annotations" in
  let json := gabs.SetAt annotations (JStr billing)
                "openshift.io/kontierung-element" json in
  let json := gabs.SetAt annotations (JStr username)
                "openshift.io/requester" json in
  let json :=
    if testProject then
      let json := gabs.SetAt annotations (JStr testProjectDeletionDays)
                    "openshift.io/testproject-daystodeletion" json in
      gabs.SetAt annotations
        (JStr ("Dieses Testprojekt wird in " ++ testProjectDeletionDays
               ++ " Tagen automatisch gelöscht!"))
        "openshift.io/description" json
    else json in
  if 0 <? len megaid then
    gabs.SetAt annotations (JStr megaid) "openshift.io/MEGAID" json
  else json.

(** [annotations] is the nil pointer when the namespace object has no
    metadata.annotations, and the first Set on it panics. *)
Definition createOrUpdateMetadata (p : Plugin)
    (clusterId project billing megaid username : string) (testProject : bool)
    : prog (option error) :=
  r ← getOseHTTPClient p "GET" clusterId ("api/v1/namespaces/" ++ project) None;
  match r with
  | inr err => mret (Some err)
  | inl resp =>
      match ParseJSONBuffer (Body resp) with
      | None => mret (Some (errorsNew genericAPIError))
      | Some json =>
          match gabs.PathContainer "metadata.annotations" json with
          | None => Panic
          | Some _ =>
              let json := annotate billing megaid username testProject json in
              r ← getOseHTTPClient p "PUT" clusterId
                    ("api/v1/namespaces/" ++ project) (Some json);
              match r with
              | inr err => mret (Some err)
              | inl resp =>
                  if StatusCode resp =? StatusOK then mret None
                  else mret (Some (errorsNew genericAPIError))
              end
          end
      end
  end.

Definition createNewProject (p : Plugin)
    (clusterId project username billing megaid : string) (testProject : bool)
    : prog (option error) :=
  let project := ToLower project in
  let projectObject := newObjectRequest "ProjectRequest" project in
  r ← getOseHTTPClient p "POST" clusterId "oapi/v1/projectrequests"
        (Some projectObject);
  match r with
  | inr err => mret (Some err)
  | inl resp =>
      if StatusCode resp =? StatusCreated then
        err ← changeProjectPermission p clusterId project username;
        match err with
        | Some e => mret (Some e)
        | None =>
            err ← createOrUpdateMetadata p clusterId project billing megaid
                    username testProject;
            match err with
            | Some e => mret (Some e)
            | None => mret None
            end
        end
      else if StatusCode resp =? StatusConflict then
        mret (Some (errorsNew "The project already exists"))
      else mret (Some (errorsNew genericAPIError))
  end.

(** A nil annotation reads as the empty string, then x.(string). *)
Definition stringOrEmpty (x : JSON) : prog string :=
  assertString (if isNil x then JStr "" else x).

Definition getProjectInformation (p : Plugin) (clusterId project : string)
    : prog (option ProjectInformation * option error) :=
  r ← getOseHTTPClient p "GET" clusterId ("api/v1/namespaces/" ++ project) None;
  match r with
  | inr err => mret (None, Some err)
  | inl resp =>
      match ParseJSONBuffer (Body resp) with
      | None => mret (None, Some (errorsNew genericAPIError))
      | Some json =>
          let billing :=
            gabs.S ["openshift.io/kontierung-element"]
              (gabs.Path "metadata.annotations" json) in
          let megaid :=
            gabs.S ["openshift.io/MEGAID"]
              (gabs.Path "metadata.annotations" json) in
          billing ← stringOrEmpty billing;
          megaid ← stringOrEmpty megaid;
          mret (Some {| Kontierungsnummer := billing; MegaID := megaid |}, None)
      end
  end.

(** The loop of getUserProjects over the listed projects. *)
Fixpoint projectNamesOf (projects : list JSON) (projectNames : list string)
    : prog (list string) :=
  match projects with
  | [] => mret projectNames
  | project :: rest =>
      name ← assertString (gabs.Path "metadata.name" project);
      projectNamesOf rest (projectNames ++ [name])%list
  end.

Definition getUserProjects (p : Plugin) (clusterid username : string)
    : prog (list string * option error) :=
  r ← getOseHTTPClient p "GET" clusterid "oapi/v1/projects" None;
  match r with
  | inr err => mret ([], Some err)
  | inl resp =>
      match ParseJSONBuffer (Body resp) with
      | None => mret ([], Some (errorsNew genericAPIError))
      | Some json =>
          match gabs.Children (gabs.Search ["items"] json) with
          | None => mret ([], Some (errorsNew genericAPIError))
          | Some projects =>
              projectNames ← projectNamesOf projects [];
              mret (projectNames, None)
          end
      end
  end.

(** The handlers take what gin hands them (the user name of the
    session, the bound command or the query parameters) and return the
    c.JSON calls they make, in order. *)
Definition newTestProjectHandler (p : Plugin) (username : string)
    (bound : option NewTestProjectCommand) : prog (list written) :=
  match bound with
  | Some data =>
      let billing := "keine-verrechnung" in
      let data := {| Project := username ++ "-" ++ Project data;
                     ClusterId := ClusterId data |} in
      match validateNewProject (Project data) billing true with
      | Some err => mret [(StatusBadRequest, ApiResponse (Error err))]
      | None =>
          err ← createNewProject p (ClusterId data) (Project data) username
                  billing "" true;
          match err with
          | Some e => mret [(StatusBadRequest, ApiResponse (Error e))]
          | None =>
              mret [(StatusOK,
                     ApiResponse ("Das Test-Projekt " ++ Project data
                                  ++ " wurde erstellt auf Cluster "
                                  ++ ClusterId data))]
          end
      end
  | None => mret [(StatusBadRequest, ApiResponse wrongAPIUsageError)]
  end.

Definition getProjectInformationHandler (p : Plugin)
    (username clusterId project : string) : prog (list written) :=
  err ← validateAdminAccess p clusterId username project;
  match err with
  | Some e => mret [(StatusBadRequest, ApiResponse (Error e))]
  | None =>
      '(pi, err) ← getProjectInformation p clusterId project;
      let c :=
        match err with
        | Some e => [(StatusBadRequest, ApiResponse (Error e))]
        | None => []
        end in
      mret (c ++ [(StatusOK, ProjectInformationBody pi)])%list
  end.

(** ** Vocabulary of the properties *)

(** The three kinds of error a caller may see (spec 7): a missing or
    invalid input field, a conflict reported by the platform, and the
    generic message for every other failure.  The resolver's error for
    an unknown cluster id is an invalid input field. *)
Inductive ErrorKind : Type :=
| ValidationError
| AlreadyExistsError
| RemoteAPIError.

Definition kindOf (err : error) : option ErrorKind :=
  match err with
  | errorsNew text =>
      if String.eqb text genericAPIError then Some RemoteAPIError
      else if String.eqb text "The project already exists" then Some AlreadyExistsError
      else if existsb (String.eqb text)
                ["Project name has to be provided";
                 "Accounting number must be provided";
                 "Cluster must be provided";
                 "Project name must be provided"]
           then Some ValidationError
      else None
  | NotFoundError _ => Some ValidationError
  | TransportError _ => None
  end.

(** One annotation of a namespace object, nil when there is none. *)
Definition annotationOf (key : string) (namespace : JSON) : JSON :=
  gabs.S [key] (gabs.Path "metadata.annotations" namespace).

(** The request a resolved client sends. *)
Definition call (client : ClusterClient) (method endURL : string)
    (body : option JSON) : Request :=
  {| reqClient := client; reqMethod := method; reqPath := endURL;
     reqBody := body |}.

(** The validation contract with its three cases read independently of
    each other. *)
Definition validationCases (project billing : string) (testProject : bool) : Prop :=
  (project ≠ "" → billing ≠ "" ∨ testProject = true →
   validateNewProject project billing testProject = None)
  ∧ (project = "" →
     validateNewProject project billing testProject
     = Some (errorsNew "Project name has to be provided"))
  ∧ (testProject = false → billing = "" →
     validateNewProject project billing testProject
     = Some (errorsNew "Accounting number must be provided")).

(** The frame of a metadata upsert when only the billing, requester and
    MEGA-ID annotations may change. *)
Definition onlyThreeAnnotations (billing megaid username : string)
    (testProject : bool) (namespace : JSON) : Prop :=
  let stored := annotate billing megaid username testProject namespace in
  annotationOf "openshift.io/kontierung-element" stored = JStr billing
  ∧ annotationOf "openshift.io/requester" stored = JStr username
  ∧ (megaid ≠ "" → annotationOf "openshift.io/MEGAID" stored = JStr megaid)
  ∧ (megaid = "" →
     annotationOf "openshift.io/MEGAID" stored
     = annotationOf "openshift.io/MEGAID" namespace)
  ∧ (∀ key : string,
       key ∉ ["openshift.io/kontierung-element"; "openshift.io/requester";
              "openshift.io/MEGAID"] →
       annotationOf key stored = annotationOf key namespace)
  ∧ (∀ key : string,
       key ≠ "metadata" → gabs.Search [key] stored = gabs.Search [key] namespace).

(** A member entry that names the user, whatever the letter case. *)
Definition sameUser (username : string) (member : JSON) : bool :=
  match member with
  | JStr s => String.eqb (ToLower s) (ToLower username)
  | _ => false
  end.

(** Two grants to one user on a reference cluster leaving exactly the
    lower-case and the upper-case entry for that user. *)
Definition twoEntriesAfterTwoGrants (template binding : JSON) (w : memStore)
    (p : Plugin) (clusterId project username : string) : Prop :=
  ∀ w1 w2 tr1 tr2,
    run (memCluster template binding)
        (changeProjectPermission p clusterId project username) w
    = (Done None, w1, tr1) →
    run (memCluster template binding)
        (changeProjectPermission p clusterId project username) w1
    = (Done None, w2, tr2) →
    ∃ members,
      membersOf w2 clusterId project = JArr members
      ∧ List.filter (sameUser username) members
        = [JStr (ToLower username); JStr (ToUpper username)].

(** The path of a project's admin role binding and of its namespace. *)
Definition adminPath (project : string) : string :=
  "oapi/v1/namespaces/" ++ project ++ "/rolebindings/admin".

Definition namespacePath (project : string) : string :=
  "api/v1/namespaces/" ++ project.

(** The round trip of a creation and a read-out on a reference
    cluster, whatever namespace object the cluster hands out: what was
    supplied at creation is what getProjectInformation returns. *)
Definition roundTrip (template binding : JSON) (w : memStore)
    (p : Plugin) (clusterId project username billing megaid : string)
    (testProject : bool) : Prop :=
  ∀ w1 tr,
    run (memCluster template binding)
        (createNewProject p clusterId project username billing megaid testProject) w
    = (Done None, w1, tr) →
    result (run (memCluster template binding)
              (getProjectInformation p clusterId (ToLower project)) w1)
    = Done (Some {| Kontierungsnummer := billing; MegaID := megaid |}, None).


(** The two appends of changeProjectPermission, on the decoded binding. *)
Definition granted (username : string) (binding : JSON) : JSON :=
  gabs.ArrayAppend (JStr (ToUpper username)) ["userNames"]
    (gabs.ArrayAppend (JStr (ToLower username)) ["userNames"] binding).

(** ** The other handlers of project.go *)

(** The process environment read by os.LookupEnv, and what the SMTP
    exchange of gomail's DialAndSend comes back with. *)
Context (environ : gmap string string).
Context (DialAndSend : Mail -> option error).

Definition validateProjectInformation (p : Plugin)
    (data : UpdateProjectInformationCommand.t) (username : string)
    : prog (option error) :=
  if String.eqb (UpdateProjectInformationCommand.ClusterId data) "" then
    mret (Some (errorsNew "Cluster must be provided"))
  else if String.eqb (UpdateProjectInformationCommand.Project data) "" then
    mret (Some (errorsNew "Project name must be provided"))
  else if String.eqb (UpdateProjectInformationCommand.Billing data) "" then
    mret (Some (errorsNew "Accounting number must be provided"))
  else
    err ← checkAdminPermissions p (UpdateProjectInformationCommand.ClusterId data)
            username (UpdateProjectInformationCommand.Project data);
    match err with
    | Some e => mret (Some e)
    | None => mret None
    end.

(** The HTML body of the mail about a new project. *)
Definition newProjectMailBody (clusterId projectName userName megaID : string)
    : string :=
  newline ++ tab ++ "Dear Ladys and Gentleman," ++ newline
  ++ tab ++ "<br><br>" ++ newline
  ++ tab ++ "The following project has been created on:" ++ newline
  ++ tab ++ "<br><br>" ++ newline
  ++ tab ++ "Cluster: " ++ clusterId ++ "<br>" ++ newline
  ++ tab ++ "Project name:" ++ tab ++ projectName ++ "<br>" ++ newline
  ++ tab ++ "Creator:" ++ tab ++ tab ++ userName ++ "<br>" ++ newline
  ++ tab ++ "Mega ID:" ++ tab ++ tab ++ megaID ++ newline
  ++ tab ++ "<br><br>" ++ newline
  ++ tab ++ "Kind regards<br>" ++ newline
  ++ tab ++ "Your Cloud Team<br>" ++ newline
  ++ tab ++ "IT-OM-SDL-CLP" ++ newline
  ++ tab.

(** sendNewProjectMail returns its error together with the mails it has
    handed to the dialer. *)
Definition sendNewProjectMail (clusterId projectName userName megaID : string)
    : option error * list Mail :=
  match environ !! "MAIL_SERVER" with
  | None =>
      (Some (errorsNew "Error looking up MAIL_SERVER from environment."), [])
  | Some mailServer =>
      match environ !! "MAIL_ADMIN_SENDER" with
      | None =>
          (Some (errorsNew "Error looking up MAIL_ADMIN_SENDER from environment."), [])
      | Some fromMail =>
          match environ !! "MAIL_NEW_PROJECT_RECIPIENT" with
          | None =>
              (Some (errorsNew
                       "Error looking up MAIL_NEW_PROJECT_RECIPIENT from environment."),
               [])
          | Some newProjectMail =>
              let m :=
                {| Host := mailServer; Port := 25; InsecureSkipVerify := true;
                   From := fromMail; To := newProjectMail;
                   Subject := "New Project '" ++ projectName ++ "' on OpenShift";
                   HTMLBody :=
                     newProjectMailBody clusterId projectName userName megaID |} in
              match DialAndSend m with
              | Some err => (Some err, [m])
              | None => (None, [m])
              end
          end
      end
  end.

(** The handler's c.JSON calls and the mails it has handed to the dialer. *)
Definition newProjectHandler (p : Plugin) (username : string)
    (bound : option NewProjectCommand.t) : prog (list written * list Mail) :=
  match bound with
  | Some data =>
      match validateNewProject (NewProjectCommand.Project data)
              (NewProjectCommand.Billing data) false with
      | Some err => mret ([(StatusBadRequest, ApiResponse (Error err))], [])
      | None =>
          err ← createNewProject p (NewProjectCommand.ClusterId data)
                  (NewProjectCommand.Project data) username
                  (NewProjectCommand.Billing data) (NewProjectCommand.MegaId data) false;
          match err with
          | Some e => mret ([(StatusBadRequest, ApiResponse (Error e))], [])
          | None =>
              let '(_, mails) :=
                sendNewProjectMail (NewProjectCommand.ClusterId data)
                  (NewProjectCommand.Project data) username
                  (NewProjectCommand.MegaId data) in
              mret ([(StatusOK,
                      ApiResponse ("Das Projekt " ++ NewProjectCommand.Project data
                                   ++ " wurde erstellt auf Cluster "
                                   ++ NewProjectCommand.ClusterId data))],
                    mails)
          end
      end
  | None => mret ([(StatusBadRequest, ApiResponse wrongAPIUsageError)], [])
  end.

(** getProjectsHandler answers with an ApiResponse or with the names. *)
Definition getProjectsHandler (p : Plugin) (username clusterId : string)
    : prog (list (Z * (payload + list string))) :=
  if String.eqb clusterId "" then
    mret [(StatusBadRequest, inl (ApiResponse wrongAPIUsageError))]
  else
    '(projects, err) ← getUserProjects p clusterId username;
    match err with
    | Some e => mret [(StatusBadRequest, inl (ApiResponse (Error e)))]
    | None => mret [(StatusOK, inr projects)]
    end.

Definition updateProjectInformationHandler (p : Plugin) (username : string)
    (bound : option UpdateProjectInformationCommand.t) : prog (list written) :=
  match bound with
  | Some data =>
      err ← validateProjectInformation p data username;
      match err with
      | Some e => mret [(StatusBadRequest, ApiResponse (Error e))]
      | None =>
          err ← createOrUpdateMetadata p
                  (UpdateProjectInformationCommand.ClusterId data)
                  (UpdateProjectInformationCommand.Project data)
                  (UpdateProjectInformationCommand.Billing data)
                  (UpdateProjectInformationCommand.MegaID data) username false;
          match err with
          | Some e => mret [(StatusBadRequest, ApiResponse (Error e))]
          | None =>
              mret [(StatusOK,
                     ApiResponse ("The details for project "
                                  ++ UpdateProjectInformationCommand.Project data
                                  ++ " on cluster "
                                  ++ UpdateProjectInformationCommand.ClusterId data
                                  ++ " has been saved"))]
          end
      end
  | None => mret [(StatusBadRequest, ApiResponse wrongAPIUsageError)]
  end.

(** The requests of a creation that goes all the way, by method and path. *)
Definition creationPlan (name : string) : list (string * string) :=
  [("POST", "oapi/v1/projectrequests");
   ("GET", adminPath name); ("PUT", adminPath name);
   ("GET", namespacePath name); ("PUT", namespacePath name)].

Definition methodAndPath (req : Request) : string * string :=
  (reqMethod req, reqPath req).

(** What getProjectInformation makes of one annotation: nil reads as the
    empty string, a string as itself, anything else fails the assertion. *)
Definition readAnnotation (x : JSON) : option string :=
  match x with
  | JNull => Some ""
  | JStr s => Some s
  | _ => None
  end.

(** ** Running programs *)

Lemma run_bind {W A B : Type} (srv : server W) (m : prog A) (f : A -> prog B) (w : W) :
  run srv (m ≫= f) w =
  match run srv m w with
  | (Done a, w1, tr) =>
      let '(o, w2, tr') := run srv (f a) w1 in (o, w2, (tr ++ tr')%list)
  | (Panicked, w1, tr) => (Panicked, w1, tr)
  end.
Proof.
  revert w. induction m as [a | | req k IH]; intros w.
  - change (run srv (Ret a ≫= f) w) with (run srv (f a) w). simpl.
    destruct (run srv (f a) w) as [[o w2] tr']. reflexivity.
  - reflexivity.
  - change (run srv (Do req k ≫= f) w)
      with (let '(ans, w1) := srv req w in
            let '(o, w2, tr) := run srv (k ans ≫= f) w1 in
            (o, w2, (req, ans) :: tr)).
    simpl. destruct (srv req w) as [ans w1]. rewrite IH.
    destruct (run srv (k ans) w1) as [[[a |] w2] tr]; [| reflexivity].
    destruct (run srv (f a) w2) as [[o w3] tr']. reflexivity.
Qed.

Lemma resolve_unknown (p : Plugin) (id : string) :
  Forall (fun client => clusterId client ≠ id) (clusters p) →
  resolve p id = inr (NotFoundError id).
Proof.
  unfold resolve. destruct p as [cs]. simpl.
  induction 1 as [| client rest Hne _ IH]; [reflexivity |].
  simpl. destruct (String.eqb_spec (clusterId client) id) as [Heq | _];
    [contradiction | exact IH].
Qed.

Lemma resolve_known (p : Plugin) (id : string) (client : ClusterClient) :
  resolve p id = inl client → clusterId client = id.
Proof.
  unfold resolve.
  destruct (List.find _ (clusters p)) as [c |] eqn:Hfind; [| discriminate].
  intros [= <-]. apply List.find_some in Hfind as [_ Heq].
  by apply String.eqb_eq.
Qed.

Lemma getOseHTTPClient_unknown (p : Plugin) (method id endURL : string)
    (body : option JSON) (err : error) :
  resolve p id = inr err →
  getOseHTTPClient p method id endURL body = Ret (inr err).
Proof. unfold getOseHTTPClient. by intros ->. Qed.

Lemma run_getOseHTTPClient {W : Type} (srv : server W) (w : W)
    (p : Plugin) (method id endURL : string) (body : option JSON)
    (client : ClusterClient) :
  resolve p id = inl client →
  run srv (getOseHTTPClient p method id endURL body) w =
  let '(ans, w1) := srv (call client method endURL body) w in
  (Done (match ans with
         | inl resp => inl resp
         | inr _ => inr (errorsNew genericAPIError)
         end), w1, [(call client method endURL body, ans)]).
Proof.
  unfold getOseHTTPClient. intros ->. simpl. unfold call.
  destruct (srv _ w) as [[resp | text] w1]; reflexivity.
Qed.

(** ** The permission grant, step by step *)

Lemma run_getAdminRoleBinding {W : Type} (srv : server W) (w : W)
    (p : Plugin) (id project : string) (client : ClusterClient) :
  resolve p id = inl client →
  run srv (getAdminRoleBinding p id project) w =
  let '(ans, w1) := srv (call client "GET" (adminPath project) None) w in
  (Done (match ans with
         | inl resp =>
             if StatusCode resp =? StatusOK then
               match ParseJSONBuffer (Body resp) with
               | Some document => inl document
               | None => inr (errorsNew genericAPIError)
               end
             else inr (errorsNew genericAPIError)
         | inr _ => inr (errorsNew genericAPIError)
         end), w1, [(call client "GET" (adminPath project) None, ans)]).
Proof.
  intros Hc. unfold getAdminRoleBinding. rewrite run_bind.
  rewrite (run_getOseHTTPClient srv w p _ _ _ _ client Hc).
  fold (adminPath project).
  destruct (srv _ w) as [[resp | text] w1]; simpl; [| reflexivity].
  destruct (StatusCode resp =? StatusOK); [| reflexivity].
  destruct (ParseJSONBuffer (Body resp)); reflexivity.
Qed.

Lemma run_changeProjectPermission {W : Type} (srv : server W) (w : W)
    (p : Plugin) (id project username : string) (client : ClusterClient) :
  resolve p id = inl client →
  run srv (changeProjectPermission p id project username) w =
  let get := call client "GET" (adminPath project) None in
  let '(ans, w1) := srv get w in
  match ans with
  | inl resp =>
      if StatusCode resp =? StatusOK then
        match ParseJSONBuffer (Body resp) with
        | Some binding =>
            let put := call client "PUT" (adminPath project)
                         (Some (granted username binding)) in
            let '(ans2, w2) := srv put w1 in
            (Done (match ans2 with
                   | inl resp2 =>
                       if StatusCode resp2 =? StatusOK then None
                       else Some (errorsNew genericAPIError)
                   | inr _ => Some (errorsNew genericAPIError)
                   end), w2, [(get, ans); (put, ans2)])
        | None => (Done (Some (errorsNew genericAPIError)), w1, [(get, ans)])
        end
      else (Done (Some (errorsNew genericAPIError)), w1, [(get, ans)])
  | inr _ => (Done (Some (errorsNew genericAPIError)), w1, [(get, ans)])
  end.
Proof.
  intros Hc. unfold changeProjectPermission. rewrite run_bind.
  rewrite (run_getAdminRoleBinding srv w p _ _ client Hc). simpl.
  destruct (srv _ w) as [[resp | text] w1]; simpl; [| reflexivity].
  destruct (StatusCode resp =? StatusOK); [| reflexivity].
  destruct (ParseJSONBuffer (Body resp)) as [binding |]; [| reflexivity].
  rewrite run_bind, (run_getOseHTTPClient srv w1 p _ _ _ _ client Hc).
  fold (adminPath project). fold (granted username binding).
  destruct (srv _ w1) as [[resp2 | text] w2]; simpl; [| reflexivity].
  destruct (StatusCode resp2 =? StatusOK); reflexivity.
Qed.

(** ** The metadata upsert and the creation, step by step *)

Lemma run_createOrUpdateMetadata {W : Type} (srv : server W) (w : W)
    (p : Plugin) (id project billing megaid username : string)
    (testProject : bool) (client : ClusterClient) :
  resolve p id = inl client →
  run srv (createOrUpdateMetadata p id project billing megaid username testProject) w =
  let get := call client "GET" (namespacePath project) None in
  let '(ans, w1) := srv get w in
  match ans with
  | inl resp =>
      match ParseJSONBuffer (Body resp) with
      | Some namespace =>
          match gabs.PathContainer "metadata.annotations" namespace with
          | Some _ =>
              let put := call client "PUT" (namespacePath project)
                           (Some (annotate billing megaid username testProject
                                    namespace)) in
              let '(ans2, w2) := srv put w1 in
              (Done (match ans2 with
                     | inl resp2 =>
                         if StatusCode resp2 =? StatusOK then None
                         else Some (errorsNew genericAPIError)
                     | inr _ => Some (errorsNew genericAPIError)
                     end), w2, [(get, ans); (put, ans2)])
          | None => (Panicked, w1, [(get, ans)])
          end
      | None => (Done (Some (errorsNew genericAPIError)), w1, [(get, ans)])
      end
  | inr _ => (Done (Some (errorsNew genericAPIError)), w1, [(get, ans)])
  end.
Proof.
  intros Hc. unfold createOrUpdateMetadata. rewrite run_bind.
  rewrite (run_getOseHTTPClient srv w p _ _ _ _ client Hc).
  fold (namespacePath project). simpl.
  destruct (srv _ w) as [[resp | text] w1]; simpl; [| reflexivity].
  destruct (ParseJSONBuffer (Body resp)) as [namespace |]; [| reflexivity].
  destruct (gabs.PathContainer "metadata.annotations" namespace); [| reflexivity].
  rewrite run_bind, (run_getOseHTTPClient srv w1 p _ _ _ _ client Hc).
  destruct (srv _ w1) as [[resp2 | text] w2]; simpl; [| reflexivity].
  destruct (StatusCode resp2 =? StatusOK); reflexivity.
Qed.

Lemma run_createNewProject {W : Type} (srv : server W) (w : W)
    (p : Plugin) (id project username billing megaid : string)
    (testProject : bool) (client : ClusterClient) :
  resolve p id = inl client →
  run srv (createNewProject p id project username billing megaid testProject) w =
  let post := call client "POST" "oapi/v1/projectrequests"
                (Some (newObjectRequest "ProjectRequest" (ToLower project))) in
  let '(ans, w1) := srv post w in
  match ans with
  | inl resp =>
      if StatusCode resp =? StatusCreated then
        match run srv (changeProjectPermission p id (ToLower project) username) w1 with
        | (Done None, w2, tr2) =>
            let '(o, w3, tr3) :=
              run srv (createOrUpdateMetadata p id (ToLower project) billing megaid
                         username testProject) w2 in
            (o, w3, ((post, ans) :: tr2 ++ tr3)%list)
        | (o, w2, tr2) => (o, w2, (post, ans) :: tr2)
        end
      else if StatusCode resp =? StatusConflict then
        (Done (Some (errorsNew "The project already exists")), w1, [(post, ans)])
      else (Done (Some (errorsNew genericAPIError)), w1, [(post, ans)])
  | inr _ => (Done (Some (errorsNew genericAPIError)), w1, [(post, ans)])
  end.
Proof.
  intros Hc. unfold createNewProject. rewrite run_bind.
  rewrite (run_getOseHTTPClient srv w p _ _ _ _ client Hc). simpl.
  destruct (srv _ w) as [[resp | text] w1]; simpl; [| reflexivity].
  destruct (StatusCode resp =? StatusCreated).
  - rewrite run_bind.
    destruct (run srv (changeProjectPermission _ _ _ _) w1) as [[[[e |] |] w2] tr2];
      simpl; try reflexivity.
    + by rewrite app_nil_r.
    + rewrite run_bind.
      destruct (run srv (createOrUpdateMetadata _ _ _ _ _ _ _) w2)
        as [[[[e |] |] w3] tr3]; simpl; by rewrite ?app_nil_r.
  - destruct (StatusCode resp =? StatusConflict); reflexivity.
Qed.

(** ** Creation *)

(** C1: once the POST of the project request is answered, its status
    decides the outcome.  201 goes on with the permission grant and,
    when that succeeds, with the metadata upsert; 409 ends with the
    error 'The project already exists' and every other status with the
    generic error, and in both cases the POST is the only request
    sent: no permission write and no metadata write. *)
Theorem createNewProject_by_status {W : Type} (srv : server W) (w w1 : W)
    (p : Plugin) (id project username billing megaid : string)
    (testProject : bool) (client : ClusterClient) (resp : Response) :
  resolve p id = inl client →
  let post := call client "POST" "oapi/v1/projectrequests"
                (Some (newObjectRequest "ProjectRequest" (ToLower project))) in
  srv post w = (inl resp, w1) →
  let r := run srv (createNewProject p id project username billing megaid testProject) w in
  (StatusCode resp = 201 →
   ∀ o2 w2 tr2,
     run srv (changeProjectPermission p id (ToLower project) username) w1
     = (o2, w2, tr2) →
     match o2 with
     | Done None =>
         ∀ o3 w3 tr3,
           run srv (createOrUpdateMetadata p id (ToLower project) billing megaid
                      username testProject) w2 = (o3, w3, tr3) →
           r = (o3, w3, ((post, inl resp) :: tr2 ++ tr3)%list)
     | _ => r = (o2, w2, (post, inl resp) :: tr2)
     end)
  ∧ (StatusCode resp = 409 →
     r = (Done (Some (errorsNew "The project already exists")), w1,
          [(post, inl resp)]))
  ∧ (StatusCode resp ≠ 201 → StatusCode resp ≠ 409 →
     r = (Done (Some (errorsNew genericAPIError)), w1, [(post, inl resp)])).
Proof.
  intros Hc post Hpost r. subst r.
  rewrite (run_createNewProject srv w p _ _ _ _ _ _ client Hc).
  cbv zeta. subst post. rewrite Hpost. simpl. unfold StatusCreated, StatusConflict.
  split; [| split].
  - intros ->. simpl. intros o2 w2 tr2 ->.
    destruct o2 as [[e |] |]; try reflexivity.
    by intros o3 w3 tr3 ->.
  - by intros ->.
  - intros H201 H409.
    destruct (Z.eqb_spec (StatusCode resp) 201); [contradiction |].
    destruct (Z.eqb_spec (StatusCode resp) 409); [contradiction |].
    reflexivity.
Qed.

(** C8: a creation request for a cluster id that matches no configured
    cluster ends with the resolver's error, which is not the generic
    error, and sends no request at all: no creation, no permission and
    no metadata request. *)
Theorem createNewProject_unknown_cluster {W : Type} (srv : server W) (w : W)
    (p : Plugin) (id project username billing megaid : string)
    (testProject : bool) :
  Forall (fun client => clusterId client ≠ id) (clusters p) →
  run srv (createNewProject p id project username billing megaid testProject) w
  = (Done (Some (NotFoundError id)), w, [])
  ∧ NotFoundError id ≠ errorsNew genericAPIError
  ∧ kindOf (NotFoundError id) ≠ Some RemoteAPIError
  ∧ createNewProject p id project username billing megaid testProject
    = Ret (Some (NotFoundError id)).
Proof.
  intros Hunknown. apply resolve_unknown in Hunknown.
  assert (createNewProject p id project username billing megaid testProject
          = Ret (Some (NotFoundError id))) as Heq.
  { unfold createNewProject, getOseHTTPClient. by rewrite Hunknown. }
  rewrite Heq. repeat split; done.
Qed.

(** ** Validation *)

Lemma len_zero (s : string) : (len s =? 0) = true ↔ s = "".
Proof.
  destruct s; [done |].
  split; [| done]. unfold len. simpl. discriminate.
Qed.

(** C6, as amended: validation passes exactly when the project name is
    non-empty and billing is non-empty or the project is a test
    project; it names the project field exactly when the project name
    is empty, whatever the billing; and it names the billing field
    exactly when the project name is non-empty, the project is no test
    project and billing is empty. *)
Theorem validateNewProject_cases (project billing : string) (testProject : bool) :
  (validateNewProject project billing testProject = None
   ↔ project ≠ "" ∧ (billing ≠ "" ∨ testProject = true))
  ∧ (validateNewProject project billing testProject
     = Some (errorsNew "Project name has to be provided")
     ↔ project = "")
  ∧ (validateNewProject project billing testProject
     = Some (errorsNew "Accounting number must be provided")
     ↔ project ≠ "" ∧ testProject = false ∧ billing = "").
Proof.
  unfold validateNewProject.
  destruct (len project =? 0) eqn:Hp.
  - apply len_zero in Hp. subst project.
    repeat split; try done; intros H; try discriminate; by destruct H.
  - assert (project ≠ "") as Hne.
    { intros Heq. apply len_zero in Heq. congruence. }
    destruct testProject; simpl.
    + repeat split; try done; try (intros H; discriminate);
        try (by intros (_ & H & _)); auto.
    + destruct (len billing =? 0) eqn:Hb.
      * apply len_zero in Hb. subst billing.
        repeat split; try done; try (intros H; discriminate).
        intros (_ & [H | H]); done.
      * assert (billing ≠ "") as Hbne.
        { intros Heq. apply len_zero in Heq. congruence. }
        repeat split; try done; try (intros H; discriminate); auto.
        by intros (_ & _ & H).
Qed.

(** ** Errors of the permission grant *)

Lemma resolve_error (p : Plugin) (id : string) (err : error) :
  resolve p id = inr err → err = NotFoundError id.
Proof.
  unfold resolve. destruct (List.find _ (clusters p)); [discriminate |].
  by intros [= <-].
Qed.

Lemma kindOf_generic : kindOf (errorsNew genericAPIError) = Some RemoteAPIError.
Proof. unfold kindOf. by rewrite String.eqb_refl. Qed.

(** C5: the permission grant never panics; a non-200 answer to the GET
    or to the PUT of the role binding, and a failed exchange on either,
    end in the generic error; and every error the caller gets is the
    generic error or the resolver's error for an unknown cluster id,
    each one of the three kinds, never the error of the transport. *)
Theorem changeProjectPermission_errors {W : Type} (srv : server W) (w : W)
    (p : Plugin) (id project username : string) :
  let r := run srv (changeProjectPermission p id project username) w in
  result r ≠ Panicked
  ∧ (∀ err, result r = Done (Some err) →
       (err = errorsNew genericAPIError ∨ err = NotFoundError id)
       ∧ (kindOf err = Some RemoteAPIError ∨ kindOf err = Some ValidationError)
       ∧ ∀ text, err ≠ TransportError text)
  ∧ (∀ client ans w1,
       resolve p id = inl client →
       srv (call client "GET" (adminPath project) None) w = (ans, w1) →
       (∀ resp, ans = inl resp → StatusCode resp ≠ 200) →
       r = (Done (Some (errorsNew genericAPIError)), w1,
            [(call client "GET" (adminPath project) None, ans)]))
  ∧ (∀ client resp w1 binding ans2 w2,
       resolve p id = inl client →
       srv (call client "GET" (adminPath project) None) w = (inl resp, w1) →
       StatusCode resp = 200 → Body resp = Doc binding →
       srv (call client "PUT" (adminPath project) (Some (granted username binding))) w1
       = (ans2, w2) →
       (∀ resp2, ans2 = inl resp2 → StatusCode resp2 ≠ 200) →
       r = (Done (Some (errorsNew genericAPIError)), w2,
            [(call client "GET" (adminPath project) None, inl resp);
             (call client "PUT" (adminPath project) (Some (granted username binding)),
              ans2)])).
Proof.
  intros r. subst r.
  destruct (resolve p id) as [client | err0] eqn:Hc.
  - rewrite (run_changeProjectPermission srv w p _ _ _ client Hc). cbv zeta.
    unfold StatusOK.
    assert (∀ err, err = errorsNew genericAPIError →
              (err = errorsNew genericAPIError ∨ err = NotFoundError id)
              ∧ (kindOf err = Some RemoteAPIError ∨ kindOf err = Some ValidationError)
              ∧ ∀ text, err ≠ TransportError text) as Hgeneric.
    { intros err ->. split; [by left |]. split; [left; apply kindOf_generic | done]. }
    destruct (srv (call client "GET" (adminPath project) None) w)
      as [[resp | text] w1] eqn:Hget.
    + destruct (Z.eqb_spec (StatusCode resp) 200) as [H200 | H200].
      * destruct (Body resp) as [raw | binding] eqn:Hbody; simpl.
        -- split; [done |]. split; [intros err [= <-]; by apply Hgeneric |].
           split.
           ++ intros c ans w1' [= <-]; rewrite Hget; intros [= <- <-] Hne. by specialize (Hne resp eq_refl).
           ++ intros c resp' w1' b ans2 w2 [= <-]; rewrite Hget; intros [= <- <-] _; by rewrite Hbody.
        -- destruct (srv (call client "PUT" (adminPath project)
                            (Some (granted username binding))) w1)
             as [[resp2 | text2] w2] eqn:Hput; simpl.
           ++ destruct (Z.eqb_spec (StatusCode resp2) 200) as [H2 | H2].
              ** split; [done |]. split; [by intros err [=] |]. split.
                 --- intros c ans w1' [= <-]; rewrite Hget; intros [= <- <-] Hne.
                     by specialize (Hne resp eq_refl).
                 --- intros c resp' w1' b ans2 w2' [= <-]; rewrite Hget; intros [= <- <-] _; rewrite Hbody; intros [= <-].
                     rewrite Hput. intros [= <- <-] Hne.
                     by specialize (Hne resp2 eq_refl).
              ** split; [done |]. split; [intros err [= <-]; by apply Hgeneric |].
                 split.
                 --- intros c ans w1' [= <-]; rewrite Hget; intros [= <- <-] Hne.
                     by specialize (Hne resp eq_refl).
                 --- intros c resp' w1' b ans2 w2' [= <-]; rewrite Hget; intros [= <- <-] _; rewrite Hbody; intros [= <-].
                     rewrite Hput. by intros [= <- <-] _.
           ++ split; [done |]. split; [intros err [= <-]; by apply Hgeneric |].
              split.
              ** intros c ans w1' [= <-]; rewrite Hget; intros [= <- <-] Hne.
                 by specialize (Hne resp eq_refl).
              ** intros c resp' w1' b ans2 w2' [= <-]; rewrite Hget; intros [= <- <-] _; rewrite Hbody; intros [= <-].
                 rewrite Hput. by intros [= <- <-] _.
      * split; [done |]. split; [intros err [= <-]; by apply Hgeneric |]. split.
        -- intros c ans w1' [= <-]; rewrite Hget; by intros [= <- <-] _.
        -- intros c resp' w1' b ans2 w2' [= <-]; rewrite Hget; intros [= <- <-] H200'. contradiction.
    + split; [done |]. split; [intros err [= <-]; by apply Hgeneric |]. split.
      * intros c ans w1' [= <-]; rewrite Hget; by intros [= <- <-] _.
      * intros c resp' w1' b ans2 w2' [= <-]; rewrite Hget; by intros [=].
  - pose proof (resolve_error p id err0 Hc) as ->.
    assert (changeProjectPermission p id project username
            = Ret (Some (NotFoundError id))) as ->.
    { unfold changeProjectPermission, getAdminRoleBinding, getOseHTTPClient.
      by rewrite Hc. }
    simpl. split; [done |]. split; [| by split].
    intros err [= <-]. split; [by right |]. split; [by right | done].
Qed.

(** ** Annotations *)

(** A namespace object seen from its annotations. *)
Lemma Path_annotations (namespace : JSON) (ann : gmap string JSON) :
  gabs.Path "metadata.annotations" namespace = JObj ann →
  ∃ top meta,
    namespace = JObj top ∧ top !! "metadata" = Some (JObj meta)
    ∧ meta !! "annotations" = Some (JObj ann).
Proof.
  unfold gabs.Path, gabs.Search, gabs.Data.
  change (Split "metadata.annotations" ".") with ["metadata"; "annotations"].
  destruct namespace as [| | | | elems | top]; simpl; try discriminate.
  - by destruct (omap _ elems).
  - destruct (top !! "metadata") as [[| | | | elems | meta] |] eqn:Htop;
      simpl; try discriminate.
    + by destruct (omap _ elems).
    + destruct (meta !! "annotations") as [child |] eqn:Hmeta; [| discriminate].
      simpl. intros ->. by exists top, meta.
Qed.

(** An annotations object is a container that was found. *)
Lemma PathContainer_found (path : string) (namespace found : JSON) :
  gabs.Path path namespace = found → found ≠ JNull →
  gabs.PathContainer path namespace = Some found.
Proof.
  unfold gabs.Path, gabs.Search, gabs.PathContainer, gabs.Data.
  destruct (gabs.SearchContainer _ namespace); simpl; by intros ->.
Qed.

Lemma SetAt_annotations (top meta ann : gmap string JSON) (value : JSON)
    (key : string) :
  gabs.SetAt "metadata.annotations" value key
    (JObj (<["metadata" := JObj (<["annotations" := JObj ann]> meta)]> top))
  = JObj (<["metadata" := JObj (<["annotations" := JObj (<[key := value]> ann)]> meta)]> top).
Proof.
  unfold gabs.SetAt, gabs.Path, gabs.Search.
  change (Split "metadata.annotations" ".") with ["metadata"; "annotations"].
  repeat (cbn [gabs.SearchContainer gabs.Data gabs.store gabs.Set_ isNil];
          rewrite ?lookup_insert_eq).
  by rewrite !insert_insert_eq.
Qed.

Lemma annotationOf_annotations (top meta ann : gmap string JSON) (key : string) :
  annotationOf key
    (JObj (<["metadata" := JObj (<["annotations" := JObj ann]> meta)]> top))
  = default JNull (ann !! key).
Proof.
  unfold annotationOf, gabs.S, gabs.Path, gabs.Search.
  change (Split "metadata.annotations" ".") with ["metadata"; "annotations"].
  repeat (cbn [gabs.SearchContainer gabs.Data]; rewrite ?lookup_insert_eq).
  by destruct (ann !! key).
Qed.

Lemma len_positive (s : string) : (0 <? len s) = true ↔ s ≠ "".
Proof.
  destruct s; [done |]. split; [done |]. intros _. unfold len. simpl.
  apply Z.ltb_lt. lia.
Qed.

Lemma annotate_annotations (top meta ann : gmap string JSON)
    (billing megaid username : string) (testProject : bool) :
  ∃ ann',
    annotate billing megaid username testProject
      (JObj (<["metadata" := JObj (<["annotations" := JObj ann]> meta)]> top))
    = JObj (<["metadata" := JObj (<["annotations" := JObj ann']> meta)]> top)
    ∧ ann' !! "openshift.io/kontierung-element" = Some (JStr billing)
    ∧ ann' !! "openshift.io/requester" = Some (JStr username)
    ∧ (megaid ≠ "" → ann' !! "openshift.io/MEGAID" = Some (JStr megaid))
    ∧ (megaid = "" → ann' !! "openshift.io/MEGAID" = ann !! "openshift.io/MEGAID")
    ∧ (testProject = true →
       ann' !! "openshift.io/testproject-daystodeletion"
       = Some (JStr testProjectDeletionDays)
       ∧ ann' !! "openshift.io/description"
         = Some (JStr ("Dieses Testprojekt wird in " ++ testProjectDeletionDays
                       ++ " Tagen automatisch gelöscht!")))
    ∧ (testProject = false →
       ann' !! "openshift.io/testproject-daystodeletion"
       = ann !! "openshift.io/testproject-daystodeletion"
       ∧ ann' !! "openshift.io/description" = ann !! "openshift.io/description")
    ∧ (∀ key : string,
         key ∉ ["openshift.io/kontierung-element"; "openshift.io/requester";
                "openshift.io/MEGAID"; "openshift.io/testproject-daystodeletion";
                "openshift.io/description"] →
         ann' !! key = ann !! key).
Proof.
  unfold annotate. rewrite !SetAt_annotations.
  destruct testProject, (0 <? len megaid) eqn:Hmega;
    rewrite ?SetAt_annotations;
    (eexists; split; [reflexivity |]);
    try (apply len_positive in Hmega);
    try (assert (megaid = "") as -> by
          (destruct megaid; [done | by rewrite (proj2 (len_positive _)) in Hmega]));
    repeat split; intros; try done; try discriminate;
    simplify_map_eq; try done;
    repeat (rewrite lookup_insert_ne; [| set_solver]); done.
Qed.

Lemma annotations_shape (top meta ann : gmap string JSON) :
  top !! "metadata" = Some (JObj meta) →
  meta !! "annotations" = Some (JObj ann) →
  JObj top = JObj (<["metadata" := JObj (<["annotations" := JObj ann]> meta)]> top).
Proof. intros Htop Hmeta. by rewrite (insert_id meta), (insert_id top). Qed.

(** Where metadata.annotations is no object there is no map to write
    through: the edits leave the object as it was fetched. *)
Lemma annotate_detached (billing megaid username : string) (testProject : bool)
    (namespace : JSON) :
  (∀ ann, gabs.Path "metadata.annotations" namespace ≠ JObj ann) →
  annotate billing megaid username testProject namespace = namespace.
Proof.
  intros Hdetached.
  assert (∀ value key,
            gabs.SetAt "metadata.annotations" value key namespace = namespace)
    as Hlost.
  { intros value key. unfold gabs.SetAt.
    destruct (gabs.Path "metadata.annotations" namespace) as [| | | | | ann] eqn:Hpath;
      try reflexivity.
    by destruct (Hdetached ann). }
  unfold annotate. rewrite !Hlost.
  destruct testProject, (0 <? len megaid); by rewrite ?Hlost.
Qed.

(** C2, as amended: for a fetched namespace object that carries an
    annotations object, the upsert sends back the whole object with
    only its annotations replaced.  Billing and requester are set to
    the supplied values; MEGA-ID is set when the supplied one is
    non-empty and keeps its prior state otherwise; a test project also
    gets the deletion-days and the description annotation, which keep
    their prior state otherwise; every other annotation, every other
    field of the metadata and every other field of the object is as it
    was fetched. *)
Theorem createOrUpdateMetadata_frame {W : Type} (srv : server W) (w w1 : W)
    (p : Plugin) (id project billing megaid username : string)
    (testProject : bool) (client : ClusterClient) (resp : Response)
    (namespace : JSON) (ann : gmap string JSON) :
  resolve p id = inl client →
  srv (call client "GET" (namespacePath project) None) w = (inl resp, w1) →
  Body resp = Doc namespace →
  gabs.Path "metadata.annotations" namespace = JObj ann →
  ∃ top meta ann',
    namespace = JObj top
    ∧ top !! "metadata" = Some (JObj meta)
    ∧ meta !! "annotations" = Some (JObj ann)
    ∧ requests (run srv (createOrUpdateMetadata p id project billing megaid
                           username testProject) w)
      = [call client "GET" (namespacePath project) None;
         call client "PUT" (namespacePath project)
           (Some (JObj (<["metadata" := JObj (<["annotations" := JObj ann']> meta)]> top)))]
    ∧ ann' !! "openshift.io/kontierung-element" = Some (JStr billing)
    ∧ ann' !! "openshift.io/requester" = Some (JStr username)
    ∧ (megaid ≠ "" → ann' !! "openshift.io/MEGAID" = Some (JStr megaid))
    ∧ (megaid = "" → ann' !! "openshift.io/MEGAID" = ann !! "openshift.io/MEGAID")
    ∧ (testProject = true →
       ann' !! "openshift.io/testproject-daystodeletion"
       = Some (JStr testProjectDeletionDays)
       ∧ ann' !! "openshift.io/description"
         = Some (JStr ("Dieses Testprojekt wird in " ++ testProjectDeletionDays
                       ++ " Tagen automatisch gelöscht!")))
    ∧ (testProject = false →
       ann' !! "openshift.io/testproject-daystodeletion"
       = ann !! "openshift.io/testproject-daystodeletion"
       ∧ ann' !! "openshift.io/description" = ann !! "openshift.io/description")
    ∧ (∀ key : string,
         key ∉ ["openshift.io/kontierung-element"; "openshift.io/requester";
                "openshift.io/MEGAID"; "openshift.io/testproject-daystodeletion";
                "openshift.io/description"] →
         ann' !! key = ann !! key).
Proof.
  intros Hc Hget Hbody Hann.
  pose proof (PathContainer_found _ _ _ Hann ltac:(discriminate)) as Hfound.
  destruct (Path_annotations _ _ Hann) as (top & meta & -> & Htop & Hmeta).
  destruct (annotate_annotations top meta ann billing megaid username testProject)
    as (ann' & Hstored & Hfacts).
  exists top, meta, ann'.
  split; [done |]. split; [done |]. split; [done |]. split; [| exact Hfacts].
  rewrite (annotations_shape _ _ _ Htop Hmeta) in Hbody, Hfound.
  rewrite (run_createOrUpdateMetadata srv w p _ _ _ _ _ _ client Hc). cbv zeta.
  rewrite Hget, Hbody. cbn [ParseJSONBuffer]. rewrite Hfound, Hstored.
  by destruct (srv (call client "PUT" _ _) w1) as [ans2 w2].
Qed.

(** ** Granting admin rights *)

Lemma granted_members (username : string) (top : gmap string JSON)
    (members : list JSON) :
  top !! "userNames" = Some (JArr members) →
  granted username (JObj top)
  = JObj (<["userNames" :=
             JArr (members ++ [JStr (ToLower username); JStr (ToUpper username)])]> top).
Proof.
  intros Htop. unfold granted, gabs.ArrayAppend, gabs.Search.
  cbn [gabs.SearchContainer gabs.Data gabs.Set_ isNil]. rewrite Htop.
  cbn [gabs.SearchContainer gabs.Data gabs.Set_ isNil]. rewrite lookup_insert_eq.
  cbn [gabs.SearchContainer gabs.Data gabs.Set_ isNil].
  by rewrite insert_insert_eq, <- app_assoc.
Qed.

Lemma changeProjectPermission_success {W : Type} (srv : server W) (w w' : W)
    (p : Plugin) (id project username : string) (tr : list (Request * answer)) :
  run srv (changeProjectPermission p id project username) w = (Done None, w', tr) →
  ∃ client resp binding resp2 w1,
    resolve p id = inl client
    ∧ srv (call client "GET" (adminPath project) None) w = (inl resp, w1)
    ∧ StatusCode resp = 200 ∧ Body resp = Doc binding
    ∧ srv (call client "PUT" (adminPath project) (Some (granted username binding))) w1
      = (inl resp2, w')
    ∧ StatusCode resp2 = 200
    ∧ tr = [(call client "GET" (adminPath project) None, inl resp);
            (call client "PUT" (adminPath project) (Some (granted username binding)),
             inl resp2)].
Proof.
  destruct (resolve p id) as [client | err0] eqn:Hc.
  - rewrite (run_changeProjectPermission srv w p _ _ _ client Hc). cbv zeta.
    unfold StatusOK.
    destruct (srv (call client "GET" _ _) w) as [[resp | text] w1] eqn:Hget;
      [| discriminate].
    destruct (Z.eqb_spec (StatusCode resp) 200) as [H200 | _]; [| discriminate].
    destruct (Body resp) as [raw | binding] eqn:Hbody; [discriminate |].
    cbn [ParseJSONBuffer].
    destruct (srv (call client "PUT" _ _) w1) as [[resp2 | text] w2] eqn:Hput;
      [| discriminate].
    destruct (Z.eqb_spec (StatusCode resp2) 200) as [H2 | _]; [| discriminate].
    intros [= <- <-]. by exists client, resp, binding, resp2, w1.
  - unfold changeProjectPermission, getAdminRoleBinding, getOseHTTPClient.
    rewrite Hc. discriminate.
Qed.

Lemma matches_call (client : ClusterClient) (id method path : string)
    (body : option JSON) :
  clusterId client = id →
  matches id method path (call client method path body) = true.
Proof. intros <-. unfold matches, call. simpl. by rewrite !String.eqb_refl. Qed.

Lemma matches_method (client : ClusterClient) (id method method' path path' : string)
    (body : option JSON) :
  method ≠ method' →
  matches id method path (call client method' path' body) = false.
Proof.
  intros Hne. unfold matches, call. simpl.
  destruct (String.eqb_spec method' method) as [-> | _]; [done |].
  by rewrite andb_false_r.
Qed.

Lemma permission_trace (client : ClusterClient) (id path : string)
    (resp resp2 : Response) (binding stored : JSON) :
  clusterId client = id → Body resp = Doc binding →
  let tr := [(call client "GET" path None, inl resp);
             (call client "PUT" path (Some stored), inl resp2)] in
  served id "GET" path tr = [binding] ∧ sent id "PUT" path tr = [stored].
Proof.
  intros Hid Hbody tr. subst tr. unfold served, sent. cbn [omap list_omap fst snd].
  rewrite !(matches_call _ _ _ _ _ Hid).
  rewrite !matches_method by done. rewrite Hbody. done.
Qed.

(** C4, as amended: every successful grant writes the fetched binding
    back with two entries appended to its member list, the lower-case
    form of the user name and then the upper-case form; so a second
    grant on a cluster that serves what the first one wrote leaves four
    appended entries: lower, upper, lower, upper. *)
Theorem changeProjectPermission_twice {W : Type} (srv : server W) (w w1 w2 : W)
    (p : Plugin) (id project username : string)
    (tr1 tr2 : list (Request * answer)) (top : gmap string JSON)
    (members : list JSON) :
  run srv (changeProjectPermission p id project username) w = (Done None, w1, tr1) →
  run srv (changeProjectPermission p id project username) w1 = (Done None, w2, tr2) →
  served id "GET" (adminPath project) tr1 = [JObj top] →
  top !! "userNames" = Some (JArr members) →
  served id "GET" (adminPath project) tr2 = sent id "PUT" (adminPath project) tr1 →
  sent id "PUT" (adminPath project) tr1
  = [JObj (<["userNames" :=
              JArr (members ++ [JStr (ToLower username); JStr (ToUpper username)])]> top)]
  ∧ sent id "PUT" (adminPath project) tr2
    = [JObj (<["userNames" :=
                JArr (members ++ [JStr (ToLower username); JStr (ToUpper username);
                                  JStr (ToLower username); JStr (ToUpper username)])]> top)].
Proof.
  intros Hrun1 Hrun2 Hserved Htop Hrw.
  apply changeProjectPermission_success in Hrun1
    as (client & resp & binding & resp2 & w1' & Hc & _ & _ & Hbody & _ & _ & ->).
  apply changeProjectPermission_success in Hrun2
    as (client' & resp' & binding' & resp2' & w2' & Hc' & _ & _ & Hbody' & _ & _ & ->).
  rewrite Hc in Hc'. injection Hc' as <-.
  pose proof (resolve_known _ _ _ Hc) as Hid.
  destruct (permission_trace client id (adminPath project) resp resp2 binding
              (granted username binding) Hid Hbody) as [Hs1 Hp1].
  destruct (permission_trace client id (adminPath project) resp' resp2' binding'
              (granted username binding') Hid Hbody') as [Hs2 Hp2].
  cbv zeta in *. rewrite Hs1 in Hserved. injection Hserved as ->.
  rewrite Hs2, Hp1 in Hrw. injection Hrw as ->.
  rewrite Hp1, Hp2. rewrite (granted_members _ _ _ Htop).
  split; [done |].
  rewrite (granted_members username _
             (members ++ [JStr (ToLower username); JStr (ToUpper username)]))
    by apply lookup_insert_eq.
  by rewrite insert_insert_eq, <- app_assoc.
Qed.

(** ** A successful creation *)

Lemma createOrUpdateMetadata_success {W : Type} (srv : server W) (w w' : W)
    (p : Plugin) (id project billing megaid username : string)
    (testProject : bool) (client : ClusterClient) (tr : list (Request * answer)) :
  resolve p id = inl client →
  run srv (createOrUpdateMetadata p id project billing megaid username testProject) w
  = (Done None, w', tr) →
  ∃ resp namespace resp2,
    Body resp = Doc namespace
    ∧ tr = [(call client "GET" (namespacePath project) None, inl resp);
            (call client "PUT" (namespacePath project)
               (Some (annotate billing megaid username testProject namespace)),
             inl resp2)].
Proof.
  intros Hc. rewrite (run_createOrUpdateMetadata srv w p _ _ _ _ _ _ client Hc).
  cbv zeta.
  destruct (srv (call client "GET" _ _) w) as [[resp | text] w1]; [| discriminate].
  destruct (Body resp) as [raw | namespace] eqn:Hbody; [discriminate |].
  cbn [ParseJSONBuffer].
  destruct (gabs.PathContainer "metadata.annotations" namespace); [| discriminate].
  destruct (srv (call client "PUT" _ _) w1) as [[resp2 | text] w2]; [| discriminate].
  destruct (StatusCode resp2 =? StatusOK); [| discriminate].
  intros [= <- <-]. by exists resp, namespace, resp2.
Qed.

Lemma createNewProject_success {W : Type} (srv : server W) (w w' : W)
    (p : Plugin) (id project username billing megaid : string)
    (testProject : bool) (tr : list (Request * answer)) :
  run srv (createNewProject p id project username billing megaid testProject) w
  = (Done None, w', tr) →
  ∃ client created resp binding resp2 resp3 namespace resp4,
    resolve p id = inl client
    ∧ Body resp3 = Doc namespace
    ∧ tr = [(call client "POST" "oapi/v1/projectrequests"
               (Some (newObjectRequest "ProjectRequest" (ToLower project))),
             inl created);
            (call client "GET" (adminPath (ToLower project)) None, inl resp);
            (call client "PUT" (adminPath (ToLower project))
               (Some (granted username binding)), inl resp2);
            (call client "GET" (namespacePath (ToLower project)) None, inl resp3);
            (call client "PUT" (namespacePath (ToLower project))
               (Some (annotate billing megaid username testProject namespace)),
             inl resp4)].
Proof.
  destruct (resolve p id) as [client | err0] eqn:Hc.
  - rewrite (run_createNewProject srv w p _ _ _ _ _ _ client Hc). cbv zeta.
    destruct (srv (call client "POST" _ _) w) as [[created | text] w1];
      [| discriminate].
    destruct (StatusCode created =? StatusCreated).
    + destruct (run srv (changeProjectPermission _ _ _ _) w1)
        as [[[[e |] |] w2] tr2] eqn:Hgrant; try discriminate.
      apply changeProjectPermission_success in Hgrant
        as (client' & resp & binding & resp2 & w1' & Hc' & _ & _ & _ & _ & _ & ->).
      rewrite Hc in Hc'. injection Hc' as <-.
      destruct (run srv (createOrUpdateMetadata _ _ _ _ _ _ _) w2)
        as [[o w3] tr3] eqn:Hmeta.
      intros [= -> <- <-].
      apply (createOrUpdateMetadata_success srv _ _ p _ _ _ _ _ _ client _ Hc) in Hmeta
        as (resp3 & namespace & resp4 & Hbody & ->).
      by exists client, created, resp, binding, resp2, resp3, namespace, resp4.
    + destruct (StatusCode created =? StatusConflict); discriminate.
  - unfold createNewProject, getOseHTTPClient. rewrite Hc. discriminate.
Qed.

Lemma creation_trace (client : ClusterClient) (id name : string)
    (created resp resp2 resp3 resp4 : Response)
    (request binding namespace stored : JSON) :
  clusterId client = id → Body resp3 = Doc namespace →
  let tr := [(call client "POST" "oapi/v1/projectrequests" (Some request),
              inl created);
             (call client "GET" (adminPath name) None, inl resp);
             (call client "PUT" (adminPath name) (Some binding), inl resp2);
             (call client "GET" (namespacePath name) None, inl resp3);
             (call client "PUT" (namespacePath name) (Some stored), inl resp4)] in
  sent id "POST" "oapi/v1/projectrequests" tr = [request]
  ∧ served id "GET" (namespacePath name) tr = [namespace]
  ∧ sent id "PUT" (namespacePath name) tr = [stored].
Proof.
  intros Hid Hbody tr. subst tr. unfold served, sent, matches, call.
  cbn [omap list_omap fst snd reqClient reqMethod reqPath reqBody].
  rewrite Hid, !String.eqb_refl, Hbody.
  unfold adminPath, namespacePath. by cbn.
Qed.

(** C3, as amended: after a successful creation with billing b and
    MEGA-ID m, on a cluster whose namespace object carries an
    annotations object (with no MEGA-ID annotation of its own when m is
    empty) and which serves back the object it was sent,
    getProjectInformation for the project returns Kontierungsnummer = b
    and MegaID = m; an absent annotation reads back as the empty
    string. *)
Theorem creation_roundtrip {W : Type} (srv : server W) (w w1 w2 : W)
    (p : Plugin) (id project username billing megaid : string)
    (testProject : bool) (tr : list (Request * answer)) (client : ClusterClient)
    (namespace stored : JSON) (ann : gmap string JSON) (resp : Response) :
  run srv (createNewProject p id project username billing megaid testProject) w
  = (Done None, w1, tr) →
  served id "GET" (namespacePath (ToLower project)) tr = [namespace] →
  gabs.Path "metadata.annotations" namespace = JObj ann →
  (megaid = "" → ann !! "openshift.io/MEGAID" = None) →
  sent id "PUT" (namespacePath (ToLower project)) tr = [stored] →
  resolve p id = inl client →
  srv (call client "GET" (namespacePath (ToLower project)) None) w1 = (inl resp, w2) →
  Body resp = Doc stored →
  run srv (getProjectInformation p id (ToLower project)) w1
  = (Done (Some {| Kontierungsnummer := billing; MegaID := megaid |}, None), w2,
     [(call client "GET" (namespacePath (ToLower project)) None, inl resp)]).
Proof.
  intros Hrun Hserved Hann Hfresh Hsent Hc Hget Hbody.
  apply createNewProject_success in Hrun
    as (client' & created & r1 & binding & r2 & r3 & namespace' & r4
        & Hc' & Hbody3 & ->).
  rewrite Hc in Hc'. injection Hc' as <-.
  pose proof (resolve_known _ _ _ Hc) as Hid.
  destruct (creation_trace client id (ToLower project) created r1 r2 r3 r4
              (newObjectRequest "ProjectRequest" (ToLower project))
              (granted username binding) namespace'
              (annotate billing megaid username testProject namespace') Hid Hbody3)
    as (_ & Hs & Hp).
  cbv zeta in *. rewrite Hs in Hserved. injection Hserved as ->.
  rewrite Hp in Hsent. injection Hsent as <-.
  destruct (Path_annotations _ _ Hann) as (top & meta & -> & Htop & Hmeta).
  rewrite (annotations_shape _ _ _ Htop Hmeta) in Hbody.
  destruct (annotate_annotations top meta ann billing megaid username testProject)
    as (ann' & Hstored & Hbilling & _ & Hset & Hkeep & _).
  rewrite Hstored in Hbody.
  unfold getProjectInformation. rewrite run_bind.
  rewrite (run_getOseHTTPClient srv w1 p _ _ _ _ client Hc).
  fold (namespacePath (ToLower project)). rewrite Hget. cbn [ParseJSONBuffer].
  rewrite Hbody. cbn [ParseJSONBuffer].
  rewrite !run_bind.
  fold (annotationOf "openshift.io/kontierung-element"
          (JObj (<["metadata" := JObj (<["annotations" := JObj ann']> meta)]> top))).
  fold (annotationOf "openshift.io/MEGAID"
          (JObj (<["metadata" := JObj (<["annotations" := JObj ann']> meta)]> top))).
  rewrite !annotationOf_annotations, Hbilling.
  destruct (decide (megaid = "")) as [-> | Hne].
  - rewrite (Hkeep eq_refl), (Hfresh eq_refl). reflexivity.
  - rewrite (Hset Hne). reflexivity.
Qed.

(** ** Test projects *)

Lemma prefixed_name (username requested : string) :
  (len (username ++ "-" ++ requested) =? 0) = false.
Proof. by destruct username. Qed.




(** ** Listing projects *)

Lemma run_projectNamesOf {W : Type} (srv : server W) (w : W)
    (projects : list JSON) (names projectNames : list string) :
  Forall2 (fun project name => gabs.Path "metadata.name" project = JStr name)
    projects names →
  run srv (projectNamesOf projects projectNames) w
  = (Done (projectNames ++ names)%list, w, []).
Proof.
  intros Hnames. revert projectNames.
  induction Hnames as [| project name projects names Hname _ IH];
    intros projectNames.
  - simpl. by rewrite app_nil_r.
  - cbn [projectNamesOf]. rewrite Hname.
    change (run srv (projectNamesOf projects (projectNames ++ [name])%list) w
            = (Done (projectNames ++ name :: names)%list, w, [])).
    rewrite IH. by rewrite <- app_assoc.
Qed.

(** C9: getUserProjects is the same program for every user name, so on
    every cluster two users get the same answer; and on a project list
    whose items all carry a name both get exactly those names, in order
    and unfiltered. *)
Theorem getUserProjects_unfiltered {W : Type} (srv : server W) (w w1 : W)
    (p : Plugin) (id u1 u2 : string) (client : ClusterClient) (resp : Response)
    (json : JSON) (projects : list JSON) (names : list string) :
  getUserProjects p id u1 = getUserProjects p id u2
  ∧ run srv (getUserProjects p id u1) w = run srv (getUserProjects p id u2) w
  ∧ (resolve p id = inl client →
     srv (call client "GET" "oapi/v1/projects" None) w = (inl resp, w1) →
     Body resp = Doc json →
     gabs.Search ["items"] json = JArr projects →
     Forall2 (fun project name => gabs.Path "metadata.name" project = JStr name)
       projects names →
     run srv (getUserProjects p id u1) w
     = (Done (names, None), w1,
        [(call client "GET" "oapi/v1/projects" None, inl resp)])
     ∧ run srv (getUserProjects p id u2) w
       = (Done (names, None), w1,
          [(call client "GET" "oapi/v1/projects" None, inl resp)])).
Proof.
  split; [reflexivity |]. split; [reflexivity |].
  intros Hc Hget Hbody Hitems Hnames.
  assert (run srv (getUserProjects p id u1) w
          = (Done (names, None), w1,
             [(call client "GET" "oapi/v1/projects" None, inl resp)])) as Hrun;
    [| by split].
  unfold getUserProjects. rewrite run_bind.
  rewrite (run_getOseHTTPClient srv w p _ _ _ _ client Hc), Hget.
  rewrite Hbody. cbn [ParseJSONBuffer]. rewrite Hitems. cbn [gabs.Children].
  rewrite run_bind, (run_projectNamesOf srv w1 projects names [] Hnames).
  reflexivity.
Qed.

(** ** Project information *)

Lemma getProjectInformation_error {W : Type} (srv : server W) (w w' : W)
    (p : Plugin) (id project : string) (pi : option ProjectInformation)
    (err : error) (tr : list (Request * answer)) :
  run srv (getProjectInformation p id project) w = (Done (pi, Some err), w', tr) →
  pi = None.
Proof.
  destruct (resolve p id) as [client | err0] eqn:Hc.
  - unfold getProjectInformation. rewrite run_bind.
    rewrite (run_getOseHTTPClient srv w p _ _ _ _ client Hc).
    destruct (srv _ w) as [[resp | text] w1]; [| by intros [= <- _ _ _]].
    destruct (Body resp) as [raw | json]; cbn [ParseJSONBuffer];
      [by intros [= <- _ _ _] |].
    rewrite !run_bind.
    destruct (run srv (stringOrEmpty _) w1) as [[[billing |] w2] tr2];
      [| discriminate].
    rewrite !run_bind.
    destruct (run srv (stringOrEmpty _) w2) as [[[megaid |] w3] tr3];
      discriminate.
  - unfold getProjectInformation, getOseHTTPClient. rewrite Hc.
    by intros [= <- _ _ _].
Qed.

(** C10: when access validation succeeds and getProjectInformation
    returns an error, the handler writes the 400 response with the
    error message and, not returning there, goes on to write a 200
    response whose body is the nil ProjectInformation. *)
Theorem getProjectInformationHandler_falls_through {W : Type} (srv : server W)
    (w w1 w2 : W) (p : Plugin) (username id project : string)
    (pi : option ProjectInformation) (err : error)
    (tr1 tr2 : list (Request * answer)) :
  run srv (validateAdminAccess p id username project) w = (Done None, w1, tr1) →
  run srv (getProjectInformation p id project) w1 = (Done (pi, Some err), w2, tr2) →
  pi = None
  ∧ run srv (getProjectInformationHandler p username id project) w
    = (Done [(StatusBadRequest, ApiResponse (Error err));
             (StatusOK, ProjectInformationBody None)], w2, (tr1 ++ tr2)%list).
Proof.
  intros Hvalid Hinfo.
  pose proof (getProjectInformation_error _ _ _ _ _ _ _ _ _ Hinfo) as ->.
  split; [reflexivity |].
  unfold getProjectInformationHandler. rewrite run_bind, Hvalid.
  rewrite run_bind, Hinfo. simpl. by rewrite app_nil_r.
Qed.

(** ** Letter case *)

Lemma lowerByte_idempotent (c : ascii) : lowerByte (lowerByte c) = lowerByte c.
Proof. by destruct c as [[] [] [] [] [] [] [] []]. Qed.

Lemma upperByte_lowerByte (c : ascii) : upperByte (lowerByte c) = upperByte c.
Proof. by destruct c as [[] [] [] [] [] [] [] []]. Qed.

Lemma ToLower_idempotent (s : string) : ToLower (ToLower s) = ToLower s.
Proof.
  unfold ToLower. induction s as [| c s IH]; [reflexivity |].
  simpl. by rewrite lowerByte_idempotent, IH.
Qed.

Lemma ToUpper_ToLower (s : string) : ToUpper (ToLower s) = ToUpper s.
Proof.
  unfold ToUpper, ToLower. induction s as [| c s IH]; [reflexivity |].
  simpl. by rewrite upperByte_lowerByte, IH.
Qed.

(** X1: creation does not tell the letter case of a project name apart:
    two names with the same lower-case form give the same requests and
    the same outcome, so the second of them meets the project of the
    first. *)
Theorem createNewProject_folds_case (p : Plugin)
    (id project project' username billing megaid : string) (testProject : bool) :
  ToLower project = ToLower project' →
  createNewProject p id project username billing megaid testProject
  = createNewProject p id (ToLower project') username billing megaid testProject.
Proof.
  intros Hfold. unfold createNewProject. by rewrite ToLower_idempotent, Hfold.
Qed.

(** X2: for user names written in ASCII, the admin entries of a grant
    depend on the user name only up to letter case: two ASCII names
    with the same lower-case form give the same program.  (Outside
    ASCII the upper-case form of a name is not determined by its
    lower-case form.) *)
Theorem changeProjectPermission_folds_case (p : Plugin)
    (id project username username' : string) :
  isASCII username = true → isASCII username' = true →
  ToLower username = ToLower username' →
  changeProjectPermission p id project username
  = changeProjectPermission p id project username'.
Proof.
  intros _ _ Hfold. unfold changeProjectPermission.
  by rewrite <- (ToUpper_ToLower username), <- (ToUpper_ToLower username'), Hfold.
Qed.

(** ** The shape of a creation *)

(** X3: a creation never undoes anything: whatever the cluster answers,
    its requests are an initial part of POST project request, GET and
    PUT of the admin binding, GET and PUT of the namespace, all for the
    lower-cased name, and it returns nil only after all five.  It
    panics in one case only: after the fourth request, when the
    namespace object it was served has no metadata.annotations. *)
Theorem createNewProject_plan {W : Type} (srv : server W) (w : W)
    (p : Plugin) (id project username billing megaid : string) (testProject : bool) :
  let r := run srv (createNewProject p id project username billing megaid
                      testProject) w in
  (methodAndPath <$> requests r) `prefix_of` creationPlan (ToLower project)
  ∧ (result r = Done None →
     methodAndPath <$> requests r = creationPlan (ToLower project))
  ∧ (result r = Panicked →
     methodAndPath <$> requests r
     = [("POST", "oapi/v1/projectrequests");
        ("GET", adminPath (ToLower project)); ("PUT", adminPath (ToLower project));
        ("GET", namespacePath (ToLower project))]
     ∧ ∃ namespace,
         served id "GET" (namespacePath (ToLower project)) (snd r) = [namespace]
         ∧ gabs.PathContainer "metadata.annotations" namespace = None).
Proof.
  intros r. subst r.
  assert (∀ (o : option error) (w' : W) (tr : list (Request * answer)),
            (methodAndPath <$> (fst <$> tr)) `prefix_of` creationPlan (ToLower project) →
            (o = None →
             methodAndPath <$> (fst <$> tr) = creationPlan (ToLower project)) →
            (methodAndPath <$> requests (Done o, w', tr)) `prefix_of`
              creationPlan (ToLower project)
            ∧ (result (Done o, w', tr) = Done None →
               methodAndPath <$> requests (Done o, w', tr)
               = creationPlan (ToLower project))
            ∧ (result (Done o, w', tr) = Panicked →
               methodAndPath <$> requests (Done o, w', tr)
               = [("POST", "oapi/v1/projectrequests");
                  ("GET", adminPath (ToLower project));
                  ("PUT", adminPath (ToLower project));
                  ("GET", namespacePath (ToLower project))]
               ∧ ∃ namespace,
                   served id "GET" (namespacePath (ToLower project))
                     (snd (Done o, w', tr)) = [namespace]
                   ∧ gabs.PathContainer "metadata.annotations" namespace = None))
    as Hleaf.
  { intros o w' tr Hprefix Hall. split; [exact Hprefix |].
    split; [| discriminate]. intros [= ->]. by apply Hall. }
  destruct (resolve p id) as [client | err0] eqn:Hc.
  - pose proof (resolve_known _ _ _ Hc) as Hid.
    rewrite (run_createNewProject srv w p _ _ _ _ _ _ client Hc). cbv zeta.
    destruct (srv (call client "POST" _ _) w) as [[created | text] w1];
      [| apply Hleaf; [by eexists | discriminate]].
    destruct (StatusCode created =? StatusCreated).
    + rewrite (run_changeProjectPermission srv w1 p _ _ _ client Hc). cbv zeta.
      destruct (srv (call client "GET" _ _) w1) as [[resp | text] w2];
        [| apply Hleaf; [by eexists | discriminate]].
      destruct (StatusCode resp =? StatusOK);
        [| apply Hleaf; [by eexists | discriminate]].
      destruct (ParseJSONBuffer (Body resp)) as [binding |];
        [| apply Hleaf; [by eexists | discriminate]].
      destruct (srv (call client "PUT" _ _) w2) as [[resp2 | text] w3];
        [| apply Hleaf; [by eexists | discriminate]].
      destruct (StatusCode resp2 =? StatusOK);
        [| apply Hleaf; [by eexists | discriminate]].
      rewrite (run_createOrUpdateMetadata srv w3 p _ _ _ _ _ _ client Hc). cbv zeta.
      destruct (srv (call client "GET" _ _) w3) as [[resp3 | text] w4];
        [| apply Hleaf; [by eexists | discriminate]].
      destruct (ParseJSONBuffer (Body resp3)) as [namespace |] eqn:Hbody3;
        [| apply Hleaf; [by eexists | discriminate]].
      destruct (gabs.PathContainer "metadata.annotations" namespace) eqn:Hfound.
      * destruct (srv (call client "PUT" _ _) w4) as [ans4 w5].
        apply Hleaf; [by exists [] | done].
      * split; [by eexists [_] |]. split; [discriminate |]. intros _.
        split; [reflexivity |]. exists namespace. split; [| exact Hfound].
        unfold served, matches, call.
        cbn [omap list_omap fst snd reqClient reqMethod reqPath reqBody app].
        rewrite Hid, !String.eqb_refl, Hbody3.
        unfold adminPath, namespacePath. by cbn.
    + destruct (StatusCode created =? StatusConflict);
        (apply Hleaf; [by eexists | discriminate]).
  - unfold createNewProject, getOseHTTPClient. rewrite Hc.
    apply (Hleaf (Some err0) w []); [by eexists | discriminate].
Qed.

(** ** Statuses that are never looked at *)

(** X4: the metadata upsert never looks at the status of its GET: a
    document answered under any status is treated alike.  When it has
    no metadata.annotations the upsert panics after the GET, without a
    PUT; otherwise it is annotated and PUT back, and the outcome is
    decided by the PUT alone: nil exactly when the PUT is answered 200,
    the generic error otherwise. *)
Theorem createOrUpdateMetadata_ignores_GET_status {W : Type} (srv : server W)
    (w w1 : W) (p : Plugin) (id project billing megaid username : string)
    (testProject : bool) (client : ClusterClient) (resp : Response)
    (namespace : JSON) :
  resolve p id = inl client →
  srv (call client "GET" (namespacePath project) None) w = (inl resp, w1) →
  Body resp = Doc namespace →
  let get := call client "GET" (namespacePath project) None in
  let put := call client "PUT" (namespacePath project)
               (Some (annotate billing megaid username testProject namespace)) in
  let r := run srv (createOrUpdateMetadata p id project billing megaid username
                      testProject) w in
  (gabs.PathContainer "metadata.annotations" namespace = None →
   r = (Panicked, w1, [(get, inl resp)]))
  ∧ (gabs.PathContainer "metadata.annotations" namespace ≠ None →
     ∀ ans2 w2, srv put w1 = (ans2, w2) →
       requests r = [get; put]
       ∧ (result r = Done None ↔ ∃ resp2, ans2 = inl resp2 ∧ StatusCode resp2 = 200)
       ∧ (result r = Done None
          ∨ result r = Done (Some (errorsNew genericAPIError)))).
Proof.
  intros Hc Hget Hbody get put r. subst get put r.
  rewrite (run_createOrUpdateMetadata srv w p _ _ _ _ _ _ client Hc). cbv zeta.
  rewrite Hget, Hbody. cbn [ParseJSONBuffer].
  destruct (gabs.PathContainer "metadata.annotations" namespace) as [found |];
    (split; [| intros Hfound ans2 w2 Hput]); try done.
  rewrite Hput.
  split; [reflexivity |]. unfold result, StatusOK. simpl.
  destruct ans2 as [resp2 | text].
  - destruct (Z.eqb_spec (StatusCode resp2) 200) as [H200 | H200].
    + split; [| by left]. split; [by exists resp2 | done].
    + split; [| by right]. split; [discriminate |].
      intros (resp2' & [= <-] & H). contradiction.
  - split; [| by right]. split; [discriminate |]. by intros (resp2' & [=] & _).
Qed.

(** X5: getProjectInformation never looks at the status either.  When
    the body does not decode it returns the generic error; when it does,
    under any status, each of the two annotations reads as the empty
    string if it is absent or null and as itself if it is a string, and
    any other value makes the type assertion panic. *)
Theorem getProjectInformation_reads {W : Type} (srv : server W) (w w1 : W)
    (p : Plugin) (id project : string) (client : ClusterClient) (resp : Response) :
  resolve p id = inl client →
  srv (call client "GET" (namespacePath project) None) w = (inl resp, w1) →
  result (run srv (getProjectInformation p id project) w)
  = match Body resp with
    | Undecodable _ => Done (None, Some (errorsNew genericAPIError))
    | Doc json =>
        match readAnnotation (annotationOf "openshift.io/kontierung-element" json),
              readAnnotation (annotationOf "openshift.io/MEGAID" json) with
        | Some billing, Some megaid =>
            Done (Some {| Kontierungsnummer := billing; MegaID := megaid |}, None)
        | _, _ => Panicked
        end
    end.
Proof.
  intros Hc Hget. unfold getProjectInformation. rewrite run_bind.
  rewrite (run_getOseHTTPClient srv w p _ _ _ _ client Hc).
  fold (namespacePath project). rewrite Hget.
  destruct (Body resp) as [raw | json]; cbn [ParseJSONBuffer]; [reflexivity |].
  fold (annotationOf "openshift.io/kontierung-element" json).
  fold (annotationOf "openshift.io/MEGAID" json).
  destruct (annotationOf "openshift.io/kontierung-element" json);
    destruct (annotationOf "openshift.io/MEGAID" json); reflexivity.
Qed.

(** ** Listing projects: errors and panics *)

Lemma run_projectNamesOf_panics {W : Type} (srv : server W) (w : W)
    (projects : list JSON) (projectNames : list string) :
  Exists (fun project => ∀ name, gabs.Path "metadata.name" project ≠ JStr name)
    projects →
  run srv (projectNamesOf projects projectNames) w = (Panicked, w, []).
Proof.
  intros Hnameless. revert projectNames.
  induction projects as [| project projects IH]; intros projectNames.
  - by apply Exists_nil in Hnameless.
  - cbn [projectNamesOf].
    destruct (gabs.Path "metadata.name" project) as [| | | name | |] eqn:Hname;
      try reflexivity.
    apply Exists_cons in Hnameless as [Hhere | Hlater].
    + by destruct (Hhere name).
    + exact (IH Hlater _).
Qed.

(** X6: getUserProjects on an answered GET, whatever its status: a body
    that does not decode, or one whose "items" is neither an array nor
    an object, gives the generic error with an empty list; an empty
    array gives the empty list without error; and a single item without
    a string metadata.name makes the whole listing panic. *)
Theorem getUserProjects_edges {W : Type} (srv : server W) (w w1 : W)
    (p : Plugin) (id username : string) (client : ClusterClient) (resp : Response) :
  resolve p id = inl client →
  srv (call client "GET" "oapi/v1/projects" None) w = (inl resp, w1) →
  let r := run srv (getUserProjects p id username) w in
  (ParseJSONBuffer (Body resp) = None →
   result r = Done ([], Some (errorsNew genericAPIError)))
  ∧ (∀ json, Body resp = Doc json →
       gabs.Children (gabs.Search ["items"] json) = None →
       result r = Done ([], Some (errorsNew genericAPIError)))
  ∧ (∀ json, Body resp = Doc json →
       gabs.Search ["items"] json = JArr [] → result r = Done ([], None))
  ∧ (∀ json projects, Body resp = Doc json →
       gabs.Children (gabs.Search ["items"] json) = Some projects →
       Exists (fun project => ∀ name, gabs.Path "metadata.name" project ≠ JStr name)
         projects →
       result r = Panicked).
Proof.
  intros Hc Hget r. subst r. unfold getUserProjects. rewrite run_bind.
  rewrite (run_getOseHTTPClient srv w p _ _ _ _ client Hc), Hget.
  split; [| split; [| split]].
  - by intros ->.
  - intros json -> Hitems. cbn [ParseJSONBuffer]. by rewrite Hitems.
  - intros json -> Hitems. cbn [ParseJSONBuffer]. by rewrite Hitems.
  - intros json projects -> Hitems Hnameless. cbn [ParseJSONBuffer].
    rewrite Hitems, run_bind.
    by rewrite (run_projectNamesOf_panics srv w1 projects [] Hnameless).
Qed.

(** X7: getProjectsHandler answers at most once.  Without a clusterid
    it answers 400 with the usage message and contacts no cluster; for
    an unknown cluster it answers 400 with the resolver's message, again
    without a request; a failed or unreadable listing gives 400 with the
    generic message; a list of named items gives 200 with exactly those
    names; a listing with an item that has no string name makes the
    handler panic without any answer; and every run that ends has
    answered exactly once, with 200 or 400. *)
Theorem getProjectsHandler_answers {W : Type} (srv : server W) (w : W)
    (p : Plugin) (username id : string) :
  (id = "" →
   getProjectsHandler p username id
   = Ret [(StatusBadRequest, inl (ApiResponse wrongAPIUsageError))])
  ∧ (id ≠ "" →
     Forall (fun client => clusterId client ≠ id) (clusters p) →
     run srv (getProjectsHandler p username id) w
     = (Done [(StatusBadRequest, inl (ApiResponse "cluster unknown"))], w, []))
  ∧ (∀ client ans w1,
       id ≠ "" → resolve p id = inl client →
       srv (call client "GET" "oapi/v1/projects" None) w = (ans, w1) →
       (∀ resp json, ans = inl resp → Body resp = Doc json →
                     gabs.Children (gabs.Search ["items"] json) = None) →
       run srv (getProjectsHandler p username id) w
       = (Done [(StatusBadRequest, inl (ApiResponse genericAPIError))], w1,
          [(call client "GET" "oapi/v1/projects" None, ans)]))
  ∧ (∀ client resp w1 json projects names,
       id ≠ "" → resolve p id = inl client →
       srv (call client "GET" "oapi/v1/projects" None) w = (inl resp, w1) →
       Body resp = Doc json → gabs.Search ["items"] json = JArr projects →
       Forall2 (fun project name => gabs.Path "metadata.name" project = JStr name)
         projects names →
       run srv (getProjectsHandler p username id) w
       = (Done [(StatusOK, inr names)], w1,
          [(call client "GET" "oapi/v1/projects" None, inl resp)]))
  ∧ (∀ client resp w1 json projects,
       id ≠ "" → resolve p id = inl client →
       srv (call client "GET" "oapi/v1/projects" None) w = (inl resp, w1) →
       Body resp = Doc json →
       gabs.Children (gabs.Search ["items"] json) = Some projects →
       Exists (fun project => ∀ name, gabs.Path "metadata.name" project ≠ JStr name)
         projects →
       run srv (getProjectsHandler p username id) w
       = (Panicked, w1, [(call client "GET" "oapi/v1/projects" None, inl resp)]))
  ∧ (∀ c w' tr,
       run srv (getProjectsHandler p username id) w = (Done c, w', tr) →
       ∃ code body, c = [(code, body)] ∧ (code = 200 ∨ code = 400)).
Proof.
  assert (id ≠ "" →
          getProjectsHandler p username id
          = ('(projects, err) ← getUserProjects p id username;
             match err with
             | Some e => mret [(StatusBadRequest, inl (ApiResponse (Error e)))]
             | None => mret [(StatusOK, inr projects)]
             end)) as Hgiven.
  { intros Hid. unfold getProjectsHandler.
    by destruct (String.eqb_spec id "") as [-> | _]. }
  split; [by intros -> | split; [| split; [| split; [| split]]]].
  - intros Hid Hunknown. rewrite (Hgiven Hid).
    apply resolve_unknown in Hunknown.
    unfold getUserProjects, getOseHTTPClient. by rewrite Hunknown.
  - intros client ans w1 Hid Hc Hget Hunreadable. rewrite (Hgiven Hid).
    rewrite run_bind. unfold getUserProjects. rewrite run_bind.
    rewrite (run_getOseHTTPClient srv w p _ _ _ _ client Hc), Hget.
    destruct ans as [resp | text]; [| reflexivity].
    destruct (Body resp) as [raw | json] eqn:Hbody; cbn [ParseJSONBuffer];
      [reflexivity |].
    by rewrite (Hunreadable resp json eq_refl Hbody).
  - intros client resp w1 json projects names Hid Hc Hget Hbody Hitems Hnames.
    rewrite (Hgiven Hid). rewrite run_bind. unfold getUserProjects.
    rewrite run_bind, (run_getOseHTTPClient srv w p _ _ _ _ client Hc), Hget.
    rewrite Hbody. cbn [ParseJSONBuffer]. rewrite Hitems. cbn [gabs.Children].
    by rewrite run_bind, (run_projectNamesOf srv w1 projects names [] Hnames).
  - intros client resp w1 json projects Hid Hc Hget Hbody Hitems Hnameless.
    rewrite (Hgiven Hid). rewrite run_bind. unfold getUserProjects.
    rewrite run_bind, (run_getOseHTTPClient srv w p _ _ _ _ client Hc), Hget.
    rewrite Hbody. cbn [ParseJSONBuffer]. rewrite Hitems.
    by rewrite run_bind, (run_projectNamesOf_panics srv w1 projects [] Hnameless).
  - intros c w' tr. unfold getProjectsHandler.
    destruct (String.eqb id "").
    + intros [= <- _ _]. eexists _, _. split; [reflexivity | by right].
    + rewrite run_bind.
      destruct (run srv (getUserProjects p id username) w)
        as [[[[projects [e |]] |] w1] tr1]; simpl; intros [= <- _ _];
        eexists _, _; (split; [reflexivity |]); [by right | by left].
Qed.

(** ** Updating the project information *)

(** X8: an update that lacks the cluster, the project or the accounting
    number is answered 400 with the message of the first missing field,
    in that order, before the permission check and before any request. *)
Theorem updateProjectInformationHandler_rejects (p : Plugin) (username : string)
    (data : UpdateProjectInformationCommand.t) :
  let cluster := UpdateProjectInformationCommand.ClusterId data in
  let project := UpdateProjectInformationCommand.Project data in
  let billing := UpdateProjectInformationCommand.Billing data in
  (cluster = "" →
   updateProjectInformationHandler p username (Some data)
   = Ret [(StatusBadRequest, ApiResponse "Cluster must be provided")])
  ∧ (cluster ≠ "" → project = "" →
     updateProjectInformationHandler p username (Some data)
     = Ret [(StatusBadRequest, ApiResponse "Project name must be provided")])
  ∧ (cluster ≠ "" → project ≠ "" → billing = "" →
     updateProjectInformationHandler p username (Some data)
     = Ret [(StatusBadRequest, ApiResponse "Accounting number must be provided")]).
Proof.
  intros cluster project billing. subst cluster project billing.
  unfold updateProjectInformationHandler, validateProjectInformation.
  destruct (String.eqb_spec (UpdateProjectInformationCommand.ClusterId data) "")
    as [Hc | Hc];
    destruct (String.eqb_spec (UpdateProjectInformationCommand.Project data) "")
      as [Hp | Hp];
    destruct (String.eqb_spec (UpdateProjectInformationCommand.Billing data) "")
      as [Hb | Hb];
    repeat split; intros; try done.
Qed.

(** X9: the update handler answers exactly once on every run that ends,
    with 200 or 400 (unlike getProjectInformationHandler, whose error
    branch falls through). *)
Theorem updateProjectInformationHandler_answers_once {W : Type} (srv : server W)
    (w w' : W) (p : Plugin) (username : string)
    (bound : option UpdateProjectInformationCommand.t) (c : list written)
    (tr : list (Request * answer)) :
  run srv (updateProjectInformationHandler p username bound) w = (Done c, w', tr) →
  ∃ code message,
    c = [(code, ApiResponse message)] ∧ (code = 200 ∨ code = 400).
Proof.
  unfold updateProjectInformationHandler.
  destruct bound as [data |]; [| intros [= <- _ _]; eexists _, _; by split; [| right]].
  rewrite run_bind.
  destruct (run srv (validateProjectInformation p data username) w)
    as [[[[e |] |] w1] tr1]; simpl; try discriminate.
  - intros [= <- _ _]. eexists _, _. by split; [| right].
  - rewrite run_bind.
    destruct (run srv (createOrUpdateMetadata _ _ _ _ _ _ _) w1)
      as [[[[e |] |] w2] tr2]; simpl; try discriminate.
    + intros [= <- _ _]. eexists _, _. by split; [| right].
    + intros [= <- _ _]. eexists _, _. by split; [| left].
Qed.

(** X10: a successful update sends, after the permission check, exactly
    the GET and the PUT of the namespace under the project name as it
    was given (not lower-cased).  When the fetched object carries an
    annotations object, the object written back has the billing set, the
    acting user as requester, the MEGA-ID set if one was given and kept
    as it was fetched otherwise, and the deletion-days and description
    annotations as they were fetched. *)
Theorem updateProjectInformationHandler_writes {W : Type} (srv : server W)
    (w w' : W) (p : Plugin) (username message : string)
    (data : UpdateProjectInformationCommand.t) (tr : list (Request * answer)) :
  let cluster := UpdateProjectInformationCommand.ClusterId data in
  let project := UpdateProjectInformationCommand.Project data in
  let billing := UpdateProjectInformationCommand.Billing data in
  let megaid := UpdateProjectInformationCommand.MegaID data in
  run srv (updateProjectInformationHandler p username (Some data)) w
  = (Done [(StatusOK, ApiResponse message)], w', tr) →
  ∃ client w1 tr1 resp namespace resp2,
    resolve p cluster = inl client
    ∧ run srv (validateProjectInformation p data username) w = (Done None, w1, tr1)
    ∧ Body resp = Doc namespace
    ∧ tr = (tr1 ++ [(call client "GET" (namespacePath project) None, inl resp);
                    (call client "PUT" (namespacePath project)
                       (Some (annotate billing megaid username false namespace)),
                     inl resp2)])%list
    ∧ ∀ ann, gabs.Path "metadata.annotations" namespace = JObj ann →
        let stored := annotate billing megaid username false namespace in
        annotationOf "openshift.io/kontierung-element" stored = JStr billing
        ∧ annotationOf "openshift.io/requester" stored = JStr username
        ∧ annotationOf "openshift.io/MEGAID" stored
          = (if String.eqb megaid "" then annotationOf "openshift.io/MEGAID" namespace
             else JStr megaid)
        ∧ annotationOf "openshift.io/testproject-daystodeletion" stored
          = annotationOf "openshift.io/testproject-daystodeletion" namespace
        ∧ annotationOf "openshift.io/description" stored
          = annotationOf "openshift.io/description" namespace.
Proof.
  intros cluster project billing megaid. subst cluster project billing megaid.
  unfold updateProjectInformationHandler. rewrite run_bind.
  destruct (run srv (validateProjectInformation p data username) w)
    as [[[[e |] |] w1] tr1]; simpl; try discriminate.
  rewrite run_bind.
  destruct (run srv (createOrUpdateMetadata _ _ _ _ _ _ _) w1)
    as [[[[e |] |] w2] tr2] eqn:Hmeta; simpl; try discriminate.
  intros [= _ <- <-].
  destruct (resolve p (UpdateProjectInformationCommand.ClusterId data))
    as [client | err0] eqn:Hc.
  - destruct (createOrUpdateMetadata_success srv _ _ p _ _ _ _ _ _ client _ Hc Hmeta)
      as (resp & namespace & resp2 & Hbody & Htr).
    exists client, w1, tr1, resp, namespace, resp2.
    split; [done |]. split; [done |]. split; [done |].
    split; [by rewrite Htr, app_nil_r |].
    intros ann Hann.
    destruct (Path_annotations _ _ Hann) as (top & meta & -> & Htop & Hmetadata).
    destruct (annotate_annotations top meta ann
                (UpdateProjectInformationCommand.Billing data)
                (UpdateProjectInformationCommand.MegaID data) username false)
      as (ann' & Hstored & Hbilling & Hrequester & Hset & Hkeep & _ & Htest & _).
    destruct (Htest eq_refl) as [Hdays Hdescription].
    cbv zeta. rewrite (annotations_shape _ _ _ Htop Hmetadata), Hstored.
    rewrite !annotationOf_annotations.
    rewrite Hbilling, Hrequester, Hdays, Hdescription.
    repeat split; try done.
    destruct (String.eqb_spec (UpdateProjectInformationCommand.MegaID data) "")
      as [Hempty | Hgiven].
    + by rewrite (Hkeep Hempty).
    + by rewrite (Hset Hgiven).
  - unfold createOrUpdateMetadata, getOseHTTPClient in Hmeta.
    rewrite Hc in Hmeta. discriminate.
Qed.

(** ** New projects and their mail *)

(** X11: sendNewProjectMail looks up MAIL_SERVER, MAIL_ADMIN_SENDER and
    MAIL_NEW_PROJECT_RECIPIENT in that order and fails on the first one
    that is unset without dialling; a variable set to the empty string
    counts as set.  With all three set it dials exactly once, port 25 of
    the mail server, from the sender to the recipient, and returns what
    the dialler returns. *)
Theorem sendNewProjectMail_cases (clusterId projectName userName megaID : string) :
  let r := sendNewProjectMail clusterId projectName userName megaID in
  (environ !! "MAIL_SERVER" = None →
   r = (Some (errorsNew "Error looking up MAIL_SERVER from environment."), []))
  ∧ (is_Some (environ !! "MAIL_SERVER") → environ !! "MAIL_ADMIN_SENDER" = None →
     r = (Some (errorsNew "Error looking up MAIL_ADMIN_SENDER from environment."), []))
  ∧ (is_Some (environ !! "MAIL_SERVER") → is_Some (environ !! "MAIL_ADMIN_SENDER") →
     environ !! "MAIL_NEW_PROJECT_RECIPIENT" = None →
     r = (Some (errorsNew
                  "Error looking up MAIL_NEW_PROJECT_RECIPIENT from environment."), []))
  ∧ (∀ server sender recipient,
       environ !! "MAIL_SERVER" = Some server →
       environ !! "MAIL_ADMIN_SENDER" = Some sender →
       environ !! "MAIL_NEW_PROJECT_RECIPIENT" = Some recipient →
       ∃ m, r = (DialAndSend m, [m])
            ∧ Host m = server ∧ Port m = 25 ∧ From m = sender ∧ To m = recipient
            ∧ Subject m = "New Project '" ++ projectName ++ "' on OpenShift"
            ∧ HTMLBody m = newProjectMailBody clusterId projectName userName megaID).
Proof.
  intros r. subst r. unfold sendNewProjectMail.
  split; [by intros -> | split; [| split]].
  - by intros [server ->] ->.
  - by intros [server ->] [sender ->] ->.
  - intros server sender recipient -> -> ->.
    match goal with |- context [DialAndSend ?m0] => exists m0 end.
    split; [by destruct (DialAndSend _) | done].
Qed.

(** X12: newProjectHandler sends mail only after a successful creation
    and never lets the mail decide the answer.  A request that fails
    validation is answered 400 without any request to a cluster and
    without mail; a failed creation is answered 400 with its error and
    without mail; a successful one is answered 200 whatever became of
    the mail, with at most one mail dialled. *)
Theorem newProjectHandler_answers {W : Type} (srv : server W) (w : W)
    (p : Plugin) (username : string) (data : NewProjectCommand.t) :
  let cluster := NewProjectCommand.ClusterId data in
  let project := NewProjectCommand.Project data in
  let billing := NewProjectCommand.Billing data in
  let megaid := NewProjectCommand.MegaId data in
  (∀ err, validateNewProject project billing false = Some err →
     newProjectHandler p username (Some data)
     = Ret ([(StatusBadRequest, ApiResponse (Error err))], []))
  ∧ (validateNewProject project billing false = None →
     ∀ o w1 tr,
       run srv (createNewProject p cluster project username billing megaid false) w
       = (Done o, w1, tr) →
       run srv (newProjectHandler p username (Some data)) w
       = (Done (match o with
                | Some e => ([(StatusBadRequest, ApiResponse (Error e))], [])
                | None =>
                    ([(StatusOK,
                       ApiResponse ("Das Projekt " ++ project
                                    ++ " wurde erstellt auf Cluster " ++ cluster))],
                     snd (sendNewProjectMail cluster project username megaid))
                end), w1, tr)
       ∧ (List.length (snd (sendNewProjectMail cluster project username megaid)) ≤ 1)%nat).
Proof.
  intros cluster project billing megaid. subst cluster project billing megaid.
  unfold newProjectHandler. split.
  - by intros err ->.
  - intros -> o w1 tr Hrun. rewrite run_bind, Hrun. split.
    + destruct o as [e |]; simpl; [by rewrite app_nil_r |].
      destruct (sendNewProjectMail _ _ _ _) as [err mails]. simpl.
      by rewrite app_nil_r.
    + unfold sendNewProjectMail.
      destruct (environ !! "MAIL_SERVER"); [| simpl; lia].
      destruct (environ !! "MAIL_ADMIN_SENDER"); [| simpl; lia].
      destruct (environ !! "MAIL_NEW_PROJECT_RECIPIENT"); [| simpl; lia].
      destruct (DialAndSend _); simpl; lia.
Qed.

(** ** Answers of the information handler and of the test-project handler *)

(** X13: getProjectInformationHandler refuses a missing cluster or
    project with one 400 and no request; on every run that ends it has
    written one 400, or one 200 with the information, or, only when
    getProjectInformation failed, a 400 followed by a 200 with the nil
    information. *)
Theorem getProjectInformationHandler_answers {W : Type} (srv : server W) (w w' : W)
    (p : Plugin) (username id project : string) (c : list written)
    (tr : list (Request * answer)) :
  (id = "" →
   getProjectInformationHandler p username id project
   = Ret [(StatusBadRequest, ApiResponse "Cluster must be provided")])
  ∧ (id ≠ "" → project = "" →
     getProjectInformationHandler p username id project
     = Ret [(StatusBadRequest, ApiResponse "Project name must be provided")])
  ∧ (run srv (getProjectInformationHandler p username id project) w = (Done c, w', tr) →
     (∃ message, c = [(StatusBadRequest, ApiResponse message)])
     ∨ (∃ pi, c = [(StatusOK, ProjectInformationBody (Some pi))])
     ∨ (∃ err w1 tr1 tr2,
          run srv (validateAdminAccess p id username project) w = (Done None, w1, tr1)
          ∧ run srv (getProjectInformation p id project) w1
            = (Done (None, Some err), w', tr2)
          ∧ c = [(StatusBadRequest, ApiResponse (Error err));
                 (StatusOK, ProjectInformationBody None)])).
Proof.
  split; [| split].
  - by intros ->.
  - intros Hid ->. unfold getProjectInformationHandler, validateAdminAccess.
    by destruct (String.eqb_spec id "").
  - unfold getProjectInformationHandler. rewrite run_bind.
    destruct (run srv (validateAdminAccess p id username project) w)
      as [[[[e |] |] w1] tr1]; simpl; try discriminate.
    + intros [= <- _ _]. left. by eexists.
    + rewrite run_bind.
      destruct (run srv (getProjectInformation p id project) w1)
        as [[[[pi [err |]] |] w2] tr2] eqn:Hinfo; simpl; try discriminate.
      * pose proof (getProjectInformation_error _ _ _ _ _ _ _ _ _ Hinfo) as ->.
        intros [= <- <- _]. right. right. by exists err, w1, tr1, tr2.
      * intros [= <- _ _]. destruct pi as [pi |].
        -- right. left. by exists pi.
        -- exfalso. revert Hinfo.
           destruct (resolve p id) as [client | err0] eqn:Hc.
           ++ unfold getProjectInformation. rewrite run_bind.
              rewrite (run_getOseHTTPClient srv w1 p _ _ _ _ client Hc).
              destruct (srv _ w1) as [[resp | text] w3]; [| discriminate].
              destruct (Body resp) as [raw | json]; cbn [ParseJSONBuffer];
                [discriminate |].
              rewrite !run_bind.
              destruct (run srv (stringOrEmpty _) w3) as [[[billing |] w4] tr4];
                [| discriminate].
              rewrite !run_bind.
              destruct (run srv (stringOrEmpty _) w4) as [[[megaid |] w5] tr5];
                discriminate.
           ++ unfold getProjectInformation, getOseHTTPClient. rewrite Hc.
              discriminate.
Qed.

(** X14: the test-project handler never refuses a request by
    validation: the creator's prefix makes the name non-empty, so even
    an empty requested name goes to the cluster, as a creation of the
    lower-cased "c-n" with the no-billing sentinel and no MEGA-ID, and
    the handler answers once, 200 or 400, as the creation ends. *)
Theorem newTestProjectHandler_always_creates {W : Type} (srv : server W) (w w1 : W)
    (p : Plugin) (username : string) (data : NewTestProjectCommand)
    (o : option error) (tr : list (Request * answer)) :
  run srv (createNewProject p (ClusterId data) (username ++ "-" ++ Project data)
             username "keine-verrechnung" "" true) w
  = (Done o, w1, tr) →
  run srv (newTestProjectHandler p username (Some data)) w
  = (Done [match o with
           | Some e => (StatusBadRequest, ApiResponse (Error e))
           | None =>
               (StatusOK,
                ApiResponse ("Das Test-Projekt " ++ (username ++ "-" ++ Project data)
                             ++ " wurde erstellt auf Cluster " ++ ClusterId data))
           end], w1, tr).
Proof.
  intros Hrun. unfold newTestProjectHandler, validateNewProject.
  cbn [Project ClusterId]. rewrite prefixed_name. cbn [negb andb].
  rewrite run_bind, Hrun. destruct o as [e |]; simpl; by rewrite app_nil_r.
Qed.

End Project.

(** ** Concrete runs on the reference cluster *)

Lemma createNewProject_by_status_witness :
  let srv := memCluster freshNamespace emptyBinding in
  let post := call c1Client "POST" "oapi/v1/projectrequests"
                (Some (newObjectRequest "ProjectRequest" "demo")) in
  resolve oneCluster "c1" = inl c1Client
  ∧ srv post ∅ = (inl {| StatusCode := 201; Body := Doc freshNamespace |},
                  snd (srv post ∅))
  ∧ result (run srv (createNewProject "generic" "30" oneCluster "c1" "Demo"
                       "alice" "4711" "m1" false) ∅) = Done None.
Proof.
  intros srv post.
  assert (resolve oneCluster "c1" = inl c1Client) as Hc by reflexivity.
  assert (srv post ∅ = (inl {| StatusCode := 201; Body := Doc freshNamespace |},
                        snd (srv post ∅))) as Hpost by computed.
  split; [exact Hc |]. split; [exact Hpost |].
  destruct (createNewProject_by_status "generic" "30" srv ∅ (snd (srv post ∅))
              oneCluster "c1" "Demo" "alice" "4711" "m1" false c1Client _ Hc Hpost)
    as [Hcreated _].
  pose (r2 := run srv (changeProjectPermission "generic" oneCluster "c1" "demo" "alice")
                (snd (srv post ∅))).
  specialize (Hcreated eq_refl (Done None) (snd (fst r2)) (snd r2)
                ltac:(computed)).
  cbv iota in Hcreated.
  pose (r3 := run srv (createOrUpdateMetadata "generic" "30" oneCluster "c1" "demo"
                         "4711" "m1" "alice" false) (snd (fst r2))).
  rewrite (Hcreated (Done None) (snd (fst r3)) (snd r3) ltac:(computed)).
  reflexivity.
Defined.

Lemma createNewProject_unknown_cluster_witness :
  Forall (fun client => clusterId client ≠ "c2") (clusters oneCluster)
  ∧ run (memCluster freshNamespace emptyBinding)
        (createNewProject "generic" "30" oneCluster "c2" "Demo" "alice" "4711" "m1" false)
        demoStore
    = (Done (Some (NotFoundError "c2")), demoStore, []).
Proof.
  assert (Forall (fun client => clusterId client ≠ "c2") (clusters oneCluster))
    as Hunknown by (repeat constructor; discriminate).
  split; [exact Hunknown |].
  exact (proj1 (createNewProject_unknown_cluster "generic" "30"
                  (memCluster freshNamespace emptyBinding) demoStore oneCluster
                  "c2" "Demo" "alice" "4711" "m1" false Hunknown)).
Defined.

Lemma validateNewProject_cases_witness :
  validateNewProject "" "4711" false
  = Some (errorsNew "Project name has to be provided")
  ∧ validateNewProject "demo" "" false
    = Some (errorsNew "Accounting number must be provided")
  ∧ validateNewProject "demo" "" true = None.
Proof.
  split; [| split].
  - apply (proj1 (proj2 (validateNewProject_cases "" "4711" false))). reflexivity.
  - apply (proj2 (proj2 (validateNewProject_cases "demo" "" false))).
    repeat split; discriminate.
  - apply (proj1 (validateNewProject_cases "demo" "" true)).
    split; [discriminate | by right].
Defined.

Lemma validationCases_counterexample : ¬ validationCases "" "" false.
Proof.
  intros (_ & Hproject & Hbilling).
  specialize (Hbilling eq_refl eq_refl). discriminate Hbilling.
Qed.

Lemma changeProjectPermission_errors_witness :
  let srv := memCluster freshNamespace emptyBinding in
  let get := call c1Client "GET" (adminPath "ghost") None in
  (resolve oneCluster "c1" = inl c1Client
   ∧ srv get ∅ = (inl {| StatusCode := 404; Body := Undecodable "not found" |}, ∅)
   ∧ unreachable get tt = (inr "connection refused", tt))
  ∧ run srv (changeProjectPermission "generic" oneCluster "c1" "ghost" "bob") ∅
    = (Done (Some (errorsNew "generic")), ∅,
       [(get, inl {| StatusCode := 404; Body := Undecodable "not found" |})])
  ∧ run unreachable (changeProjectPermission "generic" oneCluster "c1" "ghost" "bob") tt
    = (Done (Some (errorsNew "generic")), tt, [(get, inr "connection refused")]).
Proof.
  intros srv get.
  assert (resolve oneCluster "c1" = inl c1Client) as Hc by reflexivity.
  assert (srv get ∅
          = (inl {| StatusCode := 404; Body := Undecodable "not found" |}, ∅))
    as Hget by computed.
  assert (unreachable get tt = (inr "connection refused", tt)) as Hdown
    by reflexivity.
  split; [by repeat split |]. split.
  - destruct (changeProjectPermission_errors "generic" srv ∅ oneCluster "c1" "ghost"
                "bob") as (_ & _ & Hrefused & _).
    apply (Hrefused c1Client _ _ Hc Hget).
    intros resp [= <-]. discriminate.
  - destruct (changeProjectPermission_errors "generic" unreachable tt oneCluster "c1"
                "ghost" "bob") as (_ & _ & Hrefused & _).
    apply (Hrefused c1Client _ _ Hc Hdown). intros resp. discriminate.
Defined.

Lemma onlyThreeAnnotations_counterexample :
  ¬ onlyThreeAnnotations "30" "4711" "" "alice" true freshNamespace.
Proof.
  intros (_ & _ & _ & _ & Hothers & _).
  assert ("openshift.io/description"
          ∉ ["openshift.io/kontierung-element"; "openshift.io/requester";
             "openshift.io/MEGAID"]) as Hkey.
  { intros Hin. repeat (apply elem_of_cons in Hin as [Heq | Hin]; [discriminate |]).
    by apply elem_of_nil in Hin. }
  specialize (Hothers _ Hkey). vm_compute in Hothers. discriminate Hothers.
Qed.

Lemma createOrUpdateMetadata_frame_witness :
  let srv := memCluster freshNamespace emptyBinding in
  let get := call c1Client "GET" (namespacePath "demo") None in
  resolve oneCluster "c1" = inl c1Client
  ∧ srv get demoStore
    = (inl {| StatusCode := 200; Body := Doc freshNamespace |}, demoStore)
  ∧ gabs.Path "metadata.annotations" freshNamespace
    = JObj {[ "openshift.io/display-name" := JStr "" ]}
  ∧ ∃ stored ann',
      requests (run srv (createOrUpdateMetadata "generic" "30" oneCluster "c1" "demo"
                           "4711" "" "alice" true) demoStore)
      = [get; call c1Client "PUT" (namespacePath "demo") (Some stored)]
      ∧ gabs.Path "metadata.annotations" stored = JObj ann'
      ∧ ann' !! "openshift.io/kontierung-element" = Some (JStr "4711")
      ∧ ann' !! "openshift.io/display-name" = Some (JStr "").
Proof.
  intros srv get.
  assert (resolve oneCluster "c1" = inl c1Client) as Hc by reflexivity.
  assert (srv get demoStore
          = (inl {| StatusCode := 200; Body := Doc freshNamespace |}, demoStore))
    as Hget by computed.
  assert (gabs.Path "metadata.annotations" freshNamespace
          = JObj {[ "openshift.io/display-name" := JStr "" ]})
    as Hann by computed.
  split; [exact Hc |]. split; [exact Hget |]. split; [exact Hann |].
  destruct (createOrUpdateMetadata_frame "generic" "30" srv demoStore demoStore
              oneCluster "c1" "demo" "4711" "" "alice" true c1Client _ _ _
              Hc Hget eq_refl Hann)
    as (top & meta & ann' & _ & _ & _ & Hsent & Hbilling & _ & _ & _ & _ & _ & Hother).
  eexists _, ann'. split; [exact Hsent |].
  split.
  - unfold gabs.Path, gabs.Search.
    change (Split "metadata.annotations" ".") with ["metadata"; "annotations"].
    cbn [gabs.SearchContainer]. rewrite lookup_insert_eq.
    cbn [gabs.SearchContainer]. by rewrite lookup_insert_eq.
  - split; [exact Hbilling |]. rewrite Hother; [reflexivity |].
    intros Hin. repeat (apply elem_of_cons in Hin as [Heq | Hin]; [discriminate |]).
    by apply elem_of_nil in Hin.
Defined.

Lemma twoEntriesAfterTwoGrants_counterexample :
  ¬ twoEntriesAfterTwoGrants "generic" freshNamespace emptyBinding demoStore
      oneCluster "c1" "demo" "bob".
Proof.
  intros Htwo.
  pose (srv := memCluster freshNamespace emptyBinding).
  pose (r1 := run srv (changeProjectPermission "generic" oneCluster "c1" "demo" "bob")
                demoStore).
  pose (r2 := run srv (changeProjectPermission "generic" oneCluster "c1" "demo" "bob")
                (snd (fst r1))).
  destruct (Htwo (snd (fst r1)) (snd (fst r2)) (snd r1) (snd r2)
              ltac:(computed) ltac:(computed))
    as (members & Hmembers & Hentries).
  assert (membersOf (snd (fst r2)) "c1" "demo"
          = JArr [JStr "bob"; JStr "BOB"; JStr "bob"; JStr "BOB"])
    as Hfour by computed.
  rewrite Hfour in Hmembers. injection Hmembers as <-.
  vm_compute in Hentries. discriminate Hentries.
Qed.

Lemma changeProjectPermission_twice_witness :
  let srv := memCluster freshNamespace emptyBinding in
  let grant := changeProjectPermission "generic" oneCluster "c1" "demo" "bob" in
  let r1 := run srv grant demoStore in
  let r2 := run srv grant (snd (fst r1)) in
  let top : gmap string JSON :=
    {[ "kind" := JStr "RoleBinding"; "userNames" := JArr [] ]} in
  (r1 = (Done None, snd (fst r1), snd r1)
   ∧ r2 = (Done None, snd (fst r2), snd r2)
   ∧ served "c1" "GET" (adminPath "demo") (snd r1) = [JObj top]
   ∧ top !! "userNames" = Some (JArr [])
   ∧ served "c1" "GET" (adminPath "demo") (snd r2)
     = sent "c1" "PUT" (adminPath "demo") (snd r1))
  ∧ sent "c1" "PUT" (adminPath "demo") (snd r2)
    = [JObj (<["userNames" := JArr [JStr "bob"; JStr "BOB"; JStr "bob"; JStr "BOB"]]> top)].
Proof.
  intros srv grant r1 r2 top.
  assert (r1 = (Done None, snd (fst r1), snd r1)) as H1 by computed.
  assert (r2 = (Done None, snd (fst r2), snd r2)) as H2 by computed.
  assert (served "c1" "GET" (adminPath "demo") (snd r1) = [JObj top]) as Hserved
    by computed.
  assert (top !! "userNames" = Some (JArr [])) as Htop by computed.
  assert (served "c1" "GET" (adminPath "demo") (snd r2)
          = sent "c1" "PUT" (adminPath "demo") (snd r1)) as Hrw
    by computed.
  split; [by repeat split |].
  exact (proj2 (changeProjectPermission_twice "generic" srv demoStore (snd (fst r1))
                  (snd (fst r2)) oneCluster "c1" "demo" "bob" (snd r1) (snd r2)
                  top [] H1 H2 Hserved Htop Hrw)).
Defined.

Lemma creation_roundtrip_witness :
  let srv := memCluster freshNamespace emptyBinding in
  let r := run srv (createNewProject "generic" "30" oneCluster "c1" "Demo" "alice"
                      "4711" "" false) ∅ in
  let stored := annotate "30" "4711" "" "alice" false freshNamespace in
  let get := call c1Client "GET" (namespacePath "demo") None in
  (r = (Done None, snd (fst r), snd r)
   ∧ served "c1" "GET" (namespacePath "demo") (snd r) = [freshNamespace]
   ∧ gabs.Path "metadata.annotations" freshNamespace
     = JObj {[ "openshift.io/display-name" := JStr "" ]}
   ∧ sent "c1" "PUT" (namespacePath "demo") (snd r) = [stored]
   ∧ srv get (snd (fst r))
     = (inl {| StatusCode := 200; Body := Doc stored |}, snd (fst r)))
  ∧ result (run srv (getProjectInformation "generic" oneCluster "c1" "demo")
              (snd (fst r)))
    = Done (Some {| Kontierungsnummer := "4711"; MegaID := "" |}, None).
Proof.
  intros srv r stored get.
  assert (r = (Done None, snd (fst r), snd r)) as Hrun by computed.
  assert (served "c1" "GET" (namespacePath "demo") (snd r) = [freshNamespace])
    as Hserved by computed.
  assert (gabs.Path "metadata.annotations" freshNamespace
          = JObj {[ "openshift.io/display-name" := JStr "" ]})
    as Hann by computed.
  assert (sent "c1" "PUT" (namespacePath "demo") (snd r) = [stored])
    as Hsent by computed.
  assert (srv get (snd (fst r))
          = (inl {| StatusCode := 200; Body := Doc stored |}, snd (fst r)))
    as Hget by computed.
  split; [by repeat split |].
  exact (f_equal result
           (creation_roundtrip "generic" "30" srv ∅ (snd (fst r)) (snd (fst r))
              oneCluster "c1" "Demo" "alice" "4711" "" false (snd r) c1Client
              freshNamespace stored _ _ Hrun Hserved Hann (fun _ => eq_refl) Hsent
              eq_refl Hget eq_refl)).
Defined.

Lemma roundTrip_counterexample :
  ¬ roundTrip "generic" "30" labelledNamespace emptyBinding ∅ oneCluster "c1" "demo"
      "alice" "4711" "" false.
Proof.
  intros Hround.
  pose (srv := memCluster labelledNamespace emptyBinding).
  pose (r := run srv (createNewProject "generic" "30" oneCluster "c1" "demo" "alice"
                        "4711" "" false) ∅).
  specialize (Hround (snd (fst r)) (snd r) ltac:(computed)).
  assert (result (run srv (getProjectInformation "generic" oneCluster "c1"
                             (ToLower "demo")) (snd (fst r)))
          = Done (Some {| Kontierungsnummer := "4711"; MegaID := "old" |}, None))
    as Hold by computed.
  pose proof (eq_trans (eq_sym Hold) Hround) as Hsame. discriminate Hsame.
Qed.



Lemma getUserProjects_unfiltered_witness :
  let srv := memCluster freshNamespace emptyBinding in
  let get := call c1Client "GET" "oapi/v1/projects" None in
  let alpha := JObj {[ "metadata" := JObj {[ "name" := JStr "alpha" ]} ]} in
  let beta := JObj {[ "metadata" := JObj {[ "name" := JStr "beta" ]} ]} in
  let json := JObj {[ "kind" := JStr "ProjectList"; "items" := JArr [alpha; beta] ]} in
  (resolve oneCluster "c1" = inl c1Client
   ∧ srv get listingStore = (inl {| StatusCode := 200; Body := Doc json |}, listingStore)
   ∧ gabs.Search ["items"] json = JArr [alpha; beta]
   ∧ Forall2 (fun project name => gabs.Path "metadata.name" project = JStr name)
       [alpha; beta] ["alpha"; "beta"])
  ∧ result (run srv (getUserProjects "generic" oneCluster "c1" "alice") listingStore)
    = Done (["alpha"; "beta"], None)
  ∧ run srv (getUserProjects "generic" oneCluster "c1" "bob") listingStore
    = run srv (getUserProjects "generic" oneCluster "c1" "alice") listingStore.
Proof.
  intros srv get alpha beta json.
  assert (resolve oneCluster "c1" = inl c1Client) as Hc by reflexivity.
  assert (srv get listingStore
          = (inl {| StatusCode := 200; Body := Doc json |}, listingStore))
    as Hget by computed.
  assert (gabs.Search ["items"] json = JArr [alpha; beta]) as Hitems
    by computed.
  assert (Forall2 (fun project name => gabs.Path "metadata.name" project = JStr name)
            [alpha; beta] ["alpha"; "beta"]) as Hnames
    by (repeat constructor; computed).
  split; [by repeat split |].
  destruct (proj2 (proj2 (getUserProjects_unfiltered "generic" srv listingStore
                            listingStore oneCluster "c1" "alice" "bob" c1Client _ json
                            [alpha; beta] ["alpha"; "beta"]))
              Hc Hget eq_refl Hitems Hnames)
    as [Halice Hbob].
  split; [by rewrite Halice | by rewrite Halice, Hbob].
Defined.

Lemma getProjectInformationHandler_falls_through_witness :
  let srv := memCluster freshNamespace emptyBinding in
  (run srv (validateAdminAccess everyoneIsAdmin oneCluster "c1" "alice" "ghost") ∅
   = (Done None, ∅, [])
   ∧ result (run srv (getProjectInformation "generic" oneCluster "c1" "ghost") ∅)
     = Done (None, Some (errorsNew "generic")))
  ∧ result (run srv (getProjectInformationHandler "generic" everyoneIsAdmin oneCluster
                       "alice" "c1" "ghost") ∅)
    = Done [(400, ApiResponse "generic"); (200, ProjectInformationBody None)].
Proof.
  intros srv.
  pose (r := run srv (getProjectInformation "generic" oneCluster "c1" "ghost") ∅).
  assert (run srv (validateAdminAccess everyoneIsAdmin oneCluster "c1" "alice" "ghost") ∅
          = (Done None, ∅, [])) as Hvalid by reflexivity.
  assert (r = (Done (None, Some (errorsNew "generic")), snd (fst r), snd r)) as Hinfo
    by computed.
  split; [split; [exact Hvalid | computed] |].
  destruct (getProjectInformationHandler_falls_through "generic" everyoneIsAdmin srv
              ∅ ∅ (snd (fst r)) oneCluster "alice" "c1" "ghost" None
              (errorsNew "generic") [] (snd r) Hvalid Hinfo) as [_ Hrun].
  by rewrite Hrun.
Defined.

(** ** otc: options from the environment *)

Lemma eqb_empty (s : string) : String.eqb s "" = true ↔ s = "".
Proof. apply String.eqb_eq. Qed.

(** X15: AKSKOptionsFromEnv succeeds exactly when HWCLOUD_AUTH_URL,
    HWCLOUD_ACCESS_KEY and HWCLOUD_SECRET_KEY are all set to something
    non-empty (an unset variable and an empty one are the same to it);
    otherwise it returns the zero options and a missing-input error that
    names the first of authURL, AccessKey, SecretKey that is missing. *)
Theorem AKSKOptionsFromEnv_required (code : string) (message : string -> string)
    (env : gmap string string) :
  let r := otc.AKSKOptionsFromEnv code message env in
  let authURL := otc.Getenv env "HWCLOUD_AUTH_URL" in
  let ak := otc.Getenv env "HWCLOUD_ACCESS_KEY" in
  let sk := otc.Getenv env "HWCLOUD_SECRET_KEY" in
  (snd r = None ↔ authURL ≠ "" ∧ ak ≠ "" ∧ sk ≠ "")
  ∧ (snd r ≠ None → fst r = otc.nilAKSKOptions)
  ∧ (authURL = "" → snd r = Some (otc.missingInput code message "authURL"))
  ∧ (authURL ≠ "" → ak = "" →
     snd r = Some (otc.missingInput code message "AccessKey"))
  ∧ (authURL ≠ "" → ak ≠ "" → sk = "" →
     snd r = Some (otc.missingInput code message "SecretKey")).
Proof.
  intros r authURL ak sk. subst r authURL ak sk. unfold otc.AKSKOptionsFromEnv.
  destruct (String.eqb_spec (otc.Getenv env "HWCLOUD_AUTH_URL") "") as [Hurl | Hurl];
    [| destruct (String.eqb_spec (otc.Getenv env "HWCLOUD_ACCESS_KEY") "")
         as [Hak | Hak];
       [| destruct (String.eqb_spec (otc.Getenv env "HWCLOUD_SECRET_KEY") "")
            as [Hsk | Hsk]]];
    simpl; repeat split; intros; try done; try tauto.
Qed.

(** X16: when AKSKOptionsFromEnv succeeds, each option is the value of
    its variable, the cloud name is HWCLOUD_CLOUD_NAME when that is
    non-empty and HWCLOUD_DOMAIN_NAME otherwise, and no other variable of
    the environment has any influence on the result. *)
Theorem AKSKOptionsFromEnv_reads (code : string) (message : string -> string)
    (env : gmap string string) :
  let r := otc.AKSKOptionsFromEnv code message env in
  (snd r = None →
   otc.akskIdentityEndpoint (fst r) = otc.Getenv env "HWCLOUD_AUTH_URL"
   ∧ otc.AccessKey (fst r) = otc.Getenv env "HWCLOUD_ACCESS_KEY"
   ∧ otc.SecretKey (fst r) = otc.Getenv env "HWCLOUD_SECRET_KEY"
   ∧ otc.SecurityToken (fst r) = otc.Getenv env "HWCLOUD_ACCESS_KEY_STS_TOKEN"
   ∧ otc.akskProjectID (fst r) = otc.Getenv env "HWCLOUD_PROJECT_ID"
   ∧ otc.akskDomainID (fst r) = otc.Getenv env "HWCLOUD_DOMAIN_ID"
   ∧ otc.Region (fst r) = otc.Getenv env "HWCLOUD_REGION"
   ∧ otc.Cloud (fst r)
     = (if String.eqb (otc.Getenv env "HWCLOUD_CLOUD_NAME") ""
        then otc.Getenv env "HWCLOUD_DOMAIN_NAME"
        else otc.Getenv env "HWCLOUD_CLOUD_NAME"))
  ∧ (∀ env' : gmap string string,
       (∀ key, key ∈ ["HWCLOUD_AUTH_URL"; "HWCLOUD_ACCESS_KEY"; "HWCLOUD_SECRET_KEY";
                      "HWCLOUD_ACCESS_KEY_STS_TOKEN"; "HWCLOUD_PROJECT_ID";
                      "HWCLOUD_DOMAIN_ID"; "HWCLOUD_REGION"; "HWCLOUD_DOMAIN_NAME";
                      "HWCLOUD_CLOUD_NAME"] →
               otc.Getenv env' key = otc.Getenv env key) →
       otc.AKSKOptionsFromEnv code message env' = r).
Proof.
  intros r. subst r. split.
  - unfold otc.AKSKOptionsFromEnv.
    destruct (String.eqb (otc.Getenv env "HWCLOUD_AUTH_URL") ""); [discriminate |].
    destruct (String.eqb (otc.Getenv env "HWCLOUD_ACCESS_KEY") ""); [discriminate |].
    destruct (String.eqb (otc.Getenv env "HWCLOUD_SECRET_KEY") ""); [discriminate |].
    by intros _.
  - intros env' Hsame. unfold otc.AKSKOptionsFromEnv.
    rewrite !Hsame; [reflexivity | ..]; set_solver.
Qed.

(** X17: TokenOptionsFromEnv hands an unmarshalling error on as it is;
    otherwise it succeeds exactly when, after the custom options are
    merged in, there are an identity endpoint, a user name or a user
    id, and a password, and else returns the zero options and a
    missing-input error that names the first of authURL, username,
    password that is missing. *)
Theorem TokenOptionsFromEnv_required (code : string) (message : string -> string)
    (tmp : otc.TokenOptions) (custom : option otc.TokenOptions) :
  let merged := match custom with
                | Some c => otc.Merge tmp c
                | None => tmp
                end in
  let r := otc.TokenOptionsFromEnv code message tmp None custom in
  (∀ err, otc.TokenOptionsFromEnv code message tmp (Some err) custom
          = (otc.nilTokenOptions, Some err))
  ∧ (snd r = None
     ↔ otc.IdentityEndpoint merged ≠ ""
       ∧ (otc.Username merged ≠ "" ∨ otc.UserID merged ≠ "")
       ∧ otc.Password merged ≠ "")
  ∧ (snd r ≠ None → fst r = otc.nilTokenOptions)
  ∧ (otc.IdentityEndpoint merged = "" →
     snd r = Some (otc.missingInput code message "authURL"))
  ∧ (otc.IdentityEndpoint merged ≠ "" →
     otc.Username merged = "" → otc.UserID merged = "" →
     snd r = Some (otc.missingInput code message "username"))
  ∧ (otc.IdentityEndpoint merged ≠ "" →
     otc.Username merged ≠ "" ∨ otc.UserID merged ≠ "" →
     otc.Password merged = "" →
     snd r = Some (otc.missingInput code message "password")).
Proof.
  intros merged r. subst r. unfold otc.TokenOptionsFromEnv. fold merged.
  split; [done |].
  assert (∀ to : otc.TokenOptions,
            otc.IdentityEndpoint (if String.eqb (otc.ProjectID to) "" then to
                                  else otc.withTenantID to (otc.ProjectID to))
            = otc.IdentityEndpoint to) as _ by (intros to; by destruct (String.eqb _ _)).
  destruct (String.eqb (otc.ProjectID merged) "");
    destruct (String.eqb (otc.ProjectName _) ""); simpl;
    (destruct (String.eqb_spec (otc.IdentityEndpoint merged) "") as [Hurl | Hurl];
     [| destruct (String.eqb_spec (otc.Username merged) "") as [Huser | Huser];
        destruct (String.eqb_spec (otc.UserID merged) "") as [Hid | Hid];
        destruct (String.eqb_spec (otc.Password merged) "") as [Hpw | Hpw]]);
    simpl; repeat split; intros; try done; try tauto.
Qed.

(** X18: in the options TokenOptionsFromEnv returns, a project id wins
    over any tenant id and a project name over any tenant name, also
    over those of the custom options; every other field is the custom
    one when that is non-empty and the configured one otherwise. *)
Theorem TokenOptionsFromEnv_reads (code : string) (message : string -> string)
    (tmp custom : otc.TokenOptions) :
  let r := otc.TokenOptionsFromEnv code message tmp None (Some custom) in
  let projectID := otc.override (otc.ProjectID tmp) (otc.ProjectID custom) in
  let projectName := otc.override (otc.ProjectName tmp) (otc.ProjectName custom) in
  snd r = None →
  otc.TenantID (fst r)
  = (if String.eqb projectID "" then otc.override (otc.TenantID tmp) (otc.TenantID custom)
     else projectID)
  ∧ otc.TenantName (fst r)
    = (if String.eqb projectName ""
       then otc.override (otc.TenantName tmp) (otc.TenantName custom)
       else projectName)
  ∧ otc.ProjectID (fst r) = projectID
  ∧ otc.ProjectName (fst r) = projectName
  ∧ otc.IdentityEndpoint (fst r)
    = otc.override (otc.IdentityEndpoint tmp) (otc.IdentityEndpoint custom)
  ∧ otc.Username (fst r) = otc.override (otc.Username tmp) (otc.Username custom)
  ∧ otc.UserID (fst r) = otc.override (otc.UserID tmp) (otc.UserID custom)
  ∧ otc.Password (fst r) = otc.override (otc.Password tmp) (otc.Password custom)
  ∧ otc.DomainID (fst r) = otc.override (otc.DomainID tmp) (otc.DomainID custom)
  ∧ otc.DomainName (fst r) = otc.override (otc.DomainName tmp) (otc.DomainName custom)
  ∧ otc.TokenID (fst r) = otc.override (otc.TokenID tmp) (otc.TokenID custom)
  ∧ otc.AllowReauth (fst r) = (otc.AllowReauth custom || otc.AllowReauth tmp)%bool.
Proof.
  intros r projectID projectName. subst r projectID projectName.
  unfold otc.TokenOptionsFromEnv. set (merged := otc.Merge tmp custom).
  change (otc.override (otc.IdentityEndpoint tmp) (otc.IdentityEndpoint custom)) with (otc.IdentityEndpoint merged).
  change (otc.override (otc.Username tmp) (otc.Username custom)) with (otc.Username merged).
  change (otc.override (otc.UserID tmp) (otc.UserID custom)) with (otc.UserID merged).
  change (otc.override (otc.Password tmp) (otc.Password custom)) with (otc.Password merged).
  change (otc.override (otc.DomainID tmp) (otc.DomainID custom)) with (otc.DomainID merged).
  change (otc.override (otc.DomainName tmp) (otc.DomainName custom)) with (otc.DomainName merged).
  change (otc.override (otc.TenantID tmp) (otc.TenantID custom)) with (otc.TenantID merged).
  change (otc.override (otc.TenantName tmp) (otc.TenantName custom)) with (otc.TenantName merged).
  change (otc.override (otc.ProjectID tmp) (otc.ProjectID custom)) with (otc.ProjectID merged).
  change (otc.override (otc.ProjectName tmp) (otc.ProjectName custom)) with (otc.ProjectName merged).
  change (otc.override (otc.TokenID tmp) (otc.TokenID custom)) with (otc.TokenID merged).
  change (otc.AllowReauth custom || otc.AllowReauth tmp)%bool
    with (otc.AllowReauth merged).
  clearbody merged.
  destruct (String.eqb (otc.ProjectID merged) "");
    cbn [otc.IdentityEndpoint otc.Username otc.UserID otc.Password otc.DomainID otc.DomainName otc.TenantID otc.TenantName otc.ProjectID otc.ProjectName otc.TokenID otc.AllowReauth otc.withTenantID otc.withTenantName];
    destruct (String.eqb (otc.ProjectName merged) "");
    cbn [otc.IdentityEndpoint otc.Username otc.UserID otc.Password otc.DomainID otc.DomainName otc.TenantID otc.TenantName otc.ProjectID otc.ProjectName otc.TokenID otc.AllowReauth otc.withTenantID otc.withTenantName];
    destruct (String.eqb (otc.IdentityEndpoint merged) ""); try discriminate;
    destruct (String.eqb (otc.Username merged) "");
    destruct (String.eqb (otc.UserID merged) ""); try discriminate;
    destruct (String.eqb (otc.Password merged) ""); try discriminate;
    intros _; repeat split.
Qed.

(** ** common: authentication *)

(** X19: ldapAuthenticator fails closed.  It returns a user, and no
    error, exactly when both login fields were submitted non-empty and
    the directory answered ok without an error; the user then carries
    the submitted user name and the directory's mail attribute (empty
    when there is none) and userPayloadFunc turns it into the claims id
    and mail.  In every other case it returns one of the two errors of
    the middleware, never the directory's own, and the claims are
    empty. *)
Theorem ldapAuthenticator_fails_closed (submitted : option (string * string))
    (Authenticate : string -> string -> bool * gmap string string * option string) :
  let r := common.ldapAuthenticator submitted Authenticate in
  (snd r = None
   ↔ ∃ username password user,
       submitted = Some (username, password) ∧ username ≠ "" ∧ password ≠ ""
       ∧ Authenticate username password = (true, user, None))
  ∧ (∀ username password user,
       submitted = Some (username, password) → username ≠ "" → password ≠ "" →
       Authenticate username password = (true, user, None) →
       fst r = common.DataUser {| common.UserId := username;
                                  common.Email := default "" (user !! "mail") |}
       ∧ common.userPayloadFunc (fst r)
         = {[ "id" := username; "mail" := default "" (user !! "mail") ]})
  ∧ (snd r ≠ None →
     common.userPayloadFunc (fst r) = ∅
     ∧ (snd r = Some common.ErrMissingLoginValues
        ↔ common.ShouldBind submitted = None)).
Proof.
  intros r. subst r. unfold common.ldapAuthenticator, common.ShouldBind.
  destruct submitted as [[username password] |].
  - destruct (String.eqb_spec username "") as [Hu | Hu]; simpl.
    + split; [| split].
      * split; [discriminate |]. by intros (u & pw & user & [= <- <-] & ? & _).
      * by intros u pw user [= <- <-] ?.
      * done.
    + destruct (String.eqb_spec password "") as [Hp | Hp]; simpl.
      * split; [| split].
        -- split; [discriminate |]. by intros (u & pw & user & [= <- <-] & _ & ? & _).
        -- by intros u pw user [= <- <-] _ ?.
        -- done.
      * destruct (Authenticate username password) as [[ok user] err] eqn:Hauth.
        destruct err as [text |]; [| destruct ok]; simpl.
        -- split; [| split].
           ++ split; [discriminate |].
              intros (u & pw & user' & [= <- <-] & _ & _ & Hok).
              rewrite Hauth in Hok. discriminate.
           ++ intros u pw user' [= <- <-] _ _ Hok. rewrite Hauth in Hok.
              discriminate.
           ++ intros _. split; [done |]. split; discriminate.
        -- split; [| split].
           ++ split; [| done]. intros _. by exists username, password, user.
           ++ intros u pw user' [= <- <-] _ _ Hok. rewrite Hauth in Hok.
              by injection Hok as <-.
           ++ done.
        -- split; [| split].
           ++ split; [discriminate |].
              intros (u & pw & user' & [= <- <-] & _ & _ & Hok).
              rewrite Hauth in Hok. discriminate.
           ++ intros u pw user' [= <- <-] _ _ Hok. rewrite Hauth in Hok.
              discriminate.
           ++ intros _. split; [done |]. split; discriminate.
  - simpl. split; [| split].
    + split; [discriminate |]. by intros (u & pw & user & [=] & _).
    + by intros u pw user [=].
    + done.
Qed.

(** ** openshift, first version *)

Lemma run_clientDo {W : Type} (srv : server W) (w : W) (cluster : ClusterClient)
    (method endURL : string) (body : option JSON) :
  run srv (legacy.clientDo cluster method endURL body) w
  = let '(ans, w1) := srv (call cluster method endURL body) w in
    (Done ans, w1, [(call cluster method endURL body, ans)]).
Proof.
  unfold legacy.clientDo, call. simpl. by destruct (srv _ w) as [ans w1].
Qed.

(** X20: in the first version a creation whose POST fails in the
    transport panics on the nil response instead of returning an error;
    an answered POST is told apart by its status as later: 409 gives the
    already-exists error and any status other than 201 and 409 the
    generic one, with no further request. *)
Theorem legacy_createNewProject_by_answer {W : Type} (srv : server W) (w w1 : W)
    (genericAPIError testProjectDeletionDays : string) (cluster : ClusterClient)
    (newObjectRequest : string -> string -> JSON)
    (getAdminRoleBinding : string -> prog (JSON + error))
    (project username billing megaid : string) (testProject : bool) (ans : answer) :
  let post := call cluster "POST" "oapi/v1/projectrequests"
                (Some (newObjectRequest "ProjectRequest" (ToLower project))) in
  let r := run srv (legacy.createNewProject genericAPIError testProjectDeletionDays
                      cluster newObjectRequest getAdminRoleBinding
                      project username billing megaid testProject) w in
  srv post w = (ans, w1) →
  ((∃ text, ans = inr text) → r = (Panicked, w1, [(post, ans)]))
  ∧ (∀ resp, ans = inl resp → StatusCode resp = 409 →
       r = (Done (Some (errorsNew "Das Projekt existiert bereits")), w1, [(post, ans)]))
  ∧ (∀ resp, ans = inl resp → StatusCode resp ≠ 201 → StatusCode resp ≠ 409 →
       r = (Done (Some (errorsNew genericAPIError)), w1, [(post, ans)])).
Proof.
  intros post r Hpost. subst r. unfold legacy.createNewProject.
  rewrite run_bind, run_clientDo. fold post. rewrite Hpost.
  unfold StatusCreated, StatusConflict.
  split; [| split].
  - by intros [text ->].
  - by intros resp -> ->.
  - intros resp -> H201 H409. simpl.
    destruct (Z.eqb_spec (StatusCode resp) 201); [contradiction |].
    by destruct (Z.eqb_spec (StatusCode resp) 409).
Qed.

(** X21: the first version of the metadata upsert returns the generic
    error when its GET fails in the transport or its body does not
    decode, sending nothing more.  It panics in two cases: after the
    GET alone, when the namespace object has no metadata.annotations;
    and, when the object has them, after both requests were sent, when
    the PUT fails in the transport and leaves a nil response. *)
Theorem legacy_createOrUpdateMetadata_failures {W : Type} (srv : server W)
    (w w1 : W) (genericAPIError testProjectDeletionDays : string)
    (cluster : ClusterClient) (project billing megaid username : string)
    (testProject : bool) (ans : answer) :
  let get := call cluster "GET" (namespacePath project) None in
  let r := run srv (legacy.createOrUpdateMetadata genericAPIError
                      testProjectDeletionDays cluster project billing megaid
                      username testProject) w in
  srv get w = (ans, w1) →
  ((∀ resp, ans = inl resp → ParseJSONBuffer (Body resp) = None) →
   r = (Done (Some (errorsNew genericAPIError)), w1, [(get, ans)]))
  ∧ (∀ resp namespace,
       ans = inl resp → Body resp = Doc namespace →
       gabs.PathContainer "metadata.annotations" namespace = None →
       r = (Panicked, w1, [(get, ans)]))
  ∧ (∀ resp namespace text w2,
       ans = inl resp → Body resp = Doc namespace →
       gabs.PathContainer "metadata.annotations" namespace ≠ None →
       let put := call cluster "PUT" (namespacePath project)
                    (Some (annotate testProjectDeletionDays billing megaid username
                             testProject namespace)) in
       srv put w1 = (inr text, w2) →
       r = (Panicked, w2, [(get, ans); (put, inr text)])).
Proof.
  intros get r Hget. subst r. unfold legacy.createOrUpdateMetadata.
  rewrite run_bind, run_clientDo. fold (namespacePath project). fold get.
  rewrite Hget. split; [| split].
  - intros Hunreadable. destruct ans as [resp | text]; [| reflexivity].
    simpl. by rewrite (Hunreadable resp eq_refl).
  - intros resp namespace -> Hbody Hmissing. rewrite Hbody.
    cbn [ParseJSONBuffer]. by rewrite Hmissing.
  - intros resp namespace text w2 -> Hbody Hfound Hput. rewrite Hbody.
    cbn [ParseJSONBuffer].
    destruct (gabs.PathContainer "metadata.annotations" namespace); [| done].
    rewrite run_bind, run_clientDo.
    change (legacy.annotate testProjectDeletionDays billing megaid username
              testProject namespace)
      with (annotate testProjectDeletionDays billing megaid username testProject
              namespace).
    by rewrite Hput.
Qed.

(** X22: the first version's billing read-out never looks at the status:
    for any answered GET whose body decodes it returns the billing
    annotation if that is a string, the text "Keine Daten hinterlegt" if
    the annotation is absent or null, and panics on any other value; a
    failed exchange or an undecodable body gives the generic error. *)
Theorem legacy_getProjectBillingInformation_reads {W : Type} (srv : server W)
    (w w1 : W) (genericAPIError : string) (cluster : ClusterClient)
    (project : string) (ans : answer) :
  srv (call cluster "GET" (namespacePath project) None) w = (ans, w1) →
  result (run srv (legacy.getProjectBillingInformation genericAPIError cluster
                     project) w)
  = match ans with
    | inr _ => Done ("", Some (errorsNew genericAPIError))
    | inl resp =>
        match Body resp with
        | Undecodable _ => Done ("", Some (errorsNew genericAPIError))
        | Doc json =>
            match annotationOf "openshift.io/kontierung-element" json with
            | JNull => Done ("Keine Daten hinterlegt", None)
            | JStr billing => Done (billing, None)
            | _ => Panicked
            end
        end
    end.
Proof.
  intros Hget. unfold legacy.getProjectBillingInformation.
  rewrite run_bind, run_clientDo. fold (namespacePath project). rewrite Hget.
  destruct ans as [resp | text]; [| reflexivity].
  destruct (Body resp) as [raw | json]; cbn [ParseJSONBuffer]; [reflexivity |].
  fold (annotationOf "openshift.io/kontierung-element" json).
  by destruct (annotationOf "openshift.io/kontierung-element" json).
Qed.

(** X23: in the first version the grant itself turns a failed PUT into
    the generic error: once the binding is fetched, the grant returns
    nil exactly when the PUT is answered 200 and the generic error for
    every other answer and for a failed exchange; it does not panic and
    does not hand on the transport's error. *)
Theorem legacy_changeProjectPermission_put {W : Type} (srv : server W)
    (w w1 w2 : W) (genericAPIError : string) (cluster : ClusterClient)
    (getAdminRoleBinding : string -> prog (JSON + error))
    (project username : string) (binding : JSON)
    (tr1 : list (Request * answer)) (ans : answer) :
  let put := call cluster "PUT" (adminPath project) (Some (granted username binding)) in
  let r := run srv (legacy.changeProjectPermission genericAPIError cluster
                      getAdminRoleBinding project username) w in
  run srv (getAdminRoleBinding project) w = (Done (inl binding), w1, tr1) →
  srv put w1 = (ans, w2) →
  requests r = ((fst <$> tr1) ++ [put])%list
  ∧ (result r = Done None ↔ ∃ resp, ans = inl resp ∧ StatusCode resp = 200)
  ∧ (result r = Done None ∨ result r = Done (Some (errorsNew genericAPIError))).
Proof.
  intros put r Hbinding Hput. subst r. unfold legacy.changeProjectPermission.
  rewrite run_bind, Hbinding, run_bind, run_clientDo.
  fold (adminPath project). fold (granted username binding). fold put.
  rewrite Hput. unfold requests, result, StatusOK.
  destruct ans as [resp | text]; simpl.
  - destruct (Z.eqb_spec (StatusCode resp) 200) as [H200 | H200]; simpl.
    + split; [by rewrite fmap_app |]. split; [| by left].
      split; [by exists resp | done].
    + split; [by rewrite fmap_app |]. split; [| by right].
      split; [discriminate |]. intros (resp' & [= <-] & H). contradiction.
  - split; [by rewrite fmap_app |]. split; [| by right].
    split; [discriminate |]. by intros (resp' & [=] & _).
Qed.

(** X24: the first version's billing handler refuses an empty project
    with one 400 before the permission check and before any request;
    for a permitted project whose namespace has no billing annotation it
    answers 200 with the text "Keine Daten hinterlegt" in place of the
    accounting number, and with the annotation itself when there is
    one. *)
Theorem legacy_getBillingHandler_answers {W : Type} (srv : server W) (w w1 w2 : W)
    (genericAPIError : string) (cluster : ClusterClient)
    (checkAdminPermissions : string -> string -> prog (option error))
    (username project : string) (tr1 : list (Request * answer))
    (resp : Response) (json : JSON) :
  let get := call cluster "GET" (namespacePath project) None in
  let handler := legacy.getBillingHandler genericAPIError cluster
                   checkAdminPermissions username project in
  (project = "" →
   handler = Ret [(StatusBadRequest, ApiResponse "Projektname muss angegeben werden")])
  ∧ (run srv (legacy.validateAdminAccess checkAdminPermissions username project) w
     = (Done None, w1, tr1) →
     srv get w1 = (inl resp, w2) → Body resp = Doc json →
     (annotationOf "openshift.io/kontierung-element" json = JNull →
      run srv handler w
      = (Done [(StatusOK,
                ApiResponse ("Aktuelle Verrechnungsdaten für Projekt " ++ project
                             ++ ": Keine Daten hinterlegt"))],
         w2, (tr1 ++ [(get, inl resp)])%list))
     ∧ (∀ billing,
          annotationOf "openshift.io/kontierung-element" json = JStr billing →
          run srv handler w
          = (Done [(StatusOK,
                    ApiResponse ("Aktuelle Verrechnungsdaten für Projekt " ++ project
                                 ++ ": " ++ billing))],
             w2, (tr1 ++ [(get, inl resp)])%list))).
Proof.
  intros get handler. subst handler. split.
  - by intros ->.
  - intros Hvalid Hget Hbody. unfold legacy.getBillingHandler.
    rewrite run_bind, Hvalid. cbn iota beta. rewrite run_bind.
    unfold legacy.getProjectBillingInformation.
    rewrite run_bind, run_clientDo. fold (namespacePath project). fold get.
    rewrite Hget. cbn iota beta. rewrite Hbody. cbn [ParseJSONBuffer].
    fold (annotationOf "openshift.io/kontierung-element" json).
    split.
    + by intros ->.
    + by intros billing ->.
Qed.

(** X25: a billing update of the first version, once it is answered
    200, has sent after the permission check exactly the GET and the PUT
    of the namespace; and when the fetched object carries an annotations
    object, the object written back has the new accounting number and
    the acting user as requester, while its MEGA-ID, deletion-days and
    description annotations are as they were fetched. *)
Theorem legacy_updateBillingHandler_writes {W : Type} (srv : server W) (w w' : W)
    (genericAPIError wrongAPIUsageError testProjectDeletionDays : string)
    (cluster : ClusterClient)
    (checkAdminPermissions : string -> string -> prog (option error))
    (username project billing message : string) (tr : list (Request * answer)) :
  run srv (legacy.updateBillingHandler genericAPIError wrongAPIUsageError
             testProjectDeletionDays cluster checkAdminPermissions username
             (Some (project, billing))) w
  = (Done [(StatusOK, ApiResponse message)], w', tr) →
  ∃ w1 tr1 resp namespace resp2,
    run srv (legacy.validateBillingInformation checkAdminPermissions project billing
               username) w = (Done None, w1, tr1)
    ∧ Body resp = Doc namespace ∧ StatusCode resp2 = 200
    ∧ tr = (tr1 ++ [(call cluster "GET" (namespacePath project) None, inl resp);
                    (call cluster "PUT" (namespacePath project)
                       (Some (annotate testProjectDeletionDays billing "" username
                                false namespace)),
                     inl resp2)])%list
    ∧ ∀ ann, gabs.Path "metadata.annotations" namespace = JObj ann →
        let stored := annotate testProjectDeletionDays billing "" username false
                        namespace in
        annotationOf "openshift.io/kontierung-element" stored = JStr billing
        ∧ annotationOf "openshift.io/requester" stored = JStr username
        ∧ annotationOf "openshift.io/MEGAID" stored
          = annotationOf "openshift.io/MEGAID" namespace
        ∧ annotationOf "openshift.io/testproject-daystodeletion" stored
          = annotationOf "openshift.io/testproject-daystodeletion" namespace
        ∧ annotationOf "openshift.io/description" stored
          = annotationOf "openshift.io/description" namespace.
Proof.
  unfold legacy.updateBillingHandler. rewrite run_bind.
  destruct (run srv (legacy.validateBillingInformation _ _ _ _) w)
    as [[[[e |] |] w1] tr1]; cbn iota beta; try discriminate.
  rewrite run_bind. unfold legacy.createOrUpdateMetadata.
  rewrite run_bind, run_clientDo. fold (namespacePath project).
  destruct (srv (call cluster "GET" _ _) w1) as [[resp | text] w2];
    cbn iota beta; [| discriminate].
  destruct (Body resp) as [raw | namespace] eqn:Hbody; cbn [ParseJSONBuffer];
    [discriminate |].
  destruct (gabs.PathContainer "metadata.annotations" namespace);
    cbn iota beta; [| discriminate].
  rewrite run_bind, run_clientDo.
  change (legacy.annotate testProjectDeletionDays billing "" username false namespace)
    with (annotate testProjectDeletionDays billing "" username false namespace).
  destruct (srv (call cluster "PUT" _ _) w2) as [[resp2 | text] w3];
    cbn iota beta; [| discriminate].
  unfold StatusOK. destruct (Z.eqb_spec (StatusCode resp2) 200) as [H200 | _];
    cbn iota beta; [| discriminate].
  intros [= _ <- <-]. exists w1, tr1, resp, namespace, resp2.
  split; [done |]. split; [done |]. split; [done |]. split; [done |].
  intros ann Hann.
  destruct (Path_annotations _ _ Hann) as (top & meta & -> & Htop & Hmetadata).
  destruct (annotate_annotations testProjectDeletionDays top meta ann billing ""
              username false)
    as (ann' & Hstored & Hbilling & Hrequester & _ & Hkeep & _ & Htest & _).
  destruct (Htest eq_refl) as [Hdays Hdescription].
  cbv zeta. rewrite (annotations_shape _ _ _ Htop Hmetadata), Hstored.
  rewrite !annotationOf_annotations.
  by rewrite Hbilling, Hrequester, Hdays, Hdescription, (Hkeep eq_refl).
Qed.

(** ** Concrete runs of the other handlers *)

Lemma createNewProject_folds_case_witness :
  ToLower "Demo" = ToLower "DEMO"
  ∧ createNewProject "generic" "30" oneCluster "c1" "Demo" "alice" "4711" "" false
    = createNewProject "generic" "30" oneCluster "c1" (ToLower "DEMO") "alice" "4711" ""
        false.
Proof.
  assert (ToLower "Demo" = ToLower "DEMO") as Hfold by reflexivity.
  split; [exact Hfold |].
  exact (createNewProject_folds_case "generic" "30" oneCluster "c1" "Demo" "DEMO"
           "alice" "4711" "" false Hfold).
Defined.

Lemma changeProjectPermission_folds_case_witness :
  (isASCII "Bob" = true ∧ isASCII "bOB" = true ∧ ToLower "Bob" = ToLower "bOB")
  ∧ changeProjectPermission "generic" oneCluster "c1" "demo" "Bob"
    = changeProjectPermission "generic" oneCluster "c1" "demo" "bOB".
Proof.
  assert (ToLower "Bob" = ToLower "bOB") as Hfold by reflexivity.
  split; [by repeat split |].
  exact (changeProjectPermission_folds_case "generic" oneCluster "c1" "demo" "Bob" "bOB"
           eq_refl eq_refl Hfold).
Defined.

Lemma createNewProject_plan_witness :
  let create := createNewProject "generic" "30" oneCluster "c1" "Demo" "alice"
                  "4711" "" false in
  let r := run (memCluster freshNamespace emptyBinding) create ∅ in
  let r' := run (memCluster plainNamespace emptyBinding) create ∅ in
  (result r = Done None ∧ result r' = Panicked)
  ∧ methodAndPath <$> requests r = creationPlan "demo"
  ∧ methodAndPath <$> requests r'
    = [("POST", "oapi/v1/projectrequests");
       ("GET", adminPath "demo"); ("PUT", adminPath "demo");
       ("GET", namespacePath "demo")].
Proof.
  intros create r r'.
  assert (result r = Done None) as Hdone by computed.
  assert (result r' = Panicked) as Hpanic by computed.
  split; [by split |]. split.
  - exact (proj1 (proj2 (createNewProject_plan "generic" "30"
                           (memCluster freshNamespace emptyBinding) ∅ oneCluster "c1"
                           "Demo" "alice" "4711" "" false)) Hdone).
  - exact (proj1 (proj2 (proj2 (createNewProject_plan "generic" "30"
                                  (memCluster plainNamespace emptyBinding) ∅
                                  oneCluster "c1" "Demo" "alice" "4711" "" false))
                    Hpanic)).
Defined.

Lemma createOrUpdateMetadata_ignores_GET_status_witness :
  let srv : server unit :=
    fun req w =>
      if String.eqb (reqMethod req) "GET"
      then (inl {| StatusCode := 500; Body := Doc freshNamespace |}, w)
      else (inl {| StatusCode := 200; Body := Undecodable "ok" |}, w) in
  let get := call c1Client "GET" (namespacePath "demo") None in
  let put := call c1Client "PUT" (namespacePath "demo")
               (Some (annotate "30" "4711" "" "alice" false freshNamespace)) in
  (resolve oneCluster "c1" = inl c1Client
   ∧ srv get tt = (inl {| StatusCode := 500; Body := Doc freshNamespace |}, tt)
   ∧ gabs.PathContainer "metadata.annotations" freshNamespace ≠ None
   ∧ srv put tt = (inl {| StatusCode := 200; Body := Undecodable "ok" |}, tt))
  ∧ result (run srv (createOrUpdateMetadata "generic" "30" oneCluster "c1" "demo"
                       "4711" "" "alice" false) tt)
    = Done None.
Proof.
  intros srv get put.
  assert (resolve oneCluster "c1" = inl c1Client) as Hc by reflexivity.
  assert (srv get tt = (inl {| StatusCode := 500; Body := Doc freshNamespace |}, tt))
    as Hget by reflexivity.
  assert (gabs.PathContainer "metadata.annotations" freshNamespace
          = Some (JObj {[ "openshift.io/display-name" := JStr "" ]})) as Hann
    by computed.
  assert (gabs.PathContainer "metadata.annotations" freshNamespace ≠ None) as Hfound
    by (rewrite Hann; discriminate).
  assert (srv put tt = (inl {| StatusCode := 200; Body := Undecodable "ok" |}, tt))
    as Hput by reflexivity.
  split; [by repeat split |].
  apply (proj2 (proj1 (proj2 (proj2 (createOrUpdateMetadata_ignores_GET_status
                                       "generic" "30" srv tt tt oneCluster "c1" "demo"
                                       "4711" "" "alice" false c1Client _
                                       freshNamespace Hc Hget eq_refl)
                                Hfound _ tt Hput)))).
  eexists. split; reflexivity.
Defined.

Lemma getProjectInformation_reads_witness :
  let srv := memCluster freshNamespace emptyBinding in
  let get := call c1Client "GET" (namespacePath "demo") None in
  (resolve oneCluster "c1" = inl c1Client
   ∧ srv get demoStore
     = (inl {| StatusCode := 200; Body := Doc freshNamespace |}, demoStore))
  ∧ result (run srv (getProjectInformation "generic" oneCluster "c1" "demo") demoStore)
    = Done (Some {| Kontierungsnummer := ""; MegaID := "" |}, None).
Proof.
  intros srv get.
  assert (resolve oneCluster "c1" = inl c1Client) as Hc by reflexivity.
  assert (srv get demoStore
          = (inl {| StatusCode := 200; Body := Doc freshNamespace |}, demoStore))
    as Hget by computed.
  split; [by split |].
  etransitivity;
    [exact (getProjectInformation_reads "generic" srv demoStore demoStore oneCluster
              "c1" "demo" c1Client _ Hc Hget)
    | computed].
Defined.

Lemma getUserProjects_edges_witness :
  let srv := memCluster freshNamespace emptyBinding in
  let get := call c1Client "GET" "oapi/v1/projects" None in
  let json := JObj {[ "items" := JArr [JObj ∅] ]} in
  let store : memStore := {[ ("c1", "oapi/v1/projects") := json ]} in
  (resolve oneCluster "c1" = inl c1Client
   ∧ srv get store = (inl {| StatusCode := 200; Body := Doc json |}, store)
   ∧ gabs.Children (gabs.Search ["items"] json) = Some [JObj ∅]
   ∧ Exists (fun project => ∀ name, gabs.Path "metadata.name" project ≠ JStr name)
       [JObj ∅])
  ∧ result (run srv (getUserProjects "generic" oneCluster "c1" "alice") store)
    = Panicked.
Proof.
  intros srv get json store.
  assert (resolve oneCluster "c1" = inl c1Client) as Hc by reflexivity.
  assert (srv get store = (inl {| StatusCode := 200; Body := Doc json |}, store))
    as Hget by computed.
  assert (gabs.Children (gabs.Search ["items"] json) = Some [JObj ∅]) as Hitems
    by computed.
  assert (Exists (fun project => ∀ name, gabs.Path "metadata.name" project ≠ JStr name)
            [JObj ∅]) as Hnameless.
  { apply Exists_cons_hd. intros name Hname. vm_compute in Hname.
    discriminate Hname. }
  split; [by repeat split |].
  exact (proj2 (proj2 (proj2 (getUserProjects_edges "generic" srv store store
                                oneCluster "c1" "alice" c1Client _ Hc Hget)))
           json [JObj ∅] eq_refl Hitems Hnameless).
Defined.

Lemma getProjectsHandler_answers_witness :
  let srv := memCluster freshNamespace emptyBinding in
  let get := call c1Client "GET" "oapi/v1/projects" None in
  let alpha := JObj {[ "metadata" := JObj {[ "name" := JStr "alpha" ]} ]} in
  let beta := JObj {[ "metadata" := JObj {[ "name" := JStr "beta" ]} ]} in
  let json := JObj {[ "kind" := JStr "ProjectList"; "items" := JArr [alpha; beta] ]} in
  ("c1" ≠ ""
   ∧ resolve oneCluster "c1" = inl c1Client
   ∧ srv get listingStore = (inl {| StatusCode := 200; Body := Doc json |}, listingStore)
   ∧ gabs.Search ["items"] json = JArr [alpha; beta]
   ∧ Forall2 (fun project name => gabs.Path "metadata.name" project = JStr name)
       [alpha; beta] ["alpha"; "beta"])
  ∧ run srv (getProjectsHandler "generic" "wrong usage" oneCluster "alice" "c1")
      listingStore
    = (Done [(StatusOK, inr ["alpha"; "beta"])], listingStore,
       [(get, inl {| StatusCode := 200; Body := Doc json |})]).
Proof.
  intros srv get alpha beta json.
  assert ("c1" ≠ "") as Hid by discriminate.
  assert (resolve oneCluster "c1" = inl c1Client) as Hc by reflexivity.
  assert (srv get listingStore
          = (inl {| StatusCode := 200; Body := Doc json |}, listingStore))
    as Hget by computed.
  assert (gabs.Search ["items"] json = JArr [alpha; beta]) as Hitems
    by computed.
  assert (Forall2 (fun project name => gabs.Path "metadata.name" project = JStr name)
            [alpha; beta] ["alpha"; "beta"]) as Hnames
    by (repeat constructor; computed).
  split; [by repeat split |].
  exact (proj1 (proj2 (proj2 (proj2 (getProjectsHandler_answers "generic"
                                       "wrong usage" srv listingStore oneCluster
                                       "alice" "c1"))))
           c1Client _ listingStore json [alpha; beta] ["alpha"; "beta"]
           Hid Hc Hget eq_refl Hitems Hnames).
Defined.

Lemma updateProjectInformationHandler_rejects_witness :
  let data := {| UpdateProjectInformationCommand.ClusterId := "c1";
                 UpdateProjectInformationCommand.Project := "";
                 UpdateProjectInformationCommand.Billing := "4711";
                 UpdateProjectInformationCommand.MegaID := "" |} in
  (UpdateProjectInformationCommand.ClusterId data ≠ ""
   ∧ UpdateProjectInformationCommand.Project data = "")
  ∧ updateProjectInformationHandler "generic" "wrong usage" "30" everyoneIsAdmin
      oneCluster "alice" (Some data)
    = Ret [(StatusBadRequest, ApiResponse "Project name must be provided")].
Proof.
  intros data.
  assert (UpdateProjectInformationCommand.ClusterId data ≠ "") as Hcluster
    by discriminate.
  split; [by split |].
  exact (proj1 (proj2 (updateProjectInformationHandler_rejects "generic" "wrong usage"
                         "30" everyoneIsAdmin oneCluster "alice" data))
           Hcluster eq_refl).
Defined.

Lemma updateProjectInformationHandler_answers_once_witness :
  let srv := memCluster freshNamespace emptyBinding in
  let data := {| UpdateProjectInformationCommand.ClusterId := "c1";
                 UpdateProjectInformationCommand.Project := "ghost";
                 UpdateProjectInformationCommand.Billing := "4712";
                 UpdateProjectInformationCommand.MegaID := "" |} in
  let r := run srv (updateProjectInformationHandler "generic" "wrong usage" "30"
                      everyoneIsAdmin oneCluster "alice" (Some data)) demoStore in
  r = (Done [(StatusBadRequest, ApiResponse "generic")], snd (fst r), snd r)
  ∧ ∃ code message,
      [(StatusBadRequest, ApiResponse "generic")] = [(code, ApiResponse message)]
      ∧ (code = 200 ∨ code = 400).
Proof.
  intros srv data r.
  assert (r = (Done [(StatusBadRequest, ApiResponse "generic")], snd (fst r), snd r))
    as Hrun by computed.
  split; [exact Hrun |].
  exact (updateProjectInformationHandler_answers_once "generic" "wrong usage" "30"
           everyoneIsAdmin srv demoStore (snd (fst r)) oneCluster "alice" (Some data)
           _ (snd r) Hrun).
Defined.

Lemma updateProjectInformationHandler_writes_witness :
  let srv := memCluster freshNamespace emptyBinding in
  let data := {| UpdateProjectInformationCommand.ClusterId := "c1";
                 UpdateProjectInformationCommand.Project := "demo";
                 UpdateProjectInformationCommand.Billing := "4712";
                 UpdateProjectInformationCommand.MegaID := "m7" |} in
  let r := run srv (updateProjectInformationHandler "generic" "wrong usage" "30"
                      everyoneIsAdmin oneCluster "alice" (Some data)) demoStore in
  r = (Done [(StatusOK,
              ApiResponse "The details for project demo on cluster c1 has been saved")],
       snd (fst r), snd r)
  ∧ ∃ client w1 tr1 resp namespace resp2,
      resolve oneCluster "c1" = inl client
      ∧ run srv (validateProjectInformation everyoneIsAdmin oneCluster data "alice")
          demoStore = (Done None, w1, tr1)
      ∧ Body resp = Doc namespace
      ∧ snd r
        = (tr1 ++ [(call client "GET" (namespacePath "demo") None, inl resp);
                   (call client "PUT" (namespacePath "demo")
                      (Some (annotate "30" "4712" "m7" "alice" false namespace)),
                    inl resp2)])%list
      ∧ ∀ ann, gabs.Path "metadata.annotations" namespace = JObj ann →
          let stored := annotate "30" "4712" "m7" "alice" false namespace in
          annotationOf "openshift.io/kontierung-element" stored = JStr "4712"
          ∧ annotationOf "openshift.io/requester" stored = JStr "alice"
          ∧ annotationOf "openshift.io/MEGAID" stored = JStr "m7"
          ∧ annotationOf "openshift.io/testproject-daystodeletion" stored
            = annotationOf "openshift.io/testproject-daystodeletion" namespace
          ∧ annotationOf "openshift.io/description" stored
            = annotationOf "openshift.io/description" namespace.
Proof.
  intros srv data r.
  assert (r = (Done [(StatusOK,
                      ApiResponse
                        "The details for project demo on cluster c1 has been saved")],
               snd (fst r), snd r)) as Hrun by computed.
  split; [exact Hrun |].
  exact (updateProjectInformationHandler_writes "generic" "wrong usage" "30"
           everyoneIsAdmin srv demoStore (snd (fst r)) oneCluster "alice" _ data
           (snd r) Hrun).
Defined.

Lemma sendNewProjectMail_cases_witness :
  let environ : gmap string string :=
    {[ "MAIL_SERVER" := "smtp.example.org";
       "MAIL_ADMIN_SENDER" := "cloud@example.org";
       "MAIL_NEW_PROJECT_RECIPIENT" := "team@example.org" ]} in
  let DialAndSend : Mail -> option error :=
    fun _ => Some (TransportError "no route to host") in
  (environ !! "MAIL_SERVER" = Some "smtp.example.org"
   ∧ environ !! "MAIL_ADMIN_SENDER" = Some "cloud@example.org"
   ∧ environ !! "MAIL_NEW_PROJECT_RECIPIENT" = Some "team@example.org")
  ∧ ∃ m, sendNewProjectMail environ DialAndSend "c1" "demo" "alice" "m1"
         = (Some (TransportError "no route to host"), [m])
         ∧ Host m = "smtp.example.org" ∧ Port m = 25
         ∧ From m = "cloud@example.org" ∧ To m = "team@example.org"
         ∧ Subject m = "New Project 'demo' on OpenShift"
         ∧ HTMLBody m = newProjectMailBody "c1" "demo" "alice" "m1".
Proof.
  intros environ DialAndSend.
  assert (environ !! "MAIL_SERVER" = Some "smtp.example.org") as Hserver
    by computed.
  assert (environ !! "MAIL_ADMIN_SENDER" = Some "cloud@example.org") as Hsender
    by computed.
  assert (environ !! "MAIL_NEW_PROJECT_RECIPIENT" = Some "team@example.org")
    as Hrecipient by computed.
  split; [by repeat split |].
  exact (proj2 (proj2 (proj2 (sendNewProjectMail_cases environ DialAndSend "c1" "demo"
                                "alice" "m1")))
           _ _ _ Hserver Hsender Hrecipient).
Defined.

Lemma newProjectHandler_answers_witness :
  let srv := memCluster freshNamespace emptyBinding in
  let data := {| NewProjectCommand.ClusterId := "c1";
                 NewProjectCommand.Project := "Demo";
                 NewProjectCommand.Billing := "4711";
                 NewProjectCommand.MegaId := "" |} in
  let unset : gmap string string := ∅ in
  let r := run srv (createNewProject "generic" "30" oneCluster "c1" "Demo" "alice"
                      "4711" "" false) ∅ in
  (validateNewProject "Demo" "4711" false = None
   ∧ r = (Done None, snd (fst r), snd r))
  ∧ run srv (newProjectHandler "generic" "wrong usage" "30" unset (fun _ => None)
               oneCluster "alice" (Some data)) ∅
    = (Done ([(StatusOK, ApiResponse "Das Projekt Demo wurde erstellt auf Cluster c1")],
             []),
       snd (fst r), snd r).
Proof.
  intros srv data unset r.
  assert (validateNewProject "Demo" "4711" false = None) as Hvalid by reflexivity.
  assert (r = (Done None, snd (fst r), snd r)) as Hrun by computed.
  split; [by split |].
  exact (proj1 (proj2 (newProjectHandler_answers "generic" "wrong usage" "30" unset
                         (fun _ => None) srv ∅ oneCluster "alice" data)
                  Hvalid None _ _ Hrun)).
Defined.

Lemma getProjectInformationHandler_answers_witness :
  let srv := memCluster freshNamespace emptyBinding in
  let r := run srv (getProjectInformationHandler "generic" everyoneIsAdmin oneCluster
                      "alice" "c1" "ghost") ∅ in
  let c := [(StatusBadRequest, ApiResponse "generic");
            (StatusOK, ProjectInformationBody None)] in
  r = (Done c, snd (fst r), snd r)
  ∧ ((∃ message, c = [(StatusBadRequest, ApiResponse message)])
     ∨ (∃ pi, c = [(StatusOK, ProjectInformationBody (Some pi))])
     ∨ (∃ err w1 tr1 tr2,
          run srv (validateAdminAccess everyoneIsAdmin oneCluster "c1" "alice" "ghost") ∅
          = (Done None, w1, tr1)
          ∧ run srv (getProjectInformation "generic" oneCluster "c1" "ghost") w1
            = (Done (None, Some err), snd (fst r), tr2)
          ∧ c = [(StatusBadRequest, ApiResponse (Error err));
                 (StatusOK, ProjectInformationBody None)])).
Proof.
  intros srv r c.
  assert (r = (Done c, snd (fst r), snd r)) as Hrun by computed.
  split; [exact Hrun |].
  exact (proj2 (proj2 (getProjectInformationHandler_answers "generic" everyoneIsAdmin
                         srv ∅ (snd (fst r)) oneCluster "alice" "c1" "ghost" c (snd r)))
           Hrun).
Defined.

Lemma newTestProjectHandler_always_creates_witness :
  let srv := memCluster freshNamespace emptyBinding in
  let data := {| Project := ""; ClusterId := "c1" |} in
  let r := run srv (createNewProject "generic" "30" oneCluster "c1" "alice-" "alice"
                      "keine-verrechnung" "" true) ∅ in
  r = (Done None, snd (fst r), snd r)
  ∧ run srv (newTestProjectHandler "generic" "wrong usage" "30" oneCluster "alice"
               (Some data)) ∅
    = (Done [(StatusOK,
              ApiResponse "Das Test-Projekt alice- wurde erstellt auf Cluster c1")],
       snd (fst r), snd r).
Proof.
  intros srv data r.
  assert (r = (Done None, snd (fst r), snd r)) as Hrun by computed.
  split; [exact Hrun |].
  exact (newTestProjectHandler_always_creates "generic" "wrong usage" "30" srv ∅
           (snd (fst r)) oneCluster "alice" data None (snd r) Hrun).
Defined.

Lemma AKSKOptionsFromEnv_required_witness :
  let env : gmap string string :=
    {[ "HWCLOUD_AUTH_URL" := "https://iam.example.org";
       "HWCLOUD_ACCESS_KEY" := "" ]} in
  let message := fun name : string => "Missing input for argument " ++ name in
  (otc.Getenv env "HWCLOUD_AUTH_URL" ≠ "" ∧ otc.Getenv env "HWCLOUD_ACCESS_KEY" = "")
  ∧ snd (otc.AKSKOptionsFromEnv "Com.1000" message env)
    = Some (otc.missingInput "Com.1000" message "AccessKey").
Proof.
  intros env message.
  assert (otc.Getenv env "HWCLOUD_AUTH_URL" = "https://iam.example.org") as Hurl
    by computed.
  assert (otc.Getenv env "HWCLOUD_AUTH_URL" ≠ "") as Hset
    by (rewrite Hurl; discriminate).
  assert (otc.Getenv env "HWCLOUD_ACCESS_KEY" = "") as Hempty by computed.
  split; [by split |].
  exact (proj1 (proj2 (proj2 (proj2 (AKSKOptionsFromEnv_required "Com.1000" message
                                       env))))
           Hset Hempty).
Defined.

Lemma AKSKOptionsFromEnv_reads_witness :
  let env : gmap string string :=
    {[ "HWCLOUD_AUTH_URL" := "https://iam.example.org";
       "HWCLOUD_ACCESS_KEY" := "ak"; "HWCLOUD_SECRET_KEY" := "sk";
       "HWCLOUD_DOMAIN_NAME" := "domain"; "HOME" := "/root" ]} in
  let message := fun name : string => "Missing input for argument " ++ name in
  let r := otc.AKSKOptionsFromEnv "Com.1000" message env in
  snd r = None
  ∧ otc.AccessKey (fst r) = "ak" ∧ otc.Cloud (fst r) = "domain".
Proof.
  intros env message r.
  assert (snd r = None) as Hok by computed.
  split; [exact Hok |].
  destruct (proj1 (AKSKOptionsFromEnv_reads "Com.1000" message env) Hok)
    as (_ & Hak & _ & _ & _ & _ & _ & Hcloud).
  split; (etransitivity; [eassumption | computed]).
Defined.

Lemma TokenOptionsFromEnv_required_witness :
  let custom :=
    {| otc.IdentityEndpoint := "https://iam.example.org"; otc.Username := "";
       otc.UserID := ""; otc.Password := "secret"; otc.DomainID := "";
       otc.DomainName := "domain"; otc.TenantID := ""; otc.TenantName := "";
       otc.ProjectID := ""; otc.ProjectName := ""; otc.AllowReauth := false;
       otc.TokenID := "" |} in
  let message := fun name : string => "Missing input for argument " ++ name in
  let merged := otc.Merge otc.nilTokenOptions custom in
  (otc.IdentityEndpoint merged ≠ "" ∧ otc.Username merged = ""
   ∧ otc.UserID merged = "")
  ∧ snd (otc.TokenOptionsFromEnv "Com.1000" message otc.nilTokenOptions None
           (Some custom))
    = Some (otc.missingInput "Com.1000" message "username").
Proof.
  intros custom message merged.
  assert (otc.IdentityEndpoint merged ≠ "") as Hurl by discriminate.
  split; [by repeat split |].
  exact (proj1 (proj2 (proj2 (proj2 (proj2 (TokenOptionsFromEnv_required "Com.1000"
                                              message otc.nilTokenOptions
                                              (Some custom))))))
           Hurl eq_refl eq_refl).
Defined.

Lemma TokenOptionsFromEnv_reads_witness :
  let tmp :=
    {| otc.IdentityEndpoint := "https://iam.example.org"; otc.Username := "svc";
       otc.UserID := ""; otc.Password := "secret"; otc.DomainID := "";
       otc.DomainName := "domain"; otc.TenantID := "t1"; otc.TenantName := "tenant";
       otc.ProjectID := ""; otc.ProjectName := ""; otc.AllowReauth := false;
       otc.TokenID := "" |} in
  let custom :=
    {| otc.IdentityEndpoint := ""; otc.Username := ""; otc.UserID := "";
       otc.Password := ""; otc.DomainID := ""; otc.DomainName := "";
       otc.TenantID := "t2"; otc.TenantName := ""; otc.ProjectID := "p1";
       otc.ProjectName := ""; otc.AllowReauth := true; otc.TokenID := "" |} in
  let message := fun name : string => "Missing input for argument " ++ name in
  let r := otc.TokenOptionsFromEnv "Com.1000" message tmp None (Some custom) in
  snd r = None
  ∧ otc.TenantID (fst r) = "p1" ∧ otc.TenantName (fst r) = "tenant"
  ∧ otc.Username (fst r) = "svc" ∧ otc.AllowReauth (fst r) = true.
Proof.
  intros tmp custom message r.
  assert (snd r = None) as Hok by reflexivity.
  split; [exact Hok |].
  destruct (TokenOptionsFromEnv_reads "Com.1000" message tmp custom Hok)
    as (Htenant & Hname & _ & _ & _ & Huser & _ & _ & _ & _ & _ & Hreauth).
  repeat split; (etransitivity; [eassumption | reflexivity]).
Defined.

Lemma ldapAuthenticator_fails_closed_witness :
  let Authenticate :=
    fun _ _ : string =>
      (true, ({[ "mail" := "alice@example.org" ]} : gmap string string),
       @None string) in
  let r := common.ldapAuthenticator (Some ("alice", "secret")) Authenticate in
  ("alice" ≠ "" ∧ "secret" ≠ "")
  ∧ fst r = common.DataUser {| common.UserId := "alice";
                               common.Email := "alice@example.org" |}
  ∧ common.userPayloadFunc (fst r)
    = {[ "id" := "alice"; "mail" := "alice@example.org" ]}.
Proof.
  intros Authenticate r.
  assert ("alice" ≠ "") as Huser by discriminate.
  assert ("secret" ≠ "") as Hpassword by discriminate.
  split; [by split |].
  destruct (proj1 (proj2 (ldapAuthenticator_fails_closed (Some ("alice", "secret"))
                            Authenticate))
              "alice" "secret" _ eq_refl Huser Hpassword eq_refl)
    as [Hdata Hclaims].
  split; (etransitivity; [eassumption | computed]).
Defined.

Lemma legacy_createNewProject_by_answer_witness :
  let post := call c1Client "POST" "oapi/v1/projectrequests"
                (Some (newObjectRequest "ProjectRequest" "demo")) in
  unreachable post tt = (inr "connection refused", tt)
  ∧ run unreachable
      (legacy.createNewProject "generic" "30" c1Client newObjectRequest
         (fun _ => Ret (inl emptyBinding)) "Demo" "alice" "4711" "" false) tt
    = (Panicked, tt, [(post, inr "connection refused")]).
Proof.
  intros post.
  assert (unreachable post tt = (inr "connection refused", tt)) as Hpost
    by reflexivity.
  split; [exact Hpost |].
  apply (proj1 (legacy_createNewProject_by_answer unreachable tt tt "generic" "30"
                  c1Client newObjectRequest (fun _ => Ret (inl emptyBinding))
                  "Demo" "alice" "4711" "" false _ Hpost)).
  by eexists.
Defined.

Lemma legacy_createOrUpdateMetadata_failures_witness :
  let srv : server unit :=
    fun req w =>
      if String.eqb (reqMethod req) "GET"
      then (inl {| StatusCode := 200; Body := Doc freshNamespace |}, w)
      else (inr "broken pipe", w) in
  let get := call c1Client "GET" (namespacePath "demo") None in
  let put := call c1Client "PUT" (namespacePath "demo")
               (Some (annotate "30" "4711" "" "alice" false freshNamespace)) in
  (srv get tt = (inl {| StatusCode := 200; Body := Doc freshNamespace |}, tt)
   ∧ gabs.PathContainer "metadata.annotations" freshNamespace ≠ None
   ∧ srv put tt = (inr "broken pipe", tt))
  ∧ run srv (legacy.createOrUpdateMetadata "generic" "30" c1Client "demo" "4711" ""
               "alice" false) tt
    = (Panicked, tt,
       [(get, inl {| StatusCode := 200; Body := Doc freshNamespace |});
        (put, inr "broken pipe")]).
Proof.
  intros srv get put.
  assert (srv get tt = (inl {| StatusCode := 200; Body := Doc freshNamespace |}, tt))
    as Hget by reflexivity.
  assert (gabs.PathContainer "metadata.annotations" freshNamespace
          = Some (JObj {[ "openshift.io/display-name" := JStr "" ]})) as Hann
    by computed.
  assert (gabs.PathContainer "metadata.annotations" freshNamespace ≠ None) as Hfound
    by (rewrite Hann; discriminate).
  assert (srv put tt = (inr "broken pipe", tt)) as Hput by reflexivity.
  split; [by repeat split |].
  exact (proj2 (proj2 (legacy_createOrUpdateMetadata_failures srv tt tt "generic" "30"
                         c1Client "demo" "4711" "" "alice" false _ Hget))
           _ freshNamespace "broken pipe" tt eq_refl eq_refl Hfound Hput).
Defined.

Lemma legacy_getProjectBillingInformation_reads_witness :
  let srv := memCluster freshNamespace emptyBinding in
  let get := call c1Client "GET" (namespacePath "demo") None in
  srv get demoStore
  = (inl {| StatusCode := 200; Body := Doc freshNamespace |}, demoStore)
  ∧ result (run srv (legacy.getProjectBillingInformation "generic" c1Client "demo")
              demoStore)
    = Done ("Keine Daten hinterlegt", None).
Proof.
  intros srv get.
  assert (srv get demoStore
          = (inl {| StatusCode := 200; Body := Doc freshNamespace |}, demoStore))
    as Hget by computed.
  split; [exact Hget |].
  etransitivity;
    [exact (legacy_getProjectBillingInformation_reads srv demoStore demoStore
              "generic" c1Client "demo" _ Hget)
    | computed].
Defined.

Lemma legacy_changeProjectPermission_put_witness :
  let srv := memCluster freshNamespace emptyBinding in
  let fetch : string -> prog (JSON + error) := fun _ => Ret (inl emptyBinding) in
  let put := call c1Client "PUT" (adminPath "demo")
               (Some (granted "bob" emptyBinding)) in
  (run srv (fetch "demo") demoStore = (Done (inl emptyBinding), demoStore, [])
   ∧ srv put demoStore
     = (inl {| StatusCode := 200; Body := Doc (granted "bob" emptyBinding) |},
        snd (srv put demoStore)))
  ∧ result (run srv (legacy.changeProjectPermission "generic" c1Client fetch "demo"
                       "bob") demoStore)
    = Done None.
Proof.
  intros srv fetch put.
  assert (run srv (fetch "demo") demoStore = (Done (inl emptyBinding), demoStore, []))
    as Hfetch by reflexivity.
  assert (srv put demoStore
          = (inl {| StatusCode := 200; Body := Doc (granted "bob" emptyBinding) |},
             snd (srv put demoStore))) as Hput by computed.
  split; [by split |].
  apply (proj2 (proj1 (proj2 (legacy_changeProjectPermission_put srv demoStore
                                demoStore _ "generic" c1Client fetch "demo" "bob"
                                emptyBinding [] _ Hfetch Hput)))).
  eexists. split; reflexivity.
Defined.

Lemma legacy_getBillingHandler_answers_witness :
  let srv := memCluster freshNamespace emptyBinding in
  let permitted : string -> string -> prog (option error) := fun _ _ => Ret None in
  let get := call c1Client "GET" (namespacePath "demo") None in
  let resp := {| StatusCode := 200; Body := Doc freshNamespace |} in
  (run srv (legacy.validateAdminAccess permitted "alice" "demo") demoStore
   = (Done None, demoStore, [])
   ∧ srv get demoStore = (inl resp, demoStore)
   ∧ annotationOf "openshift.io/kontierung-element" freshNamespace = JNull)
  ∧ run srv (legacy.getBillingHandler "generic" c1Client permitted "alice" "demo")
      demoStore
    = (Done [(StatusOK,
              ApiResponse
                "Aktuelle Verrechnungsdaten für Projekt demo: Keine Daten hinterlegt")],
       demoStore, [(get, inl resp)]).
Proof.
  intros srv permitted get resp.
  assert (run srv (legacy.validateAdminAccess permitted "alice" "demo") demoStore
          = (Done None, demoStore, [])) as Hvalid by reflexivity.
  assert (srv get demoStore = (inl resp, demoStore)) as Hget by computed.
  assert (annotationOf "openshift.io/kontierung-element" freshNamespace = JNull)
    as Hnone by computed.
  split; [by repeat split |].
  exact (proj1 (proj2 (legacy_getBillingHandler_answers srv demoStore demoStore
                         demoStore "generic" c1Client permitted "alice" "demo" []
                         resp freshNamespace)
                  Hvalid Hget eq_refl)
           Hnone).
Defined.

Lemma legacy_updateBillingHandler_writes_witness :
  let srv := memCluster freshNamespace emptyBinding in
  let permitted : string -> string -> prog (option error) := fun _ _ => Ret None in
  let r := run srv (legacy.updateBillingHandler "generic" "wrong usage" "30" c1Client
                      permitted "alice" (Some ("demo", "4712"))) demoStore in
  r = (Done [(StatusOK, ApiResponse "Die Verrechnungsdaten wurden gespeichert: 4712")],
       snd (fst r), snd r)
  ∧ ∃ w1 tr1 resp namespace resp2,
      run srv (legacy.validateBillingInformation permitted "demo" "4712" "alice")
        demoStore = (Done None, w1, tr1)
      ∧ Body resp = Doc namespace ∧ StatusCode resp2 = 200
      ∧ snd r
        = (tr1 ++ [(call c1Client "GET" (namespacePath "demo") None, inl resp);
                   (call c1Client "PUT" (namespacePath "demo")
                      (Some (annotate "30" "4712" "" "alice" false namespace)),
                    inl resp2)])%list
      ∧ ∀ ann, gabs.Path "metadata.annotations" namespace = JObj ann →
          let stored := annotate "30" "4712" "" "alice" false namespace in
          annotationOf "openshift.io/kontierung-element" stored = JStr "4712"
          ∧ annotationOf "openshift.io/requester" stored = JStr "alice"
          ∧ annotationOf "openshift.io/MEGAID" stored
            = annotationOf "openshift.io/MEGAID" namespace
          ∧ annotationOf "openshift.io/testproject-daystodeletion" stored
            = annotationOf "openshift.io/testproject-daystodeletion" namespace
          ∧ annotationOf "openshift.io/description" stored
            = annotationOf "openshift.io/description" namespace.
Proof.
  intros srv permitted r.
  assert (r = (Done [(StatusOK,
                      ApiResponse "Die Verrechnungsdaten wurden gespeichert: 4712")],
               snd (fst r), snd r)) as Hrun by computed.
  split; [exact Hrun |].
  exact (legacy_updateBillingHandler_writes srv demoStore (snd (fst r)) "generic"
           "wrong usage" "30" c1Client permitted "alice" "demo" "4712" _ (snd r) Hrun).
Defined.

